(** * The integration-test daemon controller (integration-cli/daemon.go)

    A shallow embedding of the [Daemon] fixture: creation ([NewDaemon]),
    argument assembly and readiness polling ([StartWithLogFile]), the
    post-start root query ([queryRootDir]) and the two shutdown paths
    ([Kill], [Stop]).

    The controller talks to an operating system, a clock, a child process
    and an HTTP endpoint.  Each operation therefore takes a _world_: a record
    holding what the outside answers to every call the Go code makes, in the
    order the code makes them.  An operation returns the daemon value it
    leaves behind, how it ended, and the trace of the calls it made. *)

From Stdlib Require Import ZArith List String Ascii Bool Lia.
From Stdlib Require Import Numbers.DecimalString.
Import ListNotations.

Open Scope string_scope.
Open Scope list_scope.
Open Scope Z_scope.

(** String concatenation, Go's [+] on strings. *)
Notation "a +++ b" := (String.append a b) (at level 60, right associativity).

(** ** Go runtime and standard library *)

Module Go.

(** Go [error] values.  [errorString] is an error built by the code under
    study ([errors.New], [fmt.Errorf]); [sysError] is one handed back by
    the operating system or by a library. *)
Inductive error : Type :=
| errorString (msg : string)
| sysError (msg : string).

(** [err.Error()], which is also what the verb [%v] prints. *)
Definition Error (e : error) : string :=
  match e with
  | errorString m => m
  | sysError m => m
  end.

(** What a library call reports: [None] is Go's [nil] error. *)
Definition fromSys (r : option string) : option error :=
  option_map sysError r.

(** The verb [%d]. *)
Definition fmt_d (z : Z) : string := NilZero.string_of_int (Z.to_int z).

(** The verb [%t]. *)
Definition fmt_t (b : bool) : string := if b then "true" else "false".

(** [int64] arithmetic wraps around. *)
Definition wrap64 (z : Z) : Z := (z + 2 ^ 63) mod 2 ^ 64 - 2 ^ 63.
Definition sub64 (a b : Z) : Z := wrap64 (a - b).

(** Package [time]: durations and clock readings are nanoseconds. *)
Definition Millisecond : Z := 1000000.
Definition Second : Z := 1000 * Millisecond.

(** [t.Unix()] for a clock reading [t] in nanoseconds since the epoch. *)
Definition Unix (t : Z) : Z := t / Second.

(** [strings.Contains]. *)
Fixpoint Contains (s substr : string) : bool :=
  if prefix substr s then true
  else match s with
       | EmptyString => false
       | String _ s' => Contains s' substr
       end.

(** [strconv.ParseBool]: the accepted spellings, and [false] together
    with a syntax error for everything else.  (The error names the
    offending input; nothing in the controller reads that text.) *)
Definition ParseBool (str : string) : bool * option error :=
  if existsb (String.eqb str) ["1"; "t"; "T"; "TRUE"; "true"; "True"]
  then (true, None)
  else if existsb (String.eqb str) ["0"; "f"; "F"; "FALSE"; "false"; "False"]
  then (false, None)
  else (false, Some (sysError "strconv.ParseBool: invalid syntax")).

(** Package [path/filepath] on Unix. *)
Fixpoint splitOn (c : ascii) (s : string) : list string :=
  match s with
  | EmptyString => [EmptyString]
  | String a s' =>
      if Ascii.eqb a c then EmptyString :: splitOn c s'
      else match splitOn c s' with
           | [] => [String a EmptyString]
           | h :: t => String a h :: t
           end
  end.

(** One element of the path; [stack] holds the elements kept so far,
    the last one first. *)
Definition cleanStep (rooted : bool) (stack : list string) (elem : string)
  : list string :=
  if (elem =? "")%string || (elem =? ".")%string then stack
  else if (elem =? "..")%string then
    match stack with
    | top :: below => if (top =? "..")%string then elem :: stack else below
    | [] => if rooted then [] else [elem]
    end
  else elem :: stack.

Definition IsAbs (path : string) : bool := prefix "/" path.

Definition Clean (path : string) : string :=
  let rooted := IsAbs path in
  let kept := rev (fold_left (cleanStep rooted) (splitOn "/" path) []) in
  let body := String.concat "/" kept in
  if rooted then "/" +++ body
  else if (body =? "")%string then "." else body.

Fixpoint Join (elem : list string) : string :=
  match elem with
  | [] => ""
  | e :: rest =>
      if (e =? "")%string then Join rest else Clean (String.concat "/" elem)
  end.

(** [filepath.Abs], given what [os.Getwd] answers. *)
Definition Abs (getwd : string * option string) (path : string)
  : string * option error :=
  if IsAbs path then (Clean path, None)
  else match getwd with
       | (wd, None) => (Join [wd; path], None)
       | (_, Some e) => ("", Some (sysError e))
       end.

End Go.

Import Go.

(** ** Data model *)

(** [*os.File]: only the name matters here. *)
Record File : Type := mkFile { Name : string }.

(** [*os.Process]. *)
Record os_Process : Type := mkProcess { Pid : Z }.

(** [*exec.Cmd].  The field [Process] is [None] (Go's [nil]) until
    [cmd.Start()] has succeeded. *)
Record Cmd : Type := mkCmd {
  Path : string;
  Args : list string;
  Stdout : option File;
  Stderr : option File;
  Process : option os_Process
}.

(** [exec.Command(name, arg...)] for a [name] that is already a path, as
    the result of [exec.LookPath] is. *)
Definition exec_Command (name : string) (arg : list string) : Cmd :=
  mkCmd name (name :: arg) None None None.

(** The channel [wait chan error] made by [StartWithLogFile]; it carries the
    exit of the child with the given pid. *)
Inductive chan : Type := exitOf (pid : Z).

(** [type Daemon struct].  The field [c *check.C] is the reporting framework:
    its logging shows up in traces and a failed assertion ends the run as
    [Aborted]. *)
Record Daemon : Type := mkDaemon {
  Command : string;
  GlobalFlags : list string;
  id : string;
  logFile : option File;
  folder : string;
  root : string;
  cmd : option Cmd;
  storageDriver : string;
  wait : option chan;
  userlandProxy : bool;
  useDefaultHost : bool;
  useDefaultTLSHost : bool
}.

Definition set_root (r : string) (d : Daemon) : Daemon :=
  mkDaemon (Command d) (GlobalFlags d) (id d) (logFile d) (folder d) r
    (cmd d) (storageDriver d) (wait d) (userlandProxy d) (useDefaultHost d)
    (useDefaultTLSHost d).

Definition set_cmd (c : option Cmd) (d : Daemon) : Daemon :=
  mkDaemon (Command d) (GlobalFlags d) (id d) (logFile d) (folder d) (root d)
    c (storageDriver d) (wait d) (userlandProxy d) (useDefaultHost d)
    (useDefaultTLSHost d).

Definition set_logFile (f : option File) (d : Daemon) : Daemon :=
  mkDaemon (Command d) (GlobalFlags d) (id d) f (folder d) (root d)
    (cmd d) (storageDriver d) (wait d) (userlandProxy d) (useDefaultHost d)
    (useDefaultTLSHost d).

Definition set_wait (c : option chan) (d : Daemon) : Daemon :=
  mkDaemon (Command d) (GlobalFlags d) (id d) (logFile d) (folder d) (root d)
    (cmd d) (storageDriver d) c (userlandProxy d) (useDefaultHost d)
    (useDefaultTLSHost d).

(** [tlsconfig.Options] and the [*http.Transport] built from it. *)
Record TLSOptions : Type := mkTLSOptions {
  CAFile : string;
  CertFile : string;
  KeyFile : string
}.

Record Transport : Type := mkTransport {
  TLSClientConfig : option TLSOptions;
  dialProto : string;
  dialAddr : string
}.

(** [type clientConfig struct]. *)
Record clientConfig : Type := mkClientConfig {
  transport : Transport;
  scheme : string;
  addr : string
}.

(** An HTTP response as the controller reads it: the status, and what
    reading the body to its end gives. *)
Record Response : Type := mkResponse {
  StatusCode : Z;
  Status : string;
  Body : string * option string
}.

(** The struct [Info] that [queryRootDir] decodes into. *)
Record Info : Type := mkInfo { DockerRootDir : string }.

(** How an operation ends. *)
Inductive Outcome (A : Type) : Type :=
| Returned (a : A)        (* the function returned [a] *)
| Aborted (why : string)  (* a [check.C] assertion failed *)
| Panicked                (* nil dereference *)
| Blocked                 (* stuck in a call that never completes *)
| Unscheduled.            (* the given schedule ended before the loop did *)

Arguments Returned {A} a.
Arguments Aborted {A} why.
Arguments Panicked {A}.
Arguments Blocked {A}.
Arguments Unscheduled {A}.

(** What the controller does to the outside, in order. *)
Inductive Action : Type :=
| Logf (msg : string)                      (* d.c.Logf, d.c.Log *)
| Spawn (c : Cmd)                          (* d.cmd.Start() *)
| Do (method path : string) (cc : clientConfig)   (* client.Do(req) *)
| Signal (pid : Z)                         (* Process.Signal(os.Interrupt) *)
| HardKill (pid : Z)                       (* Process.Kill() *)
| Remove (path : string)                   (* os.Remove *)
| Close (f : File)                         (* d.logFile.Close() *)
| RecvWait (err : option error)            (* a receive from d.wait *)
| RecvAfter (dur : Z)                      (* a receive from time.After(dur) *)
| RecvTick (period : Z).                   (* a receive from time.Tick(period) *)

(** An operation on a daemon: the daemon afterwards, the outcome, the trace. *)
Record Run : Type := mkRun {
  after : Daemon;
  ended : Outcome (option error);
  trace : list Action
}.

(** ** Worlds

    A world fixes what the outside does.  Calls that return a Go error give
    [None] for [nil] and [Some msg] for an error with that text.  Every
    [select] of the source is answered by the case that fires; which case
    that is depends on timers, on the child and on the scheduler, so it is
    part of the world and not computed.  The goroutine that waits for the
    child and feeds [d.wait] shows up only as the case [<-d.wait] firing. *)

(** What [getClientConfig] meets: the result of [tlsconfig.Client] and of
    [sockets.ConfigureTransport]. *)
Record CfgWorld : Type := mkCfgWorld {
  tlsClient : option string;
  configureTransport : option string
}.

(** What [client.Do] gives. *)
Inductive DoResult : Type :=
| DoErr (e : string)
| DoResp (r : Response)
| DoHang.

(** One HTTP exchange: what [getClientConfig] meets, the error of
    [http.NewRequest], what [client.Do] gives, and the time that passes from
    the start of the exchange to the return of [client.Do]. *)
Record Exchange : Type := mkExchange {
  x_cfg : CfgWorld;
  x_newRequest : option string;
  x_took : Z;
  x_do : DoResult
}.

(** Which case of the [select] in the readiness loop fires. *)
Inductive Fired : Type :=
| FiredAfter                     (* <-time.After(2 * time.Second) *)
| FiredTick (x : Exchange)       (* <-tick, and what the attempt meets *)
| FiredWait (err : option string). (* <-d.wait *)

(** One turn of the readiness loop: the time spent blocked in [select] and
    the case that fired.  The list of turns given to [StartWithLogFile] is a
    schedule; the clock read at the head of the loop is the clock at start
    plus the time the turns so far have taken. *)
Record Turn : Type := mkTurn { waited : Z; fired : Fired }.

Record NewWorld : Type := mkNewWorld {
  n_getenv : string -> string;
  n_now : Z;                               (* time.Now(), in nanoseconds *)
  n_getwd : string * option string;
  n_mkdirAll : string -> option string
}.

Record StartWorld : Type := mkStartWorld {
  s_openFile : string -> File * option string;   (* os.OpenFile(name, ...) *)
  s_getenv : string -> string;
  s_lookPath : string -> string * option string;
  s_start : option string;                 (* d.cmd.Start() *)
  s_pid : Z;                               (* pid of the child *)
  s_now : Z;                               (* the clock when startTime is read *)
  s_sched : list Turn;
  s_info : Exchange                        (* the GET /info exchange *)
}.

(** Which case of a [select] in [Stop] fires. *)
Inductive StopSelect : Type :=
| GotWait (err : option string)
| GotTimer.

Record StopWorld : Type := mkStopWorld {
  k_signal : nat -> option string;   (* the n-th Process.Signal, from 0 *)
  k_window : StopSelect;             (* the select of the first loop *)
  k_escal : nat -> StopSelect;       (* the n-th select of the second loop *)
  k_kill : option string;            (* Process.Kill() *)
  k_remove : string -> option string (* os.Remove(path) *)
}.

(** ** The controller *)

Section Controller.

(** Declared elsewhere in the package or in the libraries it imports:
    the name of the client binary, the well-known addresses of package
    [opts], and [json.Unmarshal] at type [Info] (the decoded value and the
    error). *)
Variable dockerBinary : string.
Variable DefaultHTTPHost : string.
Variable DefaultTLSHTTPPort : Z.
Variable DefaultUnixSocket : string.
Variable json_Unmarshal : string -> Info * option string.

(** [fmt.Sprintf("[%s] ...", d.id)]. *)
Definition tagged (d : Daemon) (text : string) : string :=
  "[" +++ id d +++ "] " +++ text.

(** [fmt.Sprintf("%s/docker.pid", d.folder)]. *)
Definition pidFile (d : Daemon) : string := folder d +++ "/docker.pid".

(** *** NewDaemon *)

Definition NewDaemon (w : NewWorld) : Outcome Daemon :=
  let dest := n_getenv w "DEST" in
  if (dest =? "")%string then
    Aborted "Please set the DEST environment variable"
  else
    let id := "d" +++ fmt_d (Z.rem (wrap64 (n_now w)) 100000000) in
    let dir := Join [dest; id] in
    match Abs (n_getwd w) dir with
    | (_, Some _) => Aborted "Could not make %q an absolute path"
    | (daemonFolder, None) =>
        let daemonRoot := Join [daemonFolder; "root"] in
        match n_mkdirAll w daemonRoot with
        | Some _ => Aborted "Could not create daemon root %q"
        | None =>
            let userlandProxy := true in
            let userlandProxy :=
              let env := n_getenv w "DOCKER_USERLANDPROXY" in
              if negb (env =? "")%string then
                match ParseBool env with
                | (val, Some _) => val
                | (_, None) => userlandProxy
                end
              else userlandProxy in
            Returned
              {| Command := "daemon";
                 GlobalFlags := [];
                 id := id;
                 logFile := None;
                 folder := daemonFolder;
                 root := daemonRoot;
                 cmd := None;
                 storageDriver := n_getenv w "DOCKER_GRAPHDRIVER";
                 wait := None;
                 userlandProxy := userlandProxy;
                 useDefaultHost := false;
                 useDefaultTLSHost := false |}
        end
    end.

(** *** getClientConfig *)

Definition getClientConfig (cw : CfgWorld) (d : Daemon)
  : Outcome (clientConfig + error) :=
  let chosen : (option TLSOptions * string * string * string) + error :=
    if useDefaultTLSHost d then
      let option := {| CAFile := "fixtures/https/ca.pem";
                       CertFile := "fixtures/https/client-cert.pem";
                       KeyFile := "fixtures/https/client-key.pem" |} in
      match tlsClient cw with
      | Some e => inr (sysError e)
      | None =>
          inl (Some option,
               DefaultHTTPHost +++ ":" +++ fmt_d DefaultTLSHTTPPort,
               "https", "tcp")
      end
    else if useDefaultHost d then
      inl (None, DefaultUnixSocket, "http", "unix")
    else
      inl (None, Join [folder d; "docker.sock"], "http", "unix") in
  match chosen with
  | inr err => Returned (inr err)
  | inl (tls, addr, scheme, proto) =>
      match configureTransport cw with
      | Some _ => Aborted "sockets.ConfigureTransport"
      | None =>
          Returned (inl {| transport := mkTransport tls proto addr;
                          scheme := scheme;
                          addr := addr |})
      end
  end.

(** *** sock *)

Definition sock (d : Daemon) : string :=
  "unix://" +++ folder d +++ "/docker.sock".

(** *** The argument vector of StartWithLogFile *)

(** The loop over [providedArgs] that sets [foundLog] and [foundSd]. *)
Definition scanArgs (providedArgs : list string) : bool * bool :=
  fold_left
    (fun '(foundLog, foundSd) a =>
       (if Contains a "--log-level" || Contains a "-D" || Contains a "--debug"
        then true else foundLog,
        if Contains a "--storage-driver" then true else foundSd))
    providedArgs (false, false).

Definition startArgs (getenv : string -> string) (d : Daemon)
           (providedArgs : list string) : list string :=
  let args :=
    GlobalFlags d ++
    [ Command d;
      "--containerd"; "/var/run/docker/libcontainerd/docker-containerd.sock";
      "--graph"; root d;
      "--exec-root"; Join [folder d; "exec-root"];
      "--pidfile"; pidFile d;
      "--userland-proxy=" +++ fmt_t (userlandProxy d) ] in
  let args :=
    if negb (useDefaultHost d || useDefaultTLSHost d)
    then args ++ ["--host"; sock d] else args in
  let args :=
    let root := getenv "DOCKER_REMAP_ROOT" in
    if negb (root =? "")%string
    then args ++ ["--userns-remap"; root] else args in
  let '(foundLog, foundSd) := scanArgs providedArgs in
  let args := if negb foundLog then args ++ ["--debug"] else args in
  let args :=
    if negb (storageDriver d =? "")%string && negb foundSd
    then args ++ ["--storage-driver"; storageDriver d] else args in
  args ++ providedArgs.

(** *** queryRootDir *)

Definition queryRootDir (x : Exchange) (d : Daemon)
  : Outcome (string * option error) * list Action :=
  match getClientConfig (x_cfg x) d with
  | Aborted why => (Aborted why, [])
  | Panicked => (Panicked, [])
  | Blocked => (Blocked, [])
  | Unscheduled => (Unscheduled, [])
  | Returned (inr err) => (Returned ("", Some err), [])
  | Returned (inl clientConfig) =>
      match x_newRequest x with
      | Some e => (Returned ("", Some (sysError e)), [])
      | None =>
          let tr := [Do "GET" "/info" clientConfig] in
          match x_do x with
          | DoHang => (Blocked, tr)
          | DoErr e => (Returned ("", Some (sysError e)), tr)
          | DoResp resp =>
              let '(b, err) := Body resp in
              match err with
              | None =>
                  if StatusCode resp =? 200 then
                    match json_Unmarshal b with
                    | (i, None) => (Returned (DockerRootDir i, None), tr)
                    | (_, Some e) => (Returned ("", Some (sysError e)), tr)
                    end
                  else (Returned ("", None), tr)
              | Some e => (Returned ("", Some (sysError e)), tr)
              end
          end
      end
  end.

(** *** StartWithLogFile *)

(** What follows a completed ping: the two log lines, the root query, the
    assignment to [d.root] and the return. *)
Definition afterPing (info : Exchange) (d : Daemon) (resp : Response)
           (tr : list Action) : Run :=
  let tr :=
    if StatusCode resp =? 200 then tr
    else tr ++ [Logf (tagged d ("received status != 200 OK: " +++ Status resp))] in
  let tr := tr ++ [Logf (tagged d "daemon started")] in
  let '(q, qtr) := queryRootDir info d in
  let tr := tr ++ qtr in
  match q with
  | Returned (r, err) =>
      let d := set_root r d in
      match err with
      | Some e =>
          mkRun d
            (Returned (Some (errorString
               (tagged d ("error querying daemon for root directory: "
                             +++ Error e)))))
            tr
      | None => mkRun d (Returned None) tr
      end
  | Aborted why => mkRun d (Aborted why) tr
  | Panicked => mkRun d Panicked tr
  | Blocked => mkRun d Blocked tr
  | Unscheduled => mkRun d Unscheduled tr
  end.

(** The readiness loop.  [now] is the clock at the head of the loop. *)
Fixpoint pollLoop (info : Exchange) (d : Daemon) (startTime now : Z)
         (sched : list Turn) (tr : list Action) : Run :=
  let tr := tr ++ [Logf (tagged d "waiting for daemon to start")] in
  if sub64 (Unix now) startTime >? 5 then
    mkRun d
      (Returned (Some (errorString (tagged d "Daemon exited and never started"))))
      tr
  else
    match sched with
    | [] => mkRun d Unscheduled tr
    | turn :: rest =>
        let now := now + waited turn in
        match fired turn with
        | FiredAfter =>
            mkRun d
              (Returned (Some (errorString
                 (tagged d "timeout: daemon does not respond"))))
              (tr ++ [RecvAfter (2 * Second)])
        | FiredTick x =>
            let tr := tr ++ [RecvTick (500 * Millisecond)] in
            match getClientConfig (x_cfg x) d with
            | Returned (inr err) => mkRun d (Returned (Some err)) tr
            | Returned (inl clientConfig) =>
                match x_newRequest x with
                | Some _ =>
                    mkRun d (Aborted "[%s] could not create new request") tr
                | None =>
                    let tr := tr ++ [Do "GET" "/_ping" clientConfig] in
                    match x_do x with
                    | DoHang => mkRun d Blocked tr
                    | DoErr _ =>
                        pollLoop info d startTime (now + x_took x) rest tr
                    | DoResp resp => afterPing info d resp tr
                    end
                end
            | Aborted why => mkRun d (Aborted why) tr
            | Panicked => mkRun d Panicked tr
            | Blocked => mkRun d Blocked tr
            | Unscheduled => mkRun d Unscheduled tr
            end
        | FiredWait err =>
            mkRun d
              (Returned (Some (errorString
                 (tagged d "Daemon exited during startup"))))
              (tr ++ [RecvWait (fromSys err)])
        end
    end.

Definition StartWithLogFile (w : StartWorld) (d : Daemon) (out : File)
           (providedArgs : list string) : Run :=
  match s_lookPath w dockerBinary with
  | (_, Some _) =>
      mkRun d (Aborted "[%s] could not find docker binary in $PATH") []
  | (dockerBinary, None) =>
      let args := startArgs (s_getenv w) d providedArgs in
      let c := exec_Command dockerBinary args in
      let c := mkCmd (Path c) (Args c) (Some out) (Some out) (Process c) in
      let d := set_logFile (Some out) (set_cmd (Some c) d) in
      match s_start w with
      | Some err =>
          mkRun d
            (Returned (Some (errorString
               (tagged d ("could not start daemon container: " +++ err)))))
            [Spawn c]
      | None =>
          let running :=
            mkCmd (Path c) (Args c) (Stdout c) (Stderr c)
                  (Some (mkProcess (s_pid w))) in
          let d := set_wait (Some (exitOf (s_pid w)))
                            (set_cmd (Some running) d) in
          let startTime := Unix (s_now w) in
          pollLoop (s_info w) d startTime (s_now w) (s_sched w) [Spawn c]
      end
  end.

(** *** Start *)

Definition Start (w : StartWorld) (d : Daemon) (args : list string) : Run :=
  match s_openFile w (Join [folder d; "docker.log"]) with
  | (_, Some _) => mkRun d (Aborted "[%s] Could not create %s/docker.log") []
  | (logFile, None) => StartWithLogFile w d logFile args
  end.

(** *** Kill and Stop *)

(** The deferred function of [Kill] and [Stop]: close the log file, clear
    the handle. *)
Definition cleanup (d : Daemon) (out : Outcome (option error))
           (tr : list Action) : Run :=
  mkRun (set_cmd None d) out
        (match logFile d with
         | Some f => tr ++ [Close f]
         | None => tr
         end).

(** [Process.Kill()] and then [os.Remove] of the pid file, as both [Kill]
    and the end of [Stop] do them. *)
Definition killAndRemove (w : StopWorld) (d : Daemon) (p : os_Process)
           (tr : list Action) : Outcome (option error) * list Action :=
  let tr := tr ++ [HardKill (Pid p)] in
  match k_kill w with
  | Some err =>
      (Returned (Some (sysError err)),
       tr ++ [Logf ("Could not kill daemon: " +++ err)])
  | None =>
      let tr := tr ++ [Remove (pidFile d)] in
      match k_remove w (pidFile d) with
      | Some err => (Returned (Some (sysError err)), tr)
      | None => (Returned None, tr)
      end
  end.

Definition Kill (w : StopWorld) (d : Daemon) : Run :=
  match cmd d, wait d with
  | Some c, Some _ =>
      match Process c with
      | None => cleanup d Panicked []
      | Some p =>
          let '(out, tr) := killAndRemove w d p [] in
          cleanup d out tr
      end
  | _, _ => mkRun d (Returned (Some (errorString "daemon not started"))) []
  end.

(** How the second loop of [Stop] is left. *)
Inductive LoopExit : Type :=
| LoopReturn (err : option error)
| LoopBreak
| LoopFuel.

(** The loop [out2].  [i] is the attempt counter of the source; [n] counts
    the turns of the loop, so the select of this turn is the [n]-th and the
    interrupt sent in it is the [S n]-th signal of [Stop].  The loop runs on
    [fuel]; four turns are enough when [i] starts at 1 (see
    [escalate_fuel]). *)
Fixpoint escalate (fuel : nat) (w : StopWorld) (p : os_Process) (n : nat)
         (i : Z) (tr : list Action) : LoopExit * list Action :=
  match fuel with
  | O => (LoopFuel, tr)
  | S fuel =>
      match k_escal w n with
      | GotWait err =>
          (LoopReturn (fromSys err), tr ++ [RecvWait (fromSys err)])
      | GotTimer =>
          let tr := tr ++ [RecvTick Second] in
          let i := wrap64 (i + 1) in
          if i >? 4 then
            (LoopBreak,
             tr ++ [Logf ("tried to interrupt daemon for " +++ fmt_d i
                            +++ " times, now try to kill it")])
          else
            let tr :=
              tr ++ [Logf ("Attempt #" +++ fmt_d i
                             +++ ": daemon is still running with pid "
                             +++ fmt_d (Pid p));
                     Signal (Pid p)] in
            match k_signal w (S n) with
            | Some err =>
                (LoopReturn
                   (Some (errorString ("could not send signal: " +++ err))),
                 tr)
            | None => escalate fuel w p (S n) i tr
            end
      end
  end.

(** [Stop].  The loop [out1] makes one [select]: both of its cases leave
    it. *)
Definition Stop (w : StopWorld) (d : Daemon) : Run :=
  match cmd d, wait d with
  | Some c, Some _ =>
      match Process c with
      | None => cleanup d Panicked []
      | Some p =>
          let i := 1 in
          let tr := [Signal (Pid p)] in
          match k_signal w 0 with
          | Some err =>
              cleanup d
                (Returned
                   (Some (errorString ("could not send signal: " +++ err))))
                tr
          | None =>
              match k_window w with
              | GotWait err =>
                  cleanup d (Returned (fromSys err))
                          (tr ++ [RecvWait (fromSys err)])
              | GotTimer =>
                  let tr := tr ++ [RecvAfter (15 * Second); Logf "timeout"] in
                  match escalate 4 w p 0 i tr with
                  | (LoopReturn err, tr) => cleanup d (Returned err) tr
                  | (LoopFuel, tr) => cleanup d Unscheduled tr
                  | (LoopBreak, tr) =>
                      let '(out, tr) := killAndRemove w d p tr in
                      cleanup d out tr
                  end
              end
          end
      end
  | _, _ => mkRun d (Returned (Some (errorString "daemon not started"))) []
  end.

End Controller.


(** ** Sample inputs *)

Module Sample.

(** A daemon as [NewDaemon] makes it, in folder [/tmp/d1]. *)
Definition fresh : Daemon :=
  {| Command := "daemon";
     GlobalFlags := [];
     id := "d1";
     logFile := None;
     folder := "/tmp/d1";
     root := "/tmp/d1/root";
     cmd := None;
     storageDriver := "";
     wait := None;
     userlandProxy := true;
     useDefaultHost := false;
     useDefaultTLSHost := false |}.

Definition log : File := mkFile "/tmp/d1/docker.log".

(** The same daemon once started, with child 4242. *)
Definition running : Daemon :=
  set_wait (Some (exitOf 4242))
    (set_logFile (Some log)
       (set_cmd (Some (mkCmd "/usr/bin/docker" ["/usr/bin/docker"; "daemon"]
                             (Some log) (Some log) (Some (mkProcess 4242))))
                fresh)).

Definition noenv : string -> string := fun _ => "".

(** Values of the package-level names for the samples. *)
Definition binary : string := "docker".
Definition httpHost : string := "localhost".
Definition tlsPort : Z := 2376.
Definition unixSocket : string := "/var/run/docker.sock".

(** A stand-in for [json.Unmarshal] that knows two bodies: the empty one,
    which is not JSON, and anything else, read as an object whose
    [DockerRootDir] is [/tmp/d1/root]. *)
Definition unmarshal (b : string) : Info * option string :=
  if (b =? "")%string then (mkInfo "", Some "unexpected end of JSON input")
  else (mkInfo "/tmp/d1/root", None).

Definition cfgOk : CfgWorld := mkCfgWorld None None.

Definition ok200 : Response := mkResponse 200 "200 OK" ("OK", None).
Definition info200 : Response := mkResponse 200 "200 OK" ("{...}", None).
Definition err500 : Response :=
  mkResponse 500 "500 Internal Server Error" ("", None).

(** An exchange that takes [took] nanoseconds and ends as [r]. *)
Definition exchange (took : Z) (r : DoResult) : Exchange :=
  mkExchange cfgOk None took r.

(** A poll tick after [waited] nanoseconds in [select]. *)
Definition tick (waited took : Z) (r : DoResult) : Turn :=
  mkTurn waited (FiredTick (exchange took r)).

(** A world for [StartWithLogFile]: the binary is found, the child starts
    with pid 4242 at clock [1700000000.3s], [/info] answers 200. *)
Definition world (sched : list Turn) : StartWorld :=
  {| s_openFile := fun name => (mkFile name, None);
     s_getenv := noenv;
     s_lookPath := fun name => ("/usr/bin/" +++ name, None);
     s_start := None;
     s_pid := 4242;
     s_now := 1700000000 * Second + 300 * Millisecond;
     s_sched := sched;
     s_info := exchange Millisecond (DoResp info200) |}.

(** A child that ignores the interrupt: every signal is delivered, the exit
    never arrives, the kill and the removal of the pid file succeed. *)
Definition deaf : StopWorld :=
  {| k_signal := fun _ => None;
     k_window := GotTimer;
     k_escal := fun _ => GotTimer;
     k_kill := None;
     k_remove := fun _ => None |}.

(** The first interrupt cannot be sent. *)
Definition unsent : StopWorld :=
  {| k_signal := fun n => match n with
                          | O => Some "not supported by windows"
                          | S _ => None
                          end;
     k_window := GotTimer;
     k_escal := fun _ => GotTimer;
     k_kill := None;
     k_remove := fun _ => None |}.

(** The child exits during the wait window, with status 0. *)
Definition exitsInWindow : StopWorld :=
  {| k_signal := fun _ => None;
     k_window := GotWait None;
     k_escal := fun _ => GotTimer;
     k_kill := None;
     k_remove := fun _ => None |}.

(** The child exits after the second interrupt, during escalation. *)
Definition exitsLate : StopWorld :=
  {| k_signal := fun _ => None;
     k_window := GotTimer;
     k_escal := fun n => match n with
                         | 1%nat => GotWait None
                         | _ => GotTimer
                         end;
     k_kill := None;
     k_remove := fun _ => None |}.

(** The child ignores the interrupt and the kill fails. *)
Definition killFails : StopWorld :=
  {| k_signal := fun _ => None;
     k_window := GotTimer;
     k_escal := fun _ => GotTimer;
     k_kill := Some "os: process already finished";
     k_remove := fun _ => None |}.

(** The child ignores the interrupt, is killed, and the pid file cannot be
    removed. *)
Definition removeFails : StopWorld :=
  {| k_signal := fun _ => None;
     k_window := GotTimer;
     k_escal := fun _ => GotTimer;
     k_kill := None;
     k_remove := fun _ => Some "permission denied" |}.

(** An environment for [NewDaemon]: [DEST] is [/tmp] and the userland proxy
    is switched off by the variable. *)
Definition creation : NewWorld :=
  {| n_getenv := fun name =>
       if (name =? "DEST")%string then "/tmp"
       else if (name =? "DOCKER_USERLANDPROXY")%string then "false"
       else "";
     n_now := 1700000000 * Second + 123456789;
     n_getwd := ("/", None);
     n_mkdirAll := fun _ => None |}.

(** The same with a value that is no boolean. *)
Definition creationOdd : NewWorld :=
  {| n_getenv := fun name =>
       if (name =? "DEST")%string then "/tmp"
       else if (name =? "DOCKER_USERLANDPROXY")%string then "yes"
       else "";
     n_now := 1700000000 * Second + 123456789;
     n_getwd := ("/", None);
     n_mkdirAll := fun _ => None |}.

(** Schedules for the readiness loop.  Scenario D: one refused attempt at
    half a second, the exit of the child at one second. *)
Definition crash : list Turn :=
  [ tick (500 * Millisecond) Millisecond (DoErr "connection refused");
    mkTurn (499 * Millisecond) (FiredWait (Some "exit status 1")) ].

(** The first attempt is answered with status 500; the child exits later. *)
Definition unready : list Turn :=
  [ tick (500 * Millisecond) Millisecond (DoResp err500);
    mkTurn (499 * Millisecond) (FiredWait (Some "exit status 1")) ].




(** The same world with the [/info] exchange ending as [r]. *)
Definition worldInfo (sched : list Turn) (r : DoResult) : StartWorld :=
  {| s_openFile := fun name => (mkFile name, None);
     s_getenv := noenv;
     s_lookPath := fun name => ("/usr/bin/" +++ name, None);
     s_start := None;
     s_pid := 4242;
     s_now := 1700000000 * Second + 300 * Millisecond;
     s_sched := sched;
     s_info := exchange Millisecond r |}.

(** One answered attempt at half a second. *)
Definition up : list Turn :=
  [ tick (500 * Millisecond) Millisecond (DoResp ok200) ].

End Sample.


(** ** Reading traces *)

Definition isSignal (a : Action) : bool :=
  match a with Signal _ => true | _ => false end.

Definition isHardKill (a : Action) : bool :=
  match a with HardKill _ => true | _ => false end.

Definition isRemove (a : Action) : bool :=
  match a with Remove _ => true | _ => false end.

Definition isRecvWait (a : Action) : bool :=
  match a with RecvWait _ => true | _ => false end.

Definition isRecvTick (a : Action) : bool :=
  match a with RecvTick _ => true | _ => false end.

Definition isPing (a : Action) : bool :=
  match a with Do _ path _ => (path =? "/_ping")%string | _ => false end.

(** How many actions of a kind a trace holds. *)
Definition count (kind : Action -> bool) (tr : list Action) : nat :=
  List.length (filter kind tr).

(** The part of a [Stop] trace that follows the 15 second wait window. *)
Fixpoint afterWindow (tr : list Action) : list Action :=
  match tr with
  | [] => []
  | RecvAfter _ :: rest => rest
  | _ :: rest => afterWindow rest
  end.

(** A started instance: a handle with a live process, and a wait channel. *)
Definition started (d : Daemon) : Prop :=
  exists c p ch, cmd d = Some c /\ Process c = Some p /\ wait d = Some ch.

(** The pid of the child of a daemon, 0 when there is none. *)
Definition pidOf (d : Daemon) : Z :=
  match cmd d with
  | Some c => match Process c with Some p => Pid p | None => 0 end
  | None => 0
  end.

(** The trace of the deferred function. *)
Definition closing (d : Daemon) : list Action :=
  match logFile d with
  | Some f => [Close f]
  | None => []
  end.

(** A world in which the child ignores the interrupt: every signal is
    delivered and no exit arrives while [Stop] waits. *)
Definition ignoresInterrupt (w : StopWorld) : Prop :=
  (forall n, k_signal w n = None) /\
  k_window w = GotTimer /\
  (forall n, k_escal w n = GotTimer).

(** ** Reading schedules *)

(** A configuration world in which [getClientConfig] succeeds in every
    connection mode. *)
Definition cfgFine (cw : CfgWorld) : bool :=
  match tlsClient cw, configureTransport cw with
  | None, None => true
  | _, _ => false
  end.

(** A turn of the readiness loop that ends in [continue]: the tick fired,
    the request was built and [client.Do] returned an error. *)
Definition isRetry (t : Turn) : bool :=
  match fired t with
  | FiredTick x =>
      cfgFine (x_cfg x)
      && match x_newRequest x with None => true | Some _ => false end
      && match x_do x with DoErr _ => true | _ => false end
  | _ => false
  end.

(** The tick fired and [client.Do] returned an error. *)
Definition doFailed (t : Turn) : bool :=
  match fired t with
  | FiredTick x => match x_do x with DoErr _ => true | _ => false end
  | _ => false
  end.

(** The exchange reaches the server and is answered by [resp]. *)
Definition answered (x : Exchange) (resp : Response) : Prop :=
  cfgFine (x_cfg x) = true /\ x_newRequest x = None /\ x_do x = DoResp resp.

(** The ways the root query fails, told from the exchange with [/info] and
    not from what [queryRootDir] gives back: the TLS client cannot be built,
    the request cannot be created, [client.Do] returns an error, the body
    cannot be read to its end, or the body of a 200 answer does not decode.
    [m] is the text of the error met. *)
Inductive QueryFails (unmarshal : string -> Info * option string)
          (x : Exchange) (d : Daemon) (m : string) : Prop :=
| FailsTLS :
    useDefaultTLSHost d = true ->
    tlsClient (x_cfg x) = Some m ->
    QueryFails unmarshal x d m
| FailsRequest :
    cfgFine (x_cfg x) = true ->
    x_newRequest x = Some m ->
    QueryFails unmarshal x d m
| FailsDo :
    cfgFine (x_cfg x) = true ->
    x_newRequest x = None ->
    x_do x = DoErr m ->
    QueryFails unmarshal x d m
| FailsBody (resp : Response) (b : string) :
    answered x resp ->
    Body resp = (b, Some m) ->
    QueryFails unmarshal x d m
| FailsDecode (resp : Response) (b : string) (i : Info) :
    answered x resp ->
    Body resp = (b, None) ->
    StatusCode resp = 200 ->
    unmarshal b = (i, Some m) ->
    QueryFails unmarshal x d m.

(** The time a turn takes: the wait in [select] and, after a tick, the
    exchange. *)
Definition elapsed (t : Turn) : Z :=
  waited t + match fired t with FiredTick x => x_took x | _ => 0 end.

Definition total (sched : list Turn) : Z :=
  fold_right (fun t acc => elapsed t + acc) 0 sched.

(** Time runs forward during a turn: neither the wait nor the exchange
    takes a negative time. *)
Definition forward (t : Turn) : bool :=
  (0 <=? waited t) && (0 <=? elapsed t - waited t).

(** A run of failed attempts that starts at clock [t0] and is over within
    five seconds. *)
Definition retriesWithin (t0 : Z) (pre : list Turn) : bool :=
  (0 <=? t0) && (t0 <? 2 ^ 62)
  && forallb (fun t => isRetry t && forward t) pre
  && (total pre <=? 5 * Second).

(** The five-second check at the head of the readiness loop lets the loop
    go on at clock [now]. *)
Definition deadlineOpen (startTime now : Z) : bool :=
  negb (sub64 (Unix now) startTime >? 5).

(** The log line at the head of the readiness loop. *)
Definition waiting (d : Daemon) : Action :=
  Logf (tagged d "waiting for daemon to start").

(** The command [StartWithLogFile] builds, before the child runs. *)
Definition spawned (bin : string) (out : File) (args : list string) : Cmd :=
  mkCmd bin (bin :: args) (Some out) (Some out) None.

(** The daemon in the readiness loop: log file, running command and wait
    channel are set. *)
Definition launched (pid : Z) (d : Daemon) (out : File) (bin : string)
           (args : list string) : Daemon :=
  set_wait (Some (exitOf pid))
    (set_cmd (Some (mkCmd bin (bin :: args) (Some out) (Some out)
                          (Some (mkProcess pid))))
       (set_logFile (Some out) (set_cmd (Some (spawned bin out args)) d))).

(** The test on an argument that sets [foundLog]. *)
Definition logFlag (a : string) : bool :=
  Contains a "--log-level" || Contains a "-D" || Contains a "--debug".

(** The test on an argument that sets [foundSd]. *)
Definition sdFlag (a : string) : bool := Contains a "--storage-driver".

(** The four ways [Stop] ends on a started instance. *)
Inductive StopPath (w : StopWorld) (d : Daemon) (r : Run) : Prop :=
| ViaSignalError (body : list Action) (m : nat) (e : string) :
    trace r = body ++ closing d ->
    k_signal w m = Some e ->
    ended r = Returned (Some (errorString ("could not send signal: " +++ e))) ->
    existsb isRecvWait body = false ->
    existsb isHardKill body = false ->
    existsb isRemove body = false ->
    StopPath w d r
| ViaExit (body : list Action) (err : option error) :
    trace r = body ++ closing d ->
    ended r = Returned err ->
    In (RecvWait err) body ->
    existsb isHardKill body = false ->
    existsb isRemove body = false ->
    StopPath w d r
| ViaKillError (body : list Action) (e : string) :
    trace r = body ++ [HardKill (pidOf d);
                       Logf ("Could not kill daemon: " +++ e)] ++ closing d ->
    k_kill w = Some e ->
    ended r = Returned (Some (sysError e)) ->
    existsb isRecvWait body = false ->
    existsb isHardKill body = false ->
    existsb isRemove body = false ->
    StopPath w d r
| ViaKill (body : list Action) :
    trace r = body ++ [HardKill (pidOf d); Remove (pidFile d)] ++ closing d ->
    k_kill w = None ->
    ended r = Returned (fromSys (k_remove w (pidFile d))) ->
    existsb isRecvWait body = false ->
    existsb isHardKill body = false ->
    existsb isRemove body = false ->
    StopPath w d r.

(** ** More of the Go standard library *)

Module GoText.

(** Membership of a byte in a cutset of ASCII characters. *)
Definition inCutset (cutset : string) (c : ascii) : bool :=
  existsb (Ascii.eqb c) (list_ascii_of_string cutset).

Fixpoint TrimLeft (s cutset : string) : string :=
  match s with
  | EmptyString => EmptyString
  | String c s' => if inCutset cutset c then TrimLeft s' cutset else s
  end.

Fixpoint TrimRight (s cutset : string) : string :=
  match s with
  | EmptyString => EmptyString
  | String c s' =>
      let t := TrimRight s' cutset in
      if (t =? "")%string && inCutset cutset c then EmptyString
      else String c t
  end.

(** [strings.Trim] for a cutset made of ASCII characters: no byte of a
    multi-byte rune is in such a cutset, so trimming runes and trimming
    bytes agree. *)
Definition Trim (s cutset : string) : string :=
  if (s =? "")%string || (cutset =? "")%string then s
  else TrimLeft (TrimRight s cutset) cutset.

(** [path[:i+1]] for the index [i] of the last separator of [path], the
    empty string when there is none. *)
Fixpoint uptoLastSlash (path : string) : string :=
  match path with
  | EmptyString => EmptyString
  | String c rest =>
      let t := uptoLastSlash rest in
      if (t =? "")%string then
        if Ascii.eqb c "/" then String c EmptyString else EmptyString
      else String c t
  end.

(** [filepath.Dir] on Unix. *)
Definition Dir (path : string) : string := Clean (uptoLastSlash path).

End GoText.

Import GoText.

(** ** The command line client *)

(** What [os.Stat] reports, as [LoadBusybox] tells the cases apart. *)
Inductive StatResult : Type :=
| StatOk
| StatNotExist               (* an error for which os.IsNotExist holds *)
| StatError (e : string).    (* any other error *)

(** The world of the client commands: the combined output and the error of
    running an argument vector, what [os.Stat] and [os.Remove] answer. *)
Record CliWorld : Type := mkCliWorld {
  c_exec : list string -> string * option string;
  c_stat : string -> StatResult;
  c_remove : string -> option string
}.

(** What the client side does to the outside, in order. *)
Inductive CliCall : Type :=
| Exec (argv : list string)    (* exec.Command(argv...) run to its end *)
| Stat (path : string)         (* os.Stat *)
| Rm (path : string)           (* os.Remove *)
| Note (msg : string).         (* d.c.Log, d.c.Logf *)

(** The line [d.c.Log(err)] writes for a non-nil error. *)
Definition noteErr (err : option string) : list CliCall :=
  match err with
  | Some e => [Note e]
  | None => []
  end.

Section Commands.

Variable dockerBinary : string.
Variable DefaultHTTPHost : string.
Variable DefaultTLSHTTPPort : Z.
Variable DefaultUnixSocket : string.
Variable json_Unmarshal : string -> Info * option string.

(** [strings.TrimSpace], from the standard library. *)
Variable strings_TrimSpace : string -> string.

(** *** Cmd and CmdWithArgs *)

(** The method [Cmd] of [Daemon]; the name [Cmd] is the one of the record
    for [exec.Cmd], so the method is [Cmd_] here.  It returns what
    [CombinedOutput] gave, and the command it ran. *)

Definition Cmd_ (w : CliWorld) (d : Daemon) (name : string)
           (arg : list string) : (string * option error) * list CliCall :=
  let args := ["--host"; sock d; name] in
  let args := args ++ arg in
  let c := dockerBinary :: args in
  let '(b, err) := c_exec w c in
  ((b, fromSys err), [Exec c]).

Definition CmdWithArgs (w : CliWorld) (daemonArgs : list string)
           (name : string) (arg : list string)
  : (string * option error) * list CliCall :=
  let args := daemonArgs ++ [name] in
  let args := args ++ arg in
  let c := dockerBinary :: args in
  let '(b, err) := c_exec w c in
  ((b, fromSys err), [Exec c]).

(** *** LogFileName *)

Definition LogFileName (d : Daemon) : Outcome string :=
  match logFile d with
  | Some f => Returned (Name f)
  | None => Panicked
  end.

(** *** The inspection helpers *)

Definition inspectFilter (w : CliWorld) (d : Daemon) (name filter : string)
  : (string * option error) * list CliCall :=
  let format := "{{" +++ filter +++ "}}" in
  let '((out, err), calls) := Cmd_ w d "inspect" ["-f"; format; name] in
  match err with
  | Some _ =>
      (("", Some (errorString ("failed to inspect " +++ name +++ ": " +++ out))),
       calls)
  | None => ((strings_TrimSpace out, None), calls)
  end.

Definition inspectFieldWithError (w : CliWorld) (d : Daemon)
           (name field : string) : (string * option error) * list CliCall :=
  inspectFilter w d name ("." +++ field).

Definition getIDByName (w : CliWorld) (d : Daemon) (name : string)
  : (string * option error) * list CliCall :=
  inspectFieldWithError w d name "Id".

(** The cutset of [findContainerIP]: space, carriage return, line feed and
    the single quote. *)
Definition ipCutset : string :=
  String " " (String (ascii_of_nat 13) (String (ascii_of_nat 10) "'")).

Definition findContainerIP (w : CliWorld) (d : Daemon) (id : string)
  : string * list CliCall :=
  let '((out, err), calls) :=
    Cmd_ w d "inspect"
         ["--format='{{ .NetworkSettings.Networks.bridge.IPAddress }}'"; id] in
  (Trim out ipCutset, calls ++ noteErr (option_map Error err)).

(** *** LoadBusybox *)

Definition LoadBusybox (w : CliWorld) (d : Daemon)
  : option error * list CliCall :=
  let bb := Join [folder d; "busybox.tar"] in
  let load (calls : list CliCall) : option error * list CliCall :=
    let '((out, err), loadCalls) := Cmd_ w d "load" ["--input"; bb] in
    let calls := calls ++ loadCalls in
    match err with
    | Some _ =>
        (Some (errorString ("could not load busybox image: " +++ out)), calls)
    | None =>
        let calls := calls ++ [Rm bb] in
        match c_remove w bb with
        | Some e =>
            (None, calls ++ [Note ("could not remove " +++ bb +++ ": " +++ e)])
        | None => (None, calls)
        end
    end in
  match c_stat w bb with
  | StatOk => load [Stat bb]
  | StatError e =>
      (Some (errorString ("unexpected error on busybox.tar stat: " +++ e)),
       [Stat bb])
  | StatNotExist =>
      let save := [dockerBinary; "save"; "--output"; bb; "busybox:latest"] in
      match snd (c_exec w save) with
      | Some e =>
          (Some (errorString ("could not save busybox image: " +++ e)),
           [Stat bb; Exec save])
      | None => load [Stat bb; Exec save]
      end
  end.

(** *** StartWithBusybox *)

Definition StartWithBusybox (sw : StartWorld) (w : CliWorld) (d : Daemon)
           (arg : list string) : Run * list CliCall :=
  let r := Start dockerBinary DefaultHTTPHost DefaultTLSHTTPPort
                 DefaultUnixSocket json_Unmarshal sw d arg in
  match ended r with
  | Returned None =>
      let '(err, calls) := LoadBusybox w (after r) in
      (mkRun (after r) (Returned err) (trace r), calls)
  | _ => (r, [])
  end.

(** *** Restart *)

Definition Restart (kw : StopWorld) (sw : StartWorld) (d : Daemon)
           (arg : list string) : Run :=
  let stopped := Stop kw d in
  match ended stopped with
  | Returned _ =>
      let d := after stopped in
      let d :=
        let remap := s_getenv sw "DOCKER_REMAP_ROOT" in
        if negb (remap =? "")%string then set_root (Dir (root d)) d else d in
      let r := Start dockerBinary DefaultHTTPHost DefaultTLSHTTPPort
                     DefaultUnixSocket json_Unmarshal sw d arg in
      mkRun (after r) (ended r) (trace stopped ++ trace r)
  | Aborted why => mkRun (after stopped) (Aborted why) (trace stopped)
  | Panicked => mkRun (after stopped) Panicked (trace stopped)
  | Blocked => mkRun (after stopped) Blocked (trace stopped)
  | Unscheduled => mkRun (after stopped) Unscheduled (trace stopped)
  end.

End Commands.

(** ** More readers *)

Definition isClose (a : Action) : bool :=
  match a with Close _ => true | _ => false end.

Definition isSpawn (a : Action) : bool :=
  match a with Spawn _ => true | _ => false end.

Definition isInfo (a : Action) : bool :=
  match a with Do _ path _ => (path =? "/info")%string | _ => false end.

(** An action that acts on the child or on its files. *)
Definition isShutdown (a : Action) : bool :=
  isSignal a || isHardKill a || isRemove a || isClose a.

(** The daemon with another storage driver. *)
Definition set_storageDriver (s : string) (d : Daemon) : Daemon :=
  mkDaemon (Command d) (GlobalFlags d) (id d) (logFile d) (folder d) (root d)
    (cmd d) s (wait d) (userlandProxy d) (useDefaultHost d)
    (useDefaultTLSHost d).

(** Two daemons that differ at most in handle, log file, wait channel and
    root. *)
Definition sameInstance (d d' : Daemon) : Prop :=
  Command d' = Command d /\ GlobalFlags d' = GlobalFlags d /\ id d' = id d /\
  folder d' = folder d /\ storageDriver d' = storageDriver d /\
  userlandProxy d' = userlandProxy d /\ useDefaultHost d' = useDefaultHost d /\
  useDefaultTLSHost d' = useDefaultTLSHost d.

(** The guard of [Kill] and [Stop]: a handle and a wait channel. *)
Definition hasHandle (d : Daemon) : bool :=
  match cmd d, wait d with
  | Some _, Some _ => true
  | _, _ => false
  end.

(** What [Kill] and [Stop] give on a daemon without handle. *)
Definition notStarted (d : Daemon) : Run :=
  mkRun d (Returned (Some (errorString "daemon not started"))) [].

(** Every byte of [s] is in the cutset. *)
Definition allIn (cutset s : string) : bool :=
  forallb (inCutset cutset) (list_ascii_of_string s).

(** The first byte of [s] is in the cutset. *)
Definition headIn (cutset s : string) : bool :=
  match s with
  | EmptyString => false
  | String c _ => inCutset cutset c
  end.

(** The last byte of [s] is in the cutset. *)
Fixpoint lastIn (cutset s : string) : bool :=
  match s with
  | EmptyString => false
  | String c rest =>
      match rest with
      | EmptyString => inCutset cutset c
      | String _ _ => lastIn cutset rest
      end
  end.

(** The daemon in unix-ephemeral mode. *)
Definition ephemeral (d : Daemon) : Daemon :=
  mkDaemon (Command d) (GlobalFlags d) (id d) (logFile d) (folder d) (root d)
    (cmd d) (storageDriver d) (wait d) (userlandProxy d) false false.

(** The archive of [LoadBusybox] and its two commands. *)
Definition busyboxTar (d : Daemon) : string := Join [folder d; "busybox.tar"].

Definition saveCommand (bin : string) (d : Daemon) : list string :=
  [bin; "save"; "--output"; busyboxTar d; "busybox:latest"].

Definition loadCommand (bin : string) (d : Daemon) : list string :=
  [bin; "--host"; "unix://" +++ folder d +++ "/docker.sock";
   "load"; "--input"; busyboxTar d].

(** No byte of [s] is the separator. *)
Definition slashFree (s : string) : bool :=
  forallb (fun c => negb (Ascii.eqb c "/")) (list_ascii_of_string s).

(** A path element that [Clean] keeps as it is: a name without separator
    that is neither empty nor [.] nor [..]. *)
Definition plainName (e : string) : bool :=
  slashFree e && negb ((e =? "") || (e =? ".") || (e =? ".."))%string.

(** An absolute path that [Clean] leaves as it is, other than the root. *)
Definition isCleanAbs (p : string) : bool :=
  IsAbs p && (Clean p =? p)%string && negb (p =? "/")%string.

(** ** More sample inputs *)

Module SampleMore.

Import Sample.

(** A client whose commands all succeed with empty output, with no busybox
    archive on disk. *)
Definition cli : CliWorld :=
  {| c_exec := fun _ => ("", None);
     c_stat := fun _ => StatNotExist;
     c_remove := fun _ => None |}.

(** The child cannot be spawned. *)
Definition unspawnable : StartWorld :=
  {| s_openFile := fun name => (mkFile name, None);
     s_getenv := noenv;
     s_lookPath := fun name => ("/usr/bin/" +++ name, None);
     s_start := Some "fork/exec /usr/bin/docker: permission denied";
     s_pid := 0;
     s_now := 1700000000 * Second + 300 * Millisecond;
     s_sched := [];
     s_info := exchange Millisecond (DoResp info200) |}.

(** Scenario C: twelve refused attempts, half a second apart. *)
Definition refused : list Turn :=
  repeat (tick (500 * Millisecond) Millisecond (DoErr "connection refused")) 12.

(** The environment of a daemon with a remapped root. *)
Definition remapEnv (name : string) : string :=
  if (name =? "DOCKER_REMAP_ROOT")%string then "default" else "".

Definition remapped : StartWorld :=
  {| s_openFile := fun name => (mkFile name, None);
     s_getenv := remapEnv;
     s_lookPath := fun name => ("/usr/bin/" +++ name, None);
     s_start := None;
     s_pid := 4243;
     s_now := 1700000100 * Second;
     s_sched := up;
     s_info := exchange Millisecond (DoResp info200) |}.

(** The running daemon with the root it resolved under a remapped root. *)
Definition runningRemapped : Daemon := set_root "/tmp/d1/root/1000.1000" running.

End SampleMore.


(** ** Properties of Kill and Stop *)

Section Shutdown.

Implicit Types (w : StopWorld) (d : Daemon) (p : os_Process) (tr : list Action).

#[local] Arguments String.append : simpl never.

Lemma wrap64_small (z : Z) : - 2 ^ 63 <= z < 2 ^ 63 -> wrap64 z = z.
Proof.
  intros H. unfold wrap64.
  rewrite Z.mod_small by lia. lia.
Qed.

(** [cleanup] clears the handle, keeps the outcome and appends [closing]. *)
Lemma cleanup_eq d out tr :
  cleanup d out tr = mkRun (set_cmd None d) out (tr ++ closing d).
Proof.
  unfold cleanup, closing. destruct (logFile d); [reflexivity|].
  now rewrite app_nil_r.
Qed.

(** The escalation loop only adds to the trace, never kills or removes, and
    returns either on an exit it received or on a signal it could not send. *)
Lemma escalate_inv fuel : forall w p n i tr ex tr',
  escalate fuel w p n i tr = (ex, tr') ->
  exists added,
    tr' = tr ++ added /\
    existsb isHardKill added = false /\
    existsb isRemove added = false /\
    match ex with
    | LoopReturn err =>
        (In (RecvWait err) added) \/
        (existsb isRecvWait added = false /\
         exists m e, k_signal w m = Some e /\
                     err = Some (errorString ("could not send signal: " +++ e)))
    | LoopBreak | LoopFuel => existsb isRecvWait added = false
    end.
Proof.
  induction fuel as [|fuel IH]; intros w p n i tr ex tr' E; simpl in E.
  - inversion E; subst. exists []. now rewrite app_nil_r.
  - destruct (k_escal w n) as [err|] eqn:Esel.
    + inversion E; subst. eexists; split; [reflexivity|].
      simpl. repeat split; auto.
    + destruct (wrap64 (i + 1) >? 4) eqn:Ei.
      * inversion E; subst. rewrite <- app_assoc.
        eexists; split; [reflexivity|]. simpl. repeat split; auto.
      * destruct (k_signal w (S n)) as [e|] eqn:Esig.
        -- inversion E; subst. rewrite <- !app_assoc.
           eexists; split; [reflexivity|]. simpl. repeat split; auto.
           right; split; [reflexivity|]. now exists (S n), e.
        -- apply IH in E. destruct E as (added & -> & Hk & Hr & Hex).
           rewrite <- !app_assoc.
           eexists; split; [reflexivity|].
           rewrite !existsb_app. simpl. rewrite Hk, Hr. repeat split; auto.
           destruct ex; auto.
           destruct Hex as [Hin | [Hno Hsig]].
           ++ left. simpl. auto.
           ++ right. split; [|exact Hsig]. exact Hno.
Qed.

(** Four turns are enough for the loop started at [i = 1]. *)
Lemma escalate_fuel fuel : forall w p n i tr,
  1 <= i <= 4 -> 5 - i <= Z.of_nat fuel ->
  fst (escalate fuel w p n i tr) <> LoopFuel.
Proof.
  induction fuel as [|fuel IH]; intros w p n i tr Hi Hfuel.
  - exfalso. change (Z.of_nat 0) with 0 in Hfuel. lia.
  - simpl. destruct (k_escal w n); [discriminate|].
    assert (Hw : wrap64 (i + 1) = i + 1).
    { apply wrap64_small. change (2 ^ 63) with 9223372036854775808. lia. }
    rewrite Hw.
    destruct (i + 1 >? 4) eqn:Ei; [discriminate|].
    destruct (k_signal w (S n)); [discriminate|].
    apply IH; lia.
Qed.

(** [killAndRemove] adds the kill, and the removal when the kill worked. *)
Lemma killAndRemove_eq w d p tr :
  killAndRemove w d p tr =
  match k_kill w with
  | Some e =>
      (Returned (Some (sysError e)),
       tr ++ [HardKill (Pid p); Logf ("Could not kill daemon: " +++ e)])
  | None =>
      (Returned (fromSys (k_remove w (pidFile d))),
       tr ++ [HardKill (Pid p); Remove (pidFile d)])
  end.
Proof.
  unfold killAndRemove. destruct (k_kill w).
  - now rewrite <- app_assoc.
  - rewrite <- app_assoc. simpl. now destruct (k_remove w (pidFile d)).
Qed.

(** Side conditions of the paths below. *)
Ltac path_side :=
  cbn [trace ended];
  rewrite ?existsb_app;
  repeat match goal with
         | H : existsb _ _ = false |- _ => rewrite H
         | H : pidOf _ = _ |- _ => rewrite H
         end;
  rewrite <- ?app_assoc;
  auto using in_or_app.

Lemma Stop_paths w d :
  started d ->
  after (Stop w d) = set_cmd None d /\ StopPath w d (Stop w d).
Proof.
  intros (c & p & ch & Hc & Hp & Hw).
  assert (Hpid : pidOf d = Pid p) by (unfold pidOf; now rewrite Hc, Hp).
  unfold Stop. rewrite Hc, Hw, Hp.
  destruct (k_signal w 0) as [e|] eqn:Hs0.
  { rewrite cleanup_eq. split; [reflexivity|].
    now apply (ViaSignalError w d _ [Signal (Pid p)] 0%nat e). }
  destruct (k_window w) as [err|] eqn:Hwin.
  { rewrite cleanup_eq. split; [reflexivity|].
    apply (ViaExit w d _ ([Signal (Pid p)] ++ [RecvWait (fromSys err)])
                   (fromSys err)); simpl; auto. }
  destruct (escalate 4 w p 0 1 _) as [ex tr'] eqn:E.
  pose proof (escalate_fuel 4 w p 0 1
                ([Signal (Pid p)] ++ [RecvAfter (15 * Second); Logf "timeout"])
                ltac:(lia) ltac:(simpl; lia)) as Hfuel.
  rewrite E in Hfuel. simpl in Hfuel.
  apply escalate_inv in E. destruct E as (added & -> & Hk & Hr & Hex).
  set (tr0 := [Signal (Pid p)] ++ [RecvAfter (15 * Second); Logf "timeout"]).
  assert (H0 : existsb isRecvWait tr0 = false /\
               existsb isHardKill tr0 = false /\
               existsb isRemove tr0 = false) by (repeat split; reflexivity).
  destruct H0 as (H0w & H0k & H0r).
  destruct ex as [err| |]; [| |congruence].
  - rewrite cleanup_eq. split; [reflexivity|].
    destruct Hex as [Hin | (Hno & m & e & Hsig & ->)].
    + apply (ViaExit w d _ (tr0 ++ added) err); path_side.
    + apply (ViaSignalError w d _ (tr0 ++ added) m e); path_side.
  - rewrite killAndRemove_eq.
    destruct (k_kill w) as [e|] eqn:Hkill; rewrite cleanup_eq;
      (split; [reflexivity|]).
    + apply (ViaKillError w d _ (tr0 ++ added) e); path_side.
    + apply (ViaKill w d _ (tr0 ++ added)); path_side.
Qed.

Lemma count_app (kind : Action -> bool) (a b : list Action) :
  count kind (a ++ b) = (count kind a + count kind b)%nat.
Proof. unfold count. now rewrite filter_app, length_app. Qed.

Lemma count_cons (kind : Action -> bool) (a : Action) (l : list Action) :
  count kind (a :: l) = ((if kind a then 1 else 0) + count kind l)%nat.
Proof. unfold count. simpl. now destruct (kind a). Qed.

Lemma count_none (kind : Action -> bool) (l : list Action) :
  existsb kind l = false -> count kind l = 0%nat.
Proof.
  unfold count. induction l as [|a l IH]; [reflexivity|].
  simpl. destruct (kind a); [discriminate|]. exact IH.
Qed.

Lemma count_closing (kind : Action -> bool) d :
  (forall f, kind (Close f) = false) -> count kind (closing d) = 0%nat.
Proof.
  intros H. unfold closing, count. destruct (logFile d); [|reflexivity].
  simpl. now rewrite H.
Qed.

(** When the escalation loop is left by [break], it has seen [5 - i] ticks
    and sent [4 - i] interrupts since the counter was [i]. *)
Lemma escalate_break fuel : forall w p n i tr tr',
  1 <= i <= 4 ->
  escalate fuel w p n i tr = (LoopBreak, tr') ->
  exists added,
    tr' = tr ++ added /\
    count isSignal added = Z.to_nat (4 - i) /\
    count isRecvTick added = Z.to_nat (5 - i) /\
    existsb isHardKill added = false /\
    existsb isRecvWait added = false /\
    existsb isRemove added = false.
Proof.
  induction fuel as [|fuel IH]; intros w p n i tr tr' Hi E; simpl in E.
  - discriminate.
  - destruct (k_escal w n); [discriminate|].
    assert (Hw : wrap64 (i + 1) = i + 1).
    { apply wrap64_small. change (2 ^ 63) with 9223372036854775808. lia. }
    rewrite Hw in E.
    destruct (i + 1 >? 4) eqn:Ei.
    + inversion E; subst. rewrite <- app_assoc.
      eexists; split; [reflexivity|].
      apply Z.gtb_lt in Ei. assert (i = 4) as -> by lia.
      repeat split; reflexivity.
    + destruct (k_signal w (S n)); [discriminate|].
      assert (Hle : i + 1 <= 4).
      { destruct (Z.gtb_spec (i + 1) 4); [discriminate | lia]. }
      apply IH in E; [|lia].
      destruct E as (added & -> & Hs & Ht & Hk & Hx & Hr).
      rewrite <- !app_assoc.
      eexists; split; [reflexivity|].
      rewrite !count_app, !existsb_app, Hs, Ht, Hk, Hx, Hr.
      change (count isSignal [RecvTick Second]) with 0%nat.
      change (count isRecvTick [RecvTick Second]) with 1%nat.
      match goal with
      | |- context [count isSignal [Logf ?m; Signal ?q]] =>
          change (count isSignal [Logf m; Signal q]) with 1%nat;
          change (count isRecvTick [Logf m; Signal q]) with 0%nat
      end.
      repeat split; try reflexivity; lia.
Qed.

End Shutdown.
Section ShutdownClaims.

Implicit Types (w : StopWorld) (d : Daemon) (p : os_Process) (tr : list Action).

#[local] Arguments String.append : simpl never.

(** [Kill] on a started instance: one kill, then the removal of the pid file
    when the kill worked; the handle is cleared either way. *)
Lemma Kill_paths w d :
  started d ->
  after (Kill w d) = set_cmd None d /\
  match k_kill w with
  | Some e =>
      ended (Kill w d) = Returned (Some (sysError e)) /\
      trace (Kill w d) =
        [HardKill (pidOf d); Logf ("Could not kill daemon: " +++ e)]
          ++ closing d
  | None =>
      ended (Kill w d) = Returned (fromSys (k_remove w (pidFile d))) /\
      trace (Kill w d) =
        [HardKill (pidOf d); Remove (pidFile d)] ++ closing d
  end.
Proof.
  intros (c & p & ch & Hc & Hp & Hw).
  assert (Hpid : pidOf d = Pid p) by (unfold pidOf; now rewrite Hc, Hp).
  unfold Kill. rewrite Hc, Hw, Hp, killAndRemove_eq, Hpid.
  destruct (k_kill w); rewrite cleanup_eq; auto.
Qed.

(** Without a handle, or without a wait channel, [Stop] does nothing and
    reports that the daemon is not started. *)
Lemma Stop_not_started w d :
  cmd d = None \/ wait d = None ->
  Stop w d = mkRun d (Returned (Some (errorString "daemon not started"))) [].
Proof.
  unfold Stop. intros [H | H]; rewrite H; [reflexivity|].
  now destruct (cmd d).
Qed.

(** C1 (as amended).  When the child ignores the interrupt, [Stop] sends the
    interrupt once, waits out the 15 second window, and then acts on each
    tick of the one-second ticker: on the first three ticks it re-sends the
    interrupt (attempts #2 to #4, the first interrupt being attempt #1), and
    on the fourth tick it sends no interrupt but issues the hard kill.  And
    in every world a hard kill is issued only so: whenever the trace of
    [Stop] holds a hard kill, it holds exactly one, four interrupts sent in
    all, three of them after the window, four ticks received after the
    window and no exit received. *)
Theorem Stop_escalates_then_kills w d :
  started d ->
  let pid := pidOf d in
  let tr := trace (Stop w d) in
  (ignoresInterrupt w ->
   exists tail,
      tr =
        [ Signal pid;
          RecvAfter (15 * Second); Logf "timeout";
          RecvTick Second;
          Logf ("Attempt #2: daemon is still running with pid " +++ fmt_d pid);
          Signal pid;
          RecvTick Second;
          Logf ("Attempt #3: daemon is still running with pid " +++ fmt_d pid);
          Signal pid;
          RecvTick Second;
          Logf ("Attempt #4: daemon is still running with pid " +++ fmt_d pid);
          Signal pid;
          RecvTick Second;
          Logf "tried to interrupt daemon for 5 times, now try to kill it";
          HardKill pid ] ++ tail /\
      existsb isSignal tail = false /\
      existsb isHardKill tail = false) /\
  (existsb isHardKill tr = true ->
   count isHardKill tr = 1%nat /\
   count isSignal tr = 4%nat /\
   count isSignal (afterWindow tr) = 3%nat /\
   count isRecvTick (afterWindow tr) = 4%nat /\
   existsb isRecvWait tr = false).
Proof.
  intros (c & p & ch & Hc & Hp & Hw) pid tr.
  assert (Hpid : pid = Pid p) by (unfold pid, pidOf; now rewrite Hc, Hp).
  split.
  - intros (Hsig & Hwin & Hesc).
    unfold tr, Stop. rewrite Hc, Hw, Hp, Hsig, Hwin, Hpid.
    cbn [escalate]. rewrite !Hesc, !Hsig.
    change (wrap64 (1 + 1)) with 2. change (wrap64 (2 + 1)) with 3.
    change (wrap64 (3 + 1)) with 4. change (wrap64 (4 + 1)) with 5.
    cbn [Z.gtb Z.compare Pos.compare Pos.compare_cont].
    rewrite killAndRemove_eq.
    destruct (k_kill w) as [e|]; rewrite cleanup_eq; cbn [trace];
      rewrite <- !app_assoc; cbn [app]; unfold closing;
      destruct (logFile d); eexists; (split; [reflexivity|]);
      split; reflexivity.
  - unfold tr, Stop. rewrite Hc, Hw, Hp.
    assert (Hclose : forall f, (forall x, f (Close x) = false) ->
                               existsb f (closing d) = false).
    { intros f Hf. unfold closing. destruct (logFile d); simpl; [|reflexivity].
      now rewrite Hf. }
    destruct (k_signal w 0) as [e|].
    { rewrite cleanup_eq. cbn [trace]. rewrite existsb_app, Hclose by easy.
      discriminate. }
    destruct (k_window w) as [err|].
    { rewrite cleanup_eq. cbn [trace]. rewrite !existsb_app, Hclose by easy.
      discriminate. }
    destruct (escalate 4 w p 0 1 _) as [ex tr'] eqn:E.
    destruct ex as [err| |].
    + apply escalate_inv in E. destruct E as (added & -> & Hk & _).
      rewrite cleanup_eq. cbn [trace].
      rewrite !existsb_app, Hk, Hclose by easy. discriminate.
    + intros _. apply escalate_break in E; [|lia].
      destruct E as (added & -> & Hs & Ht & Hk & Hx & Hr).
      change (Z.to_nat (4 - 1)) with 3%nat in Hs.
      change (Z.to_nat (5 - 1)) with 4%nat in Ht.
      assert (Htail : exists tail,
                 killAndRemove w d p
                   (([Signal (Pid p)] ++ [RecvAfter (15 * Second); Logf "timeout"])
                      ++ added) =
                 (fst (killAndRemove w d p
                         (([Signal (Pid p)]
                             ++ [RecvAfter (15 * Second); Logf "timeout"])
                            ++ added)),
                  [Signal (Pid p); RecvAfter (15 * Second); Logf "timeout"]
                    ++ added ++ [HardKill (Pid p); tail]) /\
                 isSignal tail = false /\ isHardKill tail = false /\
                 isRecvTick tail = false /\ isRecvWait tail = false).
      { rewrite killAndRemove_eq. destruct (k_kill w) as [e|];
          eexists; (split; [rewrite <- ?app_assoc; cbn [fst app]; reflexivity|]);
          repeat split; reflexivity. }
      destruct Htail as (tail & -> & Ts & Tk & Tt & Tx).
      rewrite cleanup_eq. cbn [trace app afterWindow].
      rewrite !count_cons, !count_app, !count_cons.
      cbn [existsb]. rewrite !existsb_app. cbn [existsb].
      rewrite Hs, Ht, Hx, Ts, Tk, Tt, Tx.
      rewrite (count_none isHardKill added Hk).
      rewrite (count_closing isHardKill), (count_closing isSignal),
        (count_closing isRecvTick), (Hclose isRecvWait) by easy.
      repeat split; reflexivity.
    + exfalso.
      pose proof (escalate_fuel 4 w p 0 1
                    ([Signal (Pid p)]
                       ++ [RecvAfter (15 * Second); Logf "timeout"])
                    ltac:(lia) ltac:(simpl; lia)) as Hfuel.
      rewrite E in Hfuel. now apply Hfuel.
Qed.

(** C3 (as amended).  On a started instance [Stop] always returns, with the
    handle cleared, and it returns in one of three situations: it received
    the exit of the process from the wait channel, or it issued the hard
    kill, or it could not send an interrupt and gives back the error
    [could not send signal] (having seen no exit and issued no kill). *)
Theorem Stop_returns_cleared w d :
  started d ->
  let r := Stop w d in
  cmd (after r) = None /\
  exists out,
    ended r = Returned out /\
    (existsb isRecvWait (trace r) = true \/
     existsb isHardKill (trace r) = true \/
     (exists m e,
         k_signal w m = Some e /\
         out = Some (errorString ("could not send signal: " +++ e)) /\
         existsb isRecvWait (trace r) = false /\
         existsb isHardKill (trace r) = false)).
Proof.
  intros Hst r. destruct (Stop_paths w d Hst) as [Hafter Hpath].
  fold r in Hafter, Hpath. split; [now rewrite Hafter|].
  assert (Hclose : forall f, (forall x, f (Close x) = false) ->
                             existsb f (closing d) = false).
  { intros f Hf. unfold closing. destruct (logFile d); simpl; [|reflexivity].
    now rewrite Hf. }
  destruct Hpath as [body m e Htr Hsig Hend Hw Hk Hr
                    | body err Htr Hend Hin Hk Hr
                    | body e Htr Hkill Hend Hw Hk Hr
                    | body Htr Hkill Hend Hw Hk Hr];
    eexists; (split; [exact Hend|]); rewrite Htr, !existsb_app.
  - right; right. exists m, e. repeat split; auto.
    + rewrite Hw. now apply Hclose.
    + rewrite Hk. now apply Hclose.
  - left. apply orb_true_iff. left.
    apply existsb_exists. now exists (RecvWait err).
  - right; left. simpl. now rewrite !orb_true_r.
  - right; left. simpl. now rewrite !orb_true_r.
Qed.

(** C7.  A second [Stop] right after a first one returns [daemon not
    started], touches nothing (no second close of the log file) and leaves
    the daemon as it was, whatever the first call met.  On a started
    instance the first call returns (it neither panics nor hangs) with the
    handle cleared on every path, and it still reports its own error: an
    interrupt that cannot be sent, a failed kill and a failed removal of the
    pid file all reach the caller. *)
Theorem Stop_twice w1 w2 d :
  let r1 := Stop w1 d in
  let r2 := Stop w2 (after r1) in
  r2 = mkRun (after r1) (Returned (Some (errorString "daemon not started"))) [] /\
  (started d ->
   (exists out, ended r1 = Returned out) /\
   cmd (after r1) = None /\
   (forall e, k_signal w1 0 = Some e ->
      ended r1 = Returned (Some (errorString ("could not send signal: " +++ e)))) /\
   (forall e, existsb isHardKill (trace r1) = true -> k_kill w1 = Some e ->
      ended r1 = Returned (Some (sysError e))) /\
   (forall e, existsb isHardKill (trace r1) = true -> k_kill w1 = None ->
      k_remove w1 (pidFile d) = Some e ->
      ended r1 = Returned (Some (sysError e)))).
Proof.
  intros r1 r2. split.
  - unfold r2. apply Stop_not_started. unfold r1, Stop.
    destruct (cmd d) as [c|] eqn:Hc; [|now left].
    destruct (wait d) as [ch|] eqn:Hw; [|now right].
    left.
    assert (Hclean : forall out tr, cmd (after (cleanup d out tr)) = None)
      by reflexivity.
    destruct (Process c) as [p|]; [|apply Hclean].
    destruct (k_signal w1 0); [apply Hclean|].
    destruct (k_window w1); [apply Hclean|].
    destruct (escalate 4 w1 p 0 1 _) as [[err| |] tr']; try apply Hclean.
    destruct (killAndRemove w1 d p tr'). apply Hclean.
  - intros Hst. destruct (Stop_paths w1 d Hst) as [Hafter Hpath].
    fold r1 in Hafter, Hpath.
    assert (Hclose : existsb isHardKill (closing d) = false).
    { unfold closing. now destruct (logFile d). }
    split; [|split; [now rewrite Hafter|split; [|split]]].
    + destruct Hpath; eauto.
    + intros e He. destruct Hst as (c & p & ch & Hc & Hp & Hw).
      unfold r1, Stop. rewrite Hc, Hw, Hp, He. now rewrite cleanup_eq.
    + intros e Hk Hkill.
      destruct Hpath as [body m e' Htr Hsig Hend Hw Hk' Hr
                        | body err Htr Hend Hin Hk' Hr
                        | body e' Htr Hkill' Hend Hw Hk' Hr
                        | body Htr Hkill' Hend Hw Hk' Hr];
        try congruence;
        rewrite Htr, existsb_app, Hk', Hclose in Hk; discriminate.
    + intros e Hk Hkill Hrem.
      destruct Hpath as [body m e' Htr Hsig Hend Hw Hk' Hr
                        | body err Htr Hend Hin Hk' Hr
                        | body e' Htr Hkill' Hend Hw Hk' Hr
                        | body Htr Hkill' Hend Hw Hk' Hr];
        try congruence;
        try (rewrite Htr, existsb_app, Hk', Hclose in Hk; discriminate).
      now rewrite Hend, Hrem.
Qed.

(** C8 (as amended).  The pid file is removed on the hard-kill paths only:
    after a successful [Process.Kill], both [Kill] and [Stop] remove it and
    return what the removal returned, so a failed removal reaches the
    caller.  When [Stop] instead receives the exit of the process, in the
    wait window or during escalation, it returns the received value and
    makes no removal. *)
Theorem pidfile_removed_after_kill_only w d :
  started d ->
  (k_kill w = None ->
     In (Remove (pidFile d)) (trace (Kill w d)) /\
     ended (Kill w d) = Returned (fromSys (k_remove w (pidFile d)))) /\
  (existsb isHardKill (trace (Stop w d)) = true -> k_kill w = None ->
     In (Remove (pidFile d)) (trace (Stop w d)) /\
     ended (Stop w d) = Returned (fromSys (k_remove w (pidFile d)))) /\
  (existsb isRecvWait (trace (Stop w d)) = true ->
     existsb isRemove (trace (Stop w d)) = false /\
     exists err, In (RecvWait err) (trace (Stop w d)) /\
                 ended (Stop w d) = Returned err).
Proof.
  intros Hst.
  assert (Hclose : forall f, (forall x, f (Close x) = false) ->
                             existsb f (closing d) = false).
  { intros f Hf. unfold closing. destruct (logFile d); simpl; [|reflexivity].
    now rewrite Hf. }
  split; [|split].
  - intros Hkill. destruct (Kill_paths w d Hst) as [_ H].
    rewrite Hkill in H. destruct H as [Hend Htr].
    split; [|exact Hend]. rewrite Htr. simpl. auto.
  - intros Hk Hkill. destruct (Stop_paths w d Hst) as [_ Hpath].
    destruct Hpath as [body m e' Htr Hsig Hend Hw Hk' Hr
                      | body err Htr Hend Hin Hk' Hr
                      | body e' Htr Hkill' Hend Hw Hk' Hr
                      | body Htr Hkill' Hend Hw Hk' Hr];
      try congruence;
      try (rewrite Htr, existsb_app, Hk', (Hclose isHardKill) in Hk;
           [discriminate | reflexivity]).
    split; [|exact Hend]. rewrite Htr.
    apply in_or_app. right. simpl. auto.
  - intros Hx. destruct (Stop_paths w d Hst) as [_ Hpath].
    destruct Hpath as [body m e' Htr Hsig Hend Hw Hk' Hr
                      | body err Htr Hend Hin Hk' Hr
                      | body e' Htr Hkill' Hend Hw Hk' Hr
                      | body Htr Hkill' Hend Hw Hk' Hr].
    + rewrite Htr, existsb_app, Hw, (Hclose isRecvWait) in Hx;
        [discriminate | reflexivity].
    + split.
      * rewrite Htr, existsb_app, Hr. now apply Hclose.
      * exists err. split; [|exact Hend]. rewrite Htr.
        apply in_or_app. now left.
    + rewrite Htr, !existsb_app, Hw, (Hclose isRecvWait) in Hx;
        [discriminate | reflexivity].
    + rewrite Htr, !existsb_app, Hw, (Hclose isRecvWait) in Hx;
        [discriminate | reflexivity].
Qed.

End ShutdownClaims.

(** ** Properties of NewDaemon and StartWithLogFile *)

Section Startup.

Variable dockerBinary : string.
Variable DefaultHTTPHost : string.
Variable DefaultTLSHTTPPort : Z.
Variable DefaultUnixSocket : string.
Variable json_Unmarshal : string -> Info * option string.

#[local] Abbreviation getCfg :=
  (getClientConfig DefaultHTTPHost DefaultTLSHTTPPort DefaultUnixSocket).
#[local] Abbreviation query :=
  (queryRootDir DefaultHTTPHost DefaultTLSHTTPPort DefaultUnixSocket
                json_Unmarshal).
#[local] Abbreviation pinged :=
  (afterPing DefaultHTTPHost DefaultTLSHTTPPort DefaultUnixSocket
             json_Unmarshal).
#[local] Abbreviation poll :=
  (pollLoop DefaultHTTPHost DefaultTLSHTTPPort DefaultUnixSocket
            json_Unmarshal).
#[local] Abbreviation StartWith :=
  (StartWithLogFile dockerBinary DefaultHTTPHost DefaultTLSHTTPPort
                    DefaultUnixSocket json_Unmarshal).

Implicit Types (d : Daemon) (tr : list Action) (sched pre rest : list Turn).

#[local] Arguments String.append : simpl never.

(** *** Strings *)

Lemma append_inj_l (s a b : string) : s +++ a = s +++ b -> a = b.
Proof.
  induction s as [|c s IH]; simpl; intros H; [exact H|].
  injection H as H. now apply IH.
Qed.

Lemma tagged_inj d (a b : string) : tagged d a = tagged d b -> a = b.
Proof.
  unfold tagged. intros H.
  apply (append_inj_l "[") in H. apply append_inj_l in H.
  now apply (append_inj_l "] ") in H.
Qed.

Lemma returned_tagged d (a b : string) :
  @Returned (option error) (Some (errorString (tagged d a))) =
  Returned (Some (errorString (tagged d b))) ->
  a = b.
Proof. intros H. apply (tagged_inj d). congruence. Qed.

(** *** The clock *)

Lemma deadline_open (t0 e : Z) :
  0 <= t0 < 2 ^ 62 -> 0 <= e <= 5 * Second ->
  deadlineOpen (Unix t0) (t0 + e) = true.
Proof.
  intros Ht He. unfold deadlineOpen, sub64, Unix in *.
  change Second with 1000000000 in *.
  change (2 ^ 62) with 4611686018427387904 in Ht.
  assert (H1 : t0 / 1000000000 <= (t0 + e) / 1000000000)
    by (apply Z.div_le_mono; lia).
  assert (H2 : (t0 + e) / 1000000000 <= (t0 + 5 * 1000000000) / 1000000000)
    by (apply Z.div_le_mono; lia).
  rewrite Z.div_add in H2 by lia.
  rewrite wrap64_small.
  - apply negb_true_iff. rewrite Z.gtb_ltb. apply Z.ltb_ge. lia.
  - change (2 ^ 63) with 9223372036854775808. lia.
Qed.

(** *** getClientConfig *)

Lemma getClientConfig_fine (cw : CfgWorld) d :
  cfgFine cw = true -> exists cc, getCfg cw d = Returned (inl cc).
Proof.
  unfold cfgFine, getClientConfig. intros H.
  destruct (tlsClient cw); [discriminate|].
  destruct (configureTransport cw); [discriminate|].
  destruct (useDefaultTLSHost d), (useDefaultHost d); eauto.
Qed.

(** *** One turn of the readiness loop *)

Lemma poll_after info d st now w rest tr :
  deadlineOpen st now = true ->
  poll info d st now (mkTurn w FiredAfter :: rest) tr =
  mkRun d
    (Returned (Some (errorString (tagged d "timeout: daemon does not respond"))))
    (tr ++ [waiting d; RecvAfter (2 * Second)]).
Proof.
  unfold deadlineOpen. intros H%negb_true_iff. cbn [pollLoop]. rewrite H.
  cbn [fired]. now rewrite <- app_assoc.
Qed.

Lemma poll_wait info d st now w err rest tr :
  deadlineOpen st now = true ->
  poll info d st now (mkTurn w (FiredWait err) :: rest) tr =
  mkRun d
    (Returned (Some (errorString (tagged d "Daemon exited during startup"))))
    (tr ++ [waiting d; RecvWait (fromSys err)]).
Proof.
  unfold deadlineOpen. intros H%negb_true_iff. cbn [pollLoop]. rewrite H.
  cbn [fired]. now rewrite <- app_assoc.
Qed.

Lemma poll_deadline info d st now sched tr :
  deadlineOpen st now = false ->
  poll info d st now sched tr =
  mkRun d
    (Returned (Some (errorString (tagged d "Daemon exited and never started"))))
    (tr ++ [waiting d]).
Proof.
  unfold deadlineOpen. intros H%negb_false_iff.
  destruct sched; cbn [pollLoop]; now rewrite H.
Qed.

Lemma poll_answered info d st now w x resp rest tr :
  deadlineOpen st now = true ->
  answered x resp ->
  exists cc,
    getCfg (x_cfg x) d = Returned (inl cc) /\
    poll info d st now (mkTurn w (FiredTick x) :: rest) tr =
    pinged info d resp
      (tr ++ [waiting d; RecvTick (500 * Millisecond); Do "GET" "/_ping" cc]).
Proof.
  unfold deadlineOpen. intros H%negb_true_iff (Hcfg & Hreq & Hdo).
  destruct (getClientConfig_fine (x_cfg x) d Hcfg) as [cc Hcc].
  exists cc. split; [exact Hcc|].
  cbn [pollLoop]. rewrite H. cbn [fired]. rewrite Hcc, Hreq, Hdo.
  now rewrite <- !app_assoc.
Qed.

Lemma poll_retry info d st now t rest tr :
  deadlineOpen st now = true ->
  isRetry t = true ->
  exists cc,
    poll info d st now (t :: rest) tr =
    poll info d st (now + elapsed t) rest
      (tr ++ [waiting d; RecvTick (500 * Millisecond); Do "GET" "/_ping" cc]).
Proof.
  unfold deadlineOpen, isRetry, elapsed. intros H%negb_true_iff Hr.
  destruct t as [w f]. cbn [fired waited] in *.
  destruct f as [|x|]; try discriminate.
  apply andb_true_iff in Hr. destruct Hr as [Hr Hdo].
  apply andb_true_iff in Hr. destruct Hr as [Hcfg Hreq].
  destruct (getClientConfig_fine (x_cfg x) d Hcfg) as [cc Hcc].
  exists cc. cbn [pollLoop]. rewrite H. cbn [fired waited]. rewrite Hcc.
  destruct (x_newRequest x); [discriminate|].
  destruct (x_do x); try discriminate.
  rewrite <- !app_assoc, Z.add_assoc. reflexivity.
Qed.

(** A run of failed attempts that is over within five seconds is stepped
    over: the loop goes on with what follows, later on the clock. *)
Lemma poll_retries info d t0 pre : forall e0 rest tr,
  0 <= t0 < 2 ^ 62 ->
  0 <= e0 ->
  forallb (fun t => isRetry t && forward t) pre = true ->
  e0 + total pre <= 5 * Second ->
  exists added,
    poll info d (Unix t0) (t0 + e0) (pre ++ rest) tr =
    poll info d (Unix t0) (t0 + e0 + total pre) rest (tr ++ added) /\
    count isPing added = List.length pre /\
    existsb isRecvWait added = false.
Proof.
  induction pre as [|t pre IH]; intros e0 rest tr Ht0 He0 Hall Htot.
  - exists []. cbn [total fold_right app]. rewrite Z.add_0_r, app_nil_r. auto.
  - cbn [forallb] in Hall. apply andb_true_iff in Hall.
    destruct Hall as [Ht Hall]. apply andb_true_iff in Ht.
    destruct Ht as [Hretry Hfw].
    unfold forward in Hfw. apply andb_true_iff in Hfw.
    destruct Hfw as [Hw Hx]. apply Z.leb_le in Hw, Hx.
    cbn [total fold_right] in Htot. fold (total pre) in Htot.
    assert (Hpre : 0 <= total pre).
    { clear -Hall. induction pre as [|u pre IH]; cbn [total fold_right].
      - lia.
      - fold (total pre). cbn [forallb] in Hall.
        apply andb_true_iff in Hall. destruct Hall as [Hu Hall].
        apply andb_true_iff in Hu. destruct Hu as [_ Hu].
        unfold forward in Hu. apply andb_true_iff in Hu.
        destruct Hu as [Hu1 Hu2]. apply Z.leb_le in Hu1, Hu2.
        specialize (IH Hall). lia. }
    assert (Hopen : deadlineOpen (Unix t0) (t0 + e0) = true)
      by (apply deadline_open; lia).
    destruct (poll_retry info d (Unix t0) (t0 + e0) t (pre ++ rest) tr
                Hopen Hretry) as [cc Hstep].
    destruct (IH (e0 + elapsed t) rest
                 (tr ++ [waiting d; RecvTick (500 * Millisecond);
                         Do "GET" "/_ping" cc]) Ht0
                 ltac:(lia) Hall ltac:(lia)) as (added & Hrec & Hcount & Hno).
    exists ([waiting d; RecvTick (500 * Millisecond); Do "GET" "/_ping" cc]
              ++ added).
    cbn [app] in Hstep |- *. rewrite Hstep.
    cbn [total fold_right]. fold (total pre).
    replace (t0 + e0 + (elapsed t + total pre))
      with (t0 + (e0 + elapsed t) + total pre) by lia.
    replace (t0 + e0 + elapsed t) with (t0 + (e0 + elapsed t)) by lia.
    rewrite Hrec, <- app_assoc. cbn [app]. split; [reflexivity|].
    split.
    + unfold count in *. cbn [filter isPing waiting]. cbn. now rewrite Hcount.
    + cbn [existsb isRecvWait waiting orb]. exact Hno.
Qed.

(** *** From Start into the loop *)

Lemma Start_opens (w : StartWorld) d (args : list string) (f : File) :
  s_openFile w (Join [folder d; "docker.log"]) = (f, None) ->
  Start dockerBinary DefaultHTTPHost DefaultTLSHTTPPort DefaultUnixSocket
        json_Unmarshal w d args =
  StartWith w d f args.
Proof. unfold Start. now intros ->. Qed.

Lemma Start_launch (w : StartWorld) d (out : File) (providedArgs : list string)
      (bin : string) :
  s_lookPath w dockerBinary = (bin, None) ->
  s_start w = None ->
  let args := startArgs (s_getenv w) d providedArgs in
  StartWith w d out providedArgs =
  poll (s_info w) (launched (s_pid w) d out bin args)
       (Unix (s_now w)) (s_now w) (s_sched w) [Spawn (spawned bin out args)].
Proof.
  intros Hlook Hstart args. unfold StartWithLogFile.
  rewrite Hlook, Hstart. reflexivity.
Qed.

Lemma query_launched (info : Exchange) pid d out bin args :
  query info (launched pid d out bin args) = query info d.
Proof. reflexivity. Qed.

(** A failed root query gives back the empty string. *)
Lemma query_error_root (info : Exchange) d (r : string) (e : error) :
  fst (query info d) = Returned (r, Some e) -> r = "".
Proof.
  unfold queryRootDir.
  destruct (getCfg (x_cfg info) d) as [[cc|err]| | | |]; simpl;
    try discriminate; try (now intros [= <- _]).
  destruct (x_newRequest info); simpl; try (now intros [= <- _]).
  destruct (x_do info) as [e'|resp|]; simpl;
    try discriminate; try (now intros [= <- _]).
  destruct (Body resp) as [b [e'|]]; simpl; try (now intros [= <- _]).
  destruct (StatusCode resp =? 200); simpl; try discriminate.
  destruct (json_Unmarshal b) as [i [e'|]]; simpl;
    try discriminate; now intros [= <- _].
Qed.

(** What [afterPing] returns is decided by the root query alone. *)
Lemma pinged_result (info : Exchange) d (resp : Response) tr :
  let r := pinged info d resp tr in
  match fst (query info d) with
  | Returned (root', None) =>
      ended r = Returned None /\ after r = set_root root' d
  | Returned (root', Some e) =>
      ended r =
        Returned (Some (errorString
          (tagged d ("error querying daemon for root directory: " +++ Error e))))
      /\ after r = set_root root' d
  | Aborted why => ended r = Aborted why /\ after r = d
  | Panicked => ended r = Panicked /\ after r = d
  | Blocked => ended r = Blocked /\ after r = d
  | Unscheduled => ended r = Unscheduled /\ after r = d
  end.
Proof.
  unfold afterPing. destruct (query info d) as [q qtr]. cbn [fst].
  destruct q as [[root' [e|]]| | | |]; split; reflexivity.
Qed.

Lemma pinged_trace (info : Exchange) d (resp : Response) tr :
  trace (pinged info d resp tr) =
  tr ++ (if StatusCode resp =? 200 then []
         else [Logf (tagged d ("received status != 200 OK: " +++ Status resp))])
     ++ [Logf (tagged d "daemon started")]
     ++ snd (query info d).
Proof.
  unfold afterPing. destruct (query info d) as [q qtr]. cbn [snd].
  assert (E : forall out d',
             trace (mkRun d' out
               (((if StatusCode resp =? 200 then tr
                  else tr ++ [Logf (tagged d ("received status != 200 OK: "
                                                +++ Status resp))])
                 ++ [Logf (tagged d "daemon started")]) ++ qtr)) =
             tr ++ (if StatusCode resp =? 200 then []
                    else [Logf (tagged d ("received status != 200 OK: "
                                            +++ Status resp))])
                ++ [Logf (tagged d "daemon started")] ++ qtr).
  { intros out d'. cbn [trace]. destruct (StatusCode resp =? 200);
      now rewrite <- ?app_assoc. }
  destruct q as [[root' [e|]]| | | |]; apply E.
Qed.

(** *** The readiness loop and the status code *)

(** C2 (as amended).  An attempt that is answered ends the readiness loop
    whatever its status code: the turns that follow play no part, and what
    [Start] returns and leaves behind is the same for every status, a
    non-200 status only adding a log line before the root query.  An
    attempt whose [client.Do] fails is followed by the next turn of the
    loop, and no other turn is: after any turn on which [client.Do] did not
    fail, the rest of the schedule plays no part. *)
Theorem poll_answer_ends_loop (info : Exchange) d (st now wt : Z)
        (x : Exchange) (resp : Response) rest tr :
  deadlineOpen st now = true ->
  answered x resp ->
  let r := poll info d st now (mkTurn wt (FiredTick x) :: rest) tr in
  (forall rest', poll info d st now (mkTurn wt (FiredTick x) :: rest') tr = r) /\
  (forall (x' : Exchange) (resp' : Response),
      answered x' resp' ->
      let r' := poll info d st now (mkTurn wt (FiredTick x') :: rest) tr in
      ended r' = ended r /\ after r' = after r) /\
  (exists cc,
      trace r =
      (tr ++ [waiting d; RecvTick (500 * Millisecond); Do "GET" "/_ping" cc])
        ++ (if StatusCode resp =? 200 then []
            else [Logf (tagged d ("received status != 200 OK: "
                                    +++ Status resp))])
        ++ [Logf (tagged d "daemon started")]
        ++ snd (query info d)) /\
  (forall t, isRetry t = true ->
      exists cc,
        poll info d st now (t :: rest) tr =
        poll info d st (now + elapsed t) rest
          (tr ++ [waiting d; RecvTick (500 * Millisecond);
                  Do "GET" "/_ping" cc])) /\
  (forall t rest', doFailed t = false ->
      poll info d st now (t :: rest) tr = poll info d st now (t :: rest') tr).
Proof.
  intros Hopen Hans r.
  destruct (poll_answered info d st now wt x resp rest tr Hopen Hans)
    as (cc & Hcc & Hr).
  fold r in Hr.
  split; [|split; [|split; [|split]]].
  - intros rest'.
    destruct (poll_answered info d st now wt x resp rest' tr Hopen Hans)
      as (cc' & Hcc' & Hr').
    rewrite Hr', Hr. congruence.
  - intros x' resp' Hans' r'.
    destruct (poll_answered info d st now wt x' resp' rest tr Hopen Hans')
      as (cc' & Hcc' & Hr').
    fold r' in Hr'. rewrite Hr', Hr.
    pose proof (pinged_result info d resp'
                  (tr ++ [waiting d; RecvTick (500 * Millisecond);
                          Do "GET" "/_ping" cc'])) as H1.
    pose proof (pinged_result info d resp
                  (tr ++ [waiting d; RecvTick (500 * Millisecond);
                          Do "GET" "/_ping" cc])) as H2.
    cbv zeta in H1, H2.
    destruct (fst (query info d)) as [[root' [e|]]| | | |];
      destruct H1 as [-> ->], H2 as [-> ->]; split; reflexivity.
  - exists cc. rewrite Hr. apply pinged_trace.
  - intros t Ht. now apply poll_retry.
  - intros [w f] rest' Hf. unfold doFailed in Hf. cbn [fired] in Hf.
    cbn [pollLoop]. destruct (sub64 (Unix now) st >? 5); [reflexivity|].
    cbn [fired waited]. destruct f as [|x'|err]; try reflexivity.
    destruct (getCfg (x_cfg x') d) as [[cc'|e]| | | |]; try reflexivity.
    destruct (x_newRequest x'); [reflexivity|].
    destruct (x_do x'); [discriminate | reflexivity | reflexivity].
Qed.

(** *** The two-second timer *)


(** *** The exit of the process during startup *)

Lemma retriesWithin_spec (t0 : Z) pre :
  retriesWithin t0 pre = true ->
  0 <= t0 < 2 ^ 62 /\
  forallb (fun t => isRetry t && forward t) pre = true /\
  total pre <= 5 * Second.
Proof.
  unfold retriesWithin. intros H.
  repeat (apply andb_true_iff in H; destruct H as [H ?]).
  repeat split; auto.
  - now apply Z.leb_le.
  - now apply Z.ltb_lt.
  - now apply Z.leb_le.
Qed.

(** The loop reaches the turn that follows a run of failed attempts. *)
Lemma Start_reaches (w : StartWorld) d out providedArgs bin pre rest :
  s_lookPath w dockerBinary = (bin, None) ->
  s_start w = None ->
  s_sched w = pre ++ rest ->
  retriesWithin (s_now w) pre = true ->
  let args := startArgs (s_getenv w) d providedArgs in
  exists added,
    StartWith w d out providedArgs =
    poll (s_info w) (launched (s_pid w) d out bin args) (Unix (s_now w))
         (s_now w + total pre) rest
         ([Spawn (spawned bin out args)] ++ added) /\
    count isPing added = List.length pre /\
    existsb isRecvWait added = false /\
    deadlineOpen (Unix (s_now w)) (s_now w + total pre) = true.
Proof.
  intros Hlook Hstart Hsched Hpre args.
  apply retriesWithin_spec in Hpre. destruct Hpre as (Ht0 & Hall & Htot).
  rewrite (Start_launch w d out providedArgs bin Hlook Hstart). fold args.
  rewrite Hsched.
  destruct (poll_retries (s_info w) (launched (s_pid w) d out bin args)
              (s_now w) pre 0 rest [Spawn (spawned bin out args)]
              Ht0 ltac:(lia) Hall ltac:(lia)) as (added & Heq & Hcount & Hno).
  rewrite !Z.add_0_r in Heq.
  assert (Hnonneg : 0 <= total pre).
  { clear -Hall. induction pre as [|u pre IH]; cbn [total fold_right].
    - lia.
    - fold (total pre). cbn [forallb] in Hall.
      apply andb_true_iff in Hall. destruct Hall as [Hu Hall].
      apply andb_true_iff in Hu. destruct Hu as [_ Hu].
      unfold forward in Hu. apply andb_true_iff in Hu.
      destruct Hu as [Hu1 Hu2]. apply Z.leb_le in Hu1, Hu2.
      specialize (IH Hall). lia. }
  exists added. repeat split; auto.
  apply deadline_open; lia.
Qed.

(** C5.  When the exit of the process is received from the wait channel
    before any attempt was answered, after failed attempts that took no
    more than five seconds, [Start] returns [Daemon exited during startup]
    there and then: not the error of the five-second deadline, and with no
    further attempt. *)
Theorem Start_exit_during_startup (w : StartWorld) d (out : File)
        (providedArgs : list string) (bin : string) pre (wt : Z)
        (err : option string) rest :
  s_lookPath w dockerBinary = (bin, None) ->
  s_start w = None ->
  s_sched w = pre ++ mkTurn wt (FiredWait err) :: rest ->
  retriesWithin (s_now w) pre = true ->
  let r := StartWith w d out providedArgs in
  ended r =
    Returned (Some (errorString ("[" +++ id d +++ "] Daemon exited during startup")))
  /\ ended r <>
     Returned (Some (errorString
                       ("[" +++ id d +++ "] Daemon exited and never started")))
  /\ count isPing (trace r) = List.length pre
  /\ root (after r) = root d.
Proof.
  intros Hlook Hstart Hsched Hpre r.
  destruct (Start_reaches w d out providedArgs bin pre
              (mkTurn wt (FiredWait err) :: rest) Hlook Hstart Hsched Hpre)
    as (added & Heq & Hcount & _ & Hopen).
  fold r in Heq. rewrite poll_wait in Heq by exact Hopen.
  assert (Hend : ended r =
            Returned (Some (errorString
              ("[" +++ id d +++ "] Daemon exited during startup"))))
    by now rewrite Heq.
  split; [exact Hend|]. split; [|split].
  - rewrite Hend. intros H.
    apply (returned_tagged d "Daemon exited during startup"
                           "Daemon exited and never started") in H.
    discriminate.
  - rewrite Heq. cbn [trace]. unfold count in *.
    rewrite !filter_app, !length_app, Hcount. cbn. lia.
  - now rewrite Heq.
Qed.

(** *** The root query after startup *)

(** Every failure of the exchange with [/info] makes [queryRootDir] give
    back the empty string and the error met. *)
Lemma query_fails (info : Exchange) d (m : string) :
  QueryFails json_Unmarshal info d m ->
  fst (query info d) = Returned ("", Some (sysError m)).
Proof.
  intros H. unfold queryRootDir.
  destruct H as [Htls Hc|Hcfg Hreq|Hcfg Hreq Hdo
                |resp b (Hcfg & Hreq & Hdo) Hbody
                |resp b i (Hcfg & Hreq & Hdo) Hbody Hstatus Hjson].
  - unfold getClientConfig. now rewrite Htls, Hc.
  - destruct (getClientConfig_fine (x_cfg info) d Hcfg) as [ci Hci].
    now rewrite Hci, Hreq.
  - destruct (getClientConfig_fine (x_cfg info) d Hcfg) as [ci Hci].
    now rewrite Hci, Hreq, Hdo.
  - destruct (getClientConfig_fine (x_cfg info) d Hcfg) as [ci Hci].
    now rewrite Hci, Hreq, Hdo, Hbody.
  - destruct (getClientConfig_fine (x_cfg info) d Hcfg) as [ci Hci].
    rewrite Hci, Hreq, Hdo, Hbody, Hstatus, Hjson. reflexivity.
Qed.

(** C10.  Once an attempt has been answered, [Start] assigns to [root]
    whatever the root query gives back before it looks at the error.  When
    the exchange with [/info] fails, in whichever way (the TLS client, the
    request, [client.Do], the reading of the body, the decoding of a 200
    answer), [queryRootDir] gives back the empty string and the error,
    [Start] returns [error querying daemon for root directory] with the text
    of that error, and [root] is the empty string, whatever it was before;
    the same holds whenever the query gives back an error at all.  When
    [/info] is answered in full with a status other than 200, the query
    gives back the empty string and no error, so [Start] succeeds with
    [root] empty. *)
Theorem Start_root_after_query (w : StartWorld) d (out : File)
        (providedArgs : list string) (bin : string) pre (wt : Z)
        (x : Exchange) (resp : Response) rest :
  s_lookPath w dockerBinary = (bin, None) ->
  s_start w = None ->
  s_sched w = pre ++ mkTurn wt (FiredTick x) :: rest ->
  retriesWithin (s_now w) pre = true ->
  answered x resp ->
  let r := StartWith w d out providedArgs in
  (forall m : string,
      QueryFails json_Unmarshal (s_info w) d m ->
      fst (query (s_info w) d) = Returned ("", Some (sysError m))
      /\ ended r =
           Returned (Some (errorString
             ("[" +++ id d +++ "] error querying daemon for root directory: "
                  +++ m)))
      /\ root (after r) = "") /\
  (forall (root' : string) (e : error),
      fst (query (s_info w) d) = Returned (root', Some e) ->
      ended r =
        Returned (Some (errorString
          ("[" +++ id d +++ "] error querying daemon for root directory: "
               +++ Error e)))
      /\ root (after r) = "") /\
  (forall (answer : Response) (b : string),
      answered (s_info w) answer ->
      StatusCode answer <> 200 ->
      Body answer = (b, None) ->
      fst (query (s_info w) d) = Returned ("", None)
      /\ ended r = Returned None
      /\ root (after r) = "").
Proof.
  intros Hlook Hstart Hsched Hpre Hans r.
  destruct (Start_reaches w d out providedArgs bin pre
              (mkTurn wt (FiredTick x) :: rest) Hlook Hstart Hsched Hpre)
    as (added & Heq & _ & _ & Hopen).
  fold r in Heq.
  set (d' := launched (s_pid w) d out bin
                      (startArgs (s_getenv w) d providedArgs)) in *.
  destruct (poll_answered (s_info w) d' (Unix (s_now w))
              (s_now w + total pre) wt x resp rest
              ([Spawn (spawned bin out (startArgs (s_getenv w) d providedArgs))]
                 ++ added) Hopen Hans) as (cc & _ & Hstep).
  rewrite Hstep in Heq. clear Hstep.
  pose proof (pinged_result (s_info w) d' resp
                (([Spawn (spawned bin out
                            (startArgs (s_getenv w) d providedArgs))]
                    ++ added)
                   ++ [waiting d'; RecvTick (500 * Millisecond);
                       Do "GET" "/_ping" cc])) as Hres.
  cbv zeta in Hres. rewrite <- Heq in Hres.
  unfold d' in Hres at 1. rewrite query_launched in Hres.
  split; [|split].
  - intros m Hfails. pose proof (query_fails (s_info w) d m Hfails) as Hq.
    split; [exact Hq|]. rewrite Hq in Hres. destruct Hres as [Hend Hafter].
    split; [exact Hend|]. now rewrite Hafter.
  - intros root' e Hq. rewrite Hq in Hres. destruct Hres as [Hend Hafter].
    apply query_error_root in Hq. subst root'.
    split; [exact Hend|]. now rewrite Hafter.
  - intros answer b (Hcfg & Hreq & Hdo) Hstatus Hbody.
    assert (Hq : fst (query (s_info w) d) = Returned ("", None)).
    { unfold queryRootDir.
      destruct (getClientConfig_fine (x_cfg (s_info w)) d Hcfg) as [ci Hci].
      rewrite Hci, Hreq, Hdo, Hbody.
      apply Z.eqb_neq in Hstatus. now rewrite Hstatus. }
    split; [exact Hq|]. rewrite Hq in Hres.
    destruct Hres as [Hend Hafter]. split; [exact Hend|]. now rewrite Hafter.
Qed.

(** *** The argument vector *)

Lemma scanArgs_spec (providedArgs : list string) :
  scanArgs providedArgs =
  (existsb logFlag providedArgs, existsb sdFlag providedArgs).
Proof.
  unfold scanArgs.
  assert (H : forall l foundLog foundSd,
             fold_left
               (fun '(foundLog, foundSd) a =>
                  (if Contains a "--log-level" || Contains a "-D"
                      || Contains a "--debug"
                   then true else foundLog,
                   if Contains a "--storage-driver" then true else foundSd))
               l (foundLog, foundSd) =
             (foundLog || existsb logFlag l, foundSd || existsb sdFlag l)).
  { induction l as [|a l IH]; intros foundLog foundSd; cbn [fold_left existsb].
    - now rewrite !orb_false_r.
    - rewrite IH. unfold logFlag, sdFlag.
      destruct (Contains a "--log-level" || Contains a "-D"
                || Contains a "--debug"), (Contains a "--storage-driver"),
        foundLog, foundSd; reflexivity. }
  apply H.
Qed.

(** The argument vector, piece by piece. *)
Lemma startArgs_eq (getenv : string -> string) d (providedArgs : list string) :
  startArgs getenv d providedArgs =
  GlobalFlags d
  ++ [ Command d;
       "--containerd"; "/var/run/docker/libcontainerd/docker-containerd.sock";
       "--graph"; root d;
       "--exec-root"; Join [folder d; "exec-root"];
       "--pidfile"; folder d +++ "/docker.pid";
       "--userland-proxy=" +++ fmt_t (userlandProxy d) ]
  ++ (if negb (useDefaultHost d || useDefaultTLSHost d)
      then ["--host"; "unix://" +++ folder d +++ "/docker.sock"] else [])
  ++ (if negb (getenv "DOCKER_REMAP_ROOT" =? "")%string
      then ["--userns-remap"; getenv "DOCKER_REMAP_ROOT"] else [])
  ++ (if negb (existsb logFlag providedArgs) then ["--debug"] else [])
  ++ (if negb (storageDriver d =? "")%string
         && negb (existsb sdFlag providedArgs)
      then ["--storage-driver"; storageDriver d] else [])
  ++ providedArgs.
Proof.
  unfold startArgs. rewrite scanArgs_spec. unfold sock, pidFile.
  destruct (negb (useDefaultHost d || useDefaultTLSHost d)),
    (negb (getenv "DOCKER_REMAP_ROOT" =? "")%string),
    (negb (existsb logFlag providedArgs)),
    (negb (storageDriver d =? "")%string && negb (existsb sdFlag providedArgs));
    rewrite <- ?app_assoc; reflexivity.
Qed.

(** The loop only adds to the trace it is given. *)
Lemma poll_extends (info : Exchange) d (st : Z) sched : forall now tr,
  exists added, trace (poll info d st now sched tr) = tr ++ added.
Proof.
  induction sched as [|t sched IH]; intros now tr.
  - cbn [pollLoop]. destruct (sub64 (Unix now) st >? 5); eexists; reflexivity.
  - destruct (deadlineOpen st now) eqn:Hd.
    2:{ rewrite poll_deadline by exact Hd. eexists; reflexivity. }
    destruct t as [w [|x|err]].
    + rewrite poll_after by exact Hd. eexists; reflexivity.
    + unfold deadlineOpen in Hd. apply negb_true_iff in Hd.
      cbn [pollLoop]. rewrite Hd. cbn [fired waited].
      destruct (getCfg (x_cfg x) d) as [[cc|e]| | | |];
        try (rewrite <- ?app_assoc; eexists; reflexivity).
      destruct (x_newRequest x);
        try (rewrite <- ?app_assoc; eexists; reflexivity).
      destruct (x_do x) as [e|resp|];
        try (rewrite <- ?app_assoc; eexists; reflexivity).
      * destruct (IH (now + w + x_took x)
                     (((tr ++ [Logf (tagged d "waiting for daemon to start")])
                         ++ [RecvTick (500 * Millisecond)])
                        ++ [Do "GET" "/_ping" cc])) as [added ->].
        rewrite <- !app_assoc. eexists; reflexivity.
      * rewrite pinged_trace, <- !app_assoc. eexists; reflexivity.
    + rewrite poll_wait by exact Hd. eexists; reflexivity.
Qed.

(** C6.  In unix-ephemeral mode (neither default host nor default TLS host)
    the vector handed to the child holds, with no extra argument, the flag
    [--debug] and the pair [--host unix://<folder>/docker.sock]; with an
    extra argument that mentions a log level or a debug flag, it is made of
    the global flags, the fixed flags of the instance, the host pair, the
    optional remap and storage-driver pairs and then the extra arguments,
    last and as given: no [--debug] is put in. *)
Theorem Start_argument_vector (w : StartWorld) d (out : File) (bin : string) :
  s_lookPath w dockerBinary = (bin, None) ->
  useDefaultHost d = false ->
  useDefaultTLSHost d = false ->
  let vector := startArgs (s_getenv w) d in
  (forall providedArgs,
      exists more,
        trace (StartWith w d out providedArgs) =
        Spawn (mkCmd bin (bin :: vector providedArgs) (Some out) (Some out) None)
          :: more) /\
  (In "--debug" (vector []) /\
   exists before behind,
     vector [] =
     before ++ ["--host"; "unix://" +++ folder d +++ "/docker.sock"] ++ behind) /\
  (forall providedArgs,
      existsb logFlag providedArgs = true ->
      exists userns storage,
        (userns = [] \/
         userns = ["--userns-remap"; s_getenv w "DOCKER_REMAP_ROOT"]) /\
        (storage = [] \/ storage = ["--storage-driver"; storageDriver d]) /\
        vector providedArgs =
        GlobalFlags d
        ++ [ Command d;
             "--containerd";
             "/var/run/docker/libcontainerd/docker-containerd.sock";
             "--graph"; root d;
             "--exec-root"; Join [folder d; "exec-root"];
             "--pidfile"; folder d +++ "/docker.pid";
             "--userland-proxy=" +++ fmt_t (userlandProxy d);
             "--host"; "unix://" +++ folder d +++ "/docker.sock" ]
        ++ userns ++ storage ++ providedArgs).
Proof.
  intros Hlook Hhost Htls vector. split; [|split].
  - intros providedArgs. unfold StartWithLogFile. rewrite Hlook.
    destruct (s_start w) as [e|].
    + exists []. reflexivity.
    + match goal with
      | |- exists more, trace (pollLoop _ _ _ _ ?i ?d' ?st ?now ?sched ?tr) = _ =>
          destruct (poll_extends i d' st sched now tr) as [added ->]
      end.
      exists added. reflexivity.
  - unfold vector. rewrite startArgs_eq, Hhost, Htls.
    cbn [orb negb existsb].
    split.
    + apply in_or_app. right. apply in_or_app. right.
      apply in_or_app. right. apply in_or_app. right.
      apply in_or_app. left. now left.
    + eexists. eexists. rewrite app_assoc. reflexivity.
  - intros providedArgs Hlog. unfold vector.
    rewrite startArgs_eq, Hhost, Htls, Hlog. cbn [orb negb].
    exists (if negb (s_getenv w "DOCKER_REMAP_ROOT" =? "")%string
            then ["--userns-remap"; s_getenv w "DOCKER_REMAP_ROOT"] else []),
           (if negb (storageDriver d =? "")%string
               && negb (existsb sdFlag providedArgs)
            then ["--storage-driver"; storageDriver d] else []).
    split; [|split].
    + destruct (negb (s_getenv w "DOCKER_REMAP_ROOT" =? "")%string); auto.
    + destruct (negb (storageDriver d =? "")%string
                && negb (existsb sdFlag providedArgs)); auto.
    + cbn [app]. reflexivity.
Qed.

(** *** The userland-proxy flag *)

(** C9.  [NewDaemon] changes the userland-proxy flag, which starts as
    [true], only when [DOCKER_USERLANDPROXY] is set and does _not_ parse as
    a boolean, and then to [false]: for every value that parses, the value
    [false] included, the flag stays [true] and the argument vector carries
    [--userland-proxy=true]. *)
Theorem NewDaemon_userland_proxy (nw : NewWorld) :
  n_getenv nw "DEST" <> "" ->
  snd (n_getwd nw) = None ->
  (forall path, n_mkdirAll nw path = None) ->
  exists d,
    NewDaemon nw = Returned d /\
    (snd (ParseBool (n_getenv nw "DOCKER_USERLANDPROXY")) = None ->
       userlandProxy d = true /\
       forall getenv providedArgs,
         In "--userland-proxy=true" (startArgs getenv d providedArgs)) /\
    (n_getenv nw "DOCKER_USERLANDPROXY" <> "" ->
     snd (ParseBool (n_getenv nw "DOCKER_USERLANDPROXY")) <> None ->
       userlandProxy d = false /\
       forall getenv providedArgs,
         In "--userland-proxy=false" (startArgs getenv d providedArgs)).
Proof.
  intros Hdest Hwd Hmk.
  assert (Hin : forall d getenv providedArgs,
             In ("--userland-proxy=" +++ fmt_t (userlandProxy d))
                (startArgs getenv d providedArgs)).
  { intros d getenv providedArgs. rewrite startArgs_eq.
    apply in_or_app. right. apply in_or_app. left.
    cbn [In]. do 9 right. left. reflexivity. }
  unfold NewDaemon.
  apply String.eqb_neq in Hdest. rewrite Hdest.
  destruct (Abs (n_getwd nw) _) as [daemonFolder [e|]] eqn:Habs.
  { exfalso. unfold Abs in Habs.
    destruct (IsAbs _); [discriminate|].
    destruct (n_getwd nw) as [wd [e'|]]; [discriminate Hwd | discriminate]. }
  rewrite Hmk.
  eexists. split; [reflexivity|]. cbn [userlandProxy].
  destruct (n_getenv nw "DOCKER_USERLANDPROXY" =? "")%string eqn:Henv.
  - apply String.eqb_eq in Henv. rewrite Henv. cbn [negb]. split.
    + intros _. split; [reflexivity|].
      intros getenv providedArgs.
      match goal with
      | |- In _ (startArgs _ ?d0 _) => exact (Hin d0 getenv providedArgs)
      end.
    + intros H. now elim H.
  - cbn [negb].
    destruct (ParseBool (n_getenv nw "DOCKER_USERLANDPROXY"))
      as [val [e|]] eqn:Hparse; cbn [snd].
    + split; [discriminate|]. intros _ _.
      assert (val = false) as ->.
      { unfold ParseBool in Hparse.
        destruct (existsb _ _); [discriminate|].
        destruct (existsb _ _); [discriminate|]. congruence. }
      split; [reflexivity|].
      intros getenv providedArgs.
      match goal with
      | |- In _ (startArgs _ ?d0 _) => exact (Hin d0 getenv providedArgs)
      end.
    + split.
      * intros _. split; [reflexivity|].
        intros getenv providedArgs.
      match goal with
      | |- In _ (startArgs _ ?d0 _) => exact (Hin d0 getenv providedArgs)
      end.
      * intros _ H. now elim H.
Qed.

End Startup.

(** ** The properties at the sample inputs *)

Section Instances.

Import Sample.

#[local] Abbreviation StartWith :=
  (StartWithLogFile binary httpHost tlsPort unixSocket unmarshal).
#[local] Abbreviation poll :=
  (pollLoop httpHost tlsPort unixSocket unmarshal).

Lemma running_started : started running.
Proof.
  exists (mkCmd "/usr/bin/docker" ["/usr/bin/docker"; "daemon"]
                (Some log) (Some log) (Some (mkProcess 4242))),
         (mkProcess 4242), (exitOf 4242).
  repeat split; reflexivity.
Defined.

Lemma deaf_ignores : ignoresInterrupt deaf.
Proof. repeat split; reflexivity. Defined.

(** *** Stop and Kill *)

(** Scenario E at the sample daemon: the hard kill comes on the fourth tick,
    after three interrupts were sent again. *)
Lemma Stop_escalates_then_kills_witness :
  started running /\ ignoresInterrupt deaf /\
  existsb isHardKill (trace (Stop deaf running)) = true /\
  count isHardKill (trace (Stop deaf running)) = 1%nat /\
  count isSignal (trace (Stop deaf running)) = 4%nat /\
  count isSignal (afterWindow (trace (Stop deaf running))) = 3%nat /\
  count isRecvTick (afterWindow (trace (Stop deaf running))) = 4%nat.
Proof.
  split; [exact running_started|]. split; [exact deaf_ignores|].
  split; [reflexivity|].
  pose proof (proj2 (Stop_escalates_then_kills deaf running running_started)
                    eq_refl) as H.
  destruct H as (H1 & H2 & H3 & H4 & _).
  repeat split; assumption.
Defined.

(** C1 as worded asks for four escalation attempts after the wait window and
    before the kill.  For a child that ignores the interrupt [Stop] sends the
    interrupt three times after the window, not four, and then kills. *)
Lemma Stop_escalation_counterexample :
  started running /\ ignoresInterrupt deaf /\
  count isSignal (afterWindow (trace (Stop deaf running))) = 3%nat /\
  count isSignal (afterWindow (trace (Stop deaf running))) <> 4%nat /\
  count isHardKill (trace (Stop deaf running)) = 1%nat.
Proof.
  split; [exact running_started|]. split; [exact deaf_ignores|].
  vm_compute. repeat split; discriminate.
Qed.

Lemma Stop_returns_cleared_witness :
  started running /\
  cmd (after (Stop exitsLate running)) = None /\
  ended (Stop exitsLate running) = Returned None /\
  existsb isRecvWait (trace (Stop exitsLate running)) = true.
Proof.
  split; [exact running_started|].
  split; [exact (proj1 (Stop_returns_cleared exitsLate running running_started))|].
  split; reflexivity.
Defined.

(** C3 as worded lets [Stop] return only after the exit of the process or a
    hard kill.  When the first interrupt cannot be sent, [Stop] returns the
    error at once: no exit was received and no kill was issued. *)
Lemma Stop_unsent_counterexample :
  started running /\
  ended (Stop unsent running) =
    Returned (Some (errorString "could not send signal: not supported by windows")) /\
  existsb isRecvWait (trace (Stop unsent running)) = false /\
  existsb isHardKill (trace (Stop unsent running)) = false /\
  trace (Stop unsent running) = [Signal 4242; Close log].
Proof.
  split; [exact running_started|]. repeat split; reflexivity.
Qed.

Lemma Stop_twice_witness :
  started running /\
  ended (Stop killFails running) =
    Returned (Some (sysError "os: process already finished")) /\
  cmd (after (Stop killFails running)) = None /\
  Stop deaf (after (Stop killFails running)) =
    mkRun (after (Stop killFails running))
          (Returned (Some (errorString "daemon not started"))) [].
Proof.
  split; [exact running_started|].
  pose proof (Stop_twice killFails deaf running) as H.
  cbv zeta in H. destruct H as (Hsecond & H).
  destruct (H running_started) as (_ & Hcmd & _ & Hkill & _).
  split; [|split; [exact Hcmd | exact Hsecond]].
  apply Hkill; reflexivity.
Defined.

Lemma pidfile_removed_after_kill_only_witness :
  started running /\
  k_kill removeFails = None /\
  In (Remove "/tmp/d1/docker.pid") (trace (Kill removeFails running)) /\
  ended (Kill removeFails running) = Returned (Some (sysError "permission denied")).
Proof.
  split; [exact running_started|]. split; [reflexivity|].
  exact (proj1 (pidfile_removed_after_kill_only removeFails running
                  running_started) eq_refl).
Defined.

(** C8 as worded has the pid file removed on every path that ends with the
    process gone.  When the exit arrives in the wait window, or during
    escalation, [Stop] returns success and removes nothing. *)
Lemma Stop_exit_counterexample :
  started running /\
  ended (Stop exitsInWindow running) = Returned None /\
  existsb isRemove (trace (Stop exitsInWindow running)) = false /\
  trace (Stop exitsInWindow running) = [Signal 4242; RecvWait None; Close log] /\
  ended (Stop exitsLate running) = Returned None /\
  existsb isRemove (trace (Stop exitsLate running)) = false.
Proof.
  split; [exact running_started|]. repeat split; reflexivity.
Qed.

(** *** NewDaemon and Start *)

Lemma NewDaemon_userland_proxy_witness :
  n_getenv creation "DEST" <> "" /\
  snd (n_getwd creation) = None /\
  n_getenv creation "DOCKER_USERLANDPROXY" = "false" /\
  ParseBool "false" = (false, None) /\
  exists d, NewDaemon creation = Returned d /\ userlandProxy d = true /\
            In "--userland-proxy=true" (startArgs noenv d []).
Proof.
  assert (Hdest : n_getenv creation "DEST" <> "") by discriminate.
  split; [exact Hdest|]. repeat (split; [reflexivity|]).
  destruct (NewDaemon_userland_proxy creation Hdest eq_refl
              (fun _ => eq_refl)) as (d & Hd & Hparsed & _).
  exists d. split; [exact Hd|].
  destruct (Hparsed eq_refl) as [Hflag Hin].
  split; [exact Hflag | exact (Hin noenv [])].
Defined.

Lemma Start_argument_vector_witness :
  s_lookPath (world up) binary = ("/usr/bin/docker", None) /\
  useDefaultHost fresh = false /\ useDefaultTLSHost fresh = false /\
  In "--debug" (startArgs noenv fresh []) /\
  (exists before behind,
      startArgs noenv fresh [] =
      before ++ ["--host"; "unix:///tmp/d1/docker.sock"] ++ behind) /\
  startArgs noenv fresh ["--log-level=warn"] =
    [ "daemon"; "--containerd";
      "/var/run/docker/libcontainerd/docker-containerd.sock";
      "--graph"; "/tmp/d1/root"; "--exec-root"; "/tmp/d1/exec-root";
      "--pidfile"; "/tmp/d1/docker.pid"; "--userland-proxy=true";
      "--host"; "unix:///tmp/d1/docker.sock"; "--log-level=warn" ] /\
  ~ In "--debug" (startArgs noenv fresh ["--log-level=warn"]).
Proof.
  repeat (split; [reflexivity|]).
  pose proof (Start_argument_vector binary httpHost tlsPort unixSocket
                unmarshal (world up) fresh log "/usr/bin/docker"
                eq_refl eq_refl eq_refl) as H.
  cbv zeta in H. destruct H as (_ & (Hdebug & Hhost) & _).
  split; [exact Hdebug|]. split; [exact Hhost|].
  split; [reflexivity|].
  vm_compute. intros H. repeat (destruct H as [H|H]; [discriminate|]).
  exact H.
Defined.

Lemma Start_exit_during_startup_witness :
  s_lookPath (world crash) binary = ("/usr/bin/docker", None) /\
  s_start (world crash) = None /\
  retriesWithin (s_now (world crash))
    [tick (500 * Millisecond) Millisecond (DoErr "connection refused")] = true /\
  ended (StartWith (world crash) fresh log []) =
    Returned (Some (errorString "[d1] Daemon exited during startup")).
Proof.
  repeat (split; [reflexivity|]).
  exact (proj1 (Start_exit_during_startup binary httpHost tlsPort unixSocket
                  unmarshal (world crash) fresh log [] "/usr/bin/docker"
                  [tick (500 * Millisecond) Millisecond
                        (DoErr "connection refused")]
                  (499 * Millisecond) (Some "exit status 1") []
                  eq_refl eq_refl eq_refl eq_refl)).
Defined.

Lemma poll_answer_ends_loop_witness :
  deadlineOpen 1700000000 (1700000000 * Second + 800 * Millisecond) = true /\
  answered (exchange Millisecond (DoResp err500)) err500 /\
  poll (exchange Millisecond (DoResp info200)) running 1700000000
       (1700000000 * Second + 800 * Millisecond)
       [tick (500 * Millisecond) Millisecond (DoResp err500)] [] =
  poll (exchange Millisecond (DoResp info200)) running 1700000000
       (1700000000 * Second + 800 * Millisecond) unready [].
Proof.
  assert (Hans : answered (exchange Millisecond (DoResp err500)) err500)
    by (repeat split; reflexivity).
  split; [reflexivity|]. split; [exact Hans|].
  exact (proj1 (poll_answer_ends_loop httpHost tlsPort unixSocket unmarshal
                  (exchange Millisecond (DoResp info200)) running 1700000000
                  (1700000000 * Second + 800 * Millisecond)
                  (500 * Millisecond)
                  (exchange Millisecond (DoResp err500)) err500
                  [mkTurn (499 * Millisecond) (FiredWait (Some "exit status 1"))]
                  [] eq_refl Hans) []).
Defined.

(** C2 as worded has the loop go on to further attempts after a non-2xx
    answer.  With a first attempt answered 500 and the exit of the child
    next in the schedule, [Start] returns success after that one attempt:
    the loop has ended and the exit is never received. *)
Lemma Start_non200_counterexample :
  ended (StartWith (world unready) fresh log []) = Returned None /\
  count isPing (trace (StartWith (world unready) fresh log [])) = 1%nat /\
  existsb isRecvWait (trace (StartWith (world unready) fresh log [])) = false /\
  root (after (StartWith (world unready) fresh log [])) = "/tmp/d1/root".
Proof. vm_compute. repeat split; reflexivity. Qed.



Lemma Start_root_after_query_witness :
  s_lookPath (worldInfo up (DoErr "EOF")) binary = ("/usr/bin/docker", None) /\
  s_start (worldInfo up (DoErr "EOF")) = None /\
  retriesWithin (s_now (worldInfo up (DoErr "EOF"))) [] = true /\
  answered (exchange Millisecond (DoResp ok200)) ok200 /\
  QueryFails unmarshal (s_info (worldInfo up (DoErr "EOF"))) fresh "EOF" /\
  root fresh = "/tmp/d1/root" /\
  ended (StartWith (worldInfo up (DoErr "EOF")) fresh log []) =
    Returned (Some (errorString
      "[d1] error querying daemon for root directory: EOF")) /\
  root (after (StartWith (worldInfo up (DoErr "EOF")) fresh log [])) = "" /\
  answered (s_info (worldInfo up (DoResp err500))) err500 /\
  ended (StartWith (worldInfo up (DoResp err500)) fresh log []) = Returned None /\
  root (after (StartWith (worldInfo up (DoResp err500)) fresh log [])) = "".
Proof.
  assert (Hping : answered (exchange Millisecond (DoResp ok200)) ok200)
    by (repeat split; reflexivity).
  assert (Hfails : QueryFails unmarshal (s_info (worldInfo up (DoErr "EOF")))
                              fresh "EOF")
    by (apply FailsDo; reflexivity).
  assert (Hinfo : answered (s_info (worldInfo up (DoResp err500))) err500)
    by (repeat split; reflexivity).
  do 3 (split; [reflexivity|]).
  split; [exact Hping|]. split; [exact Hfails|]. split; [reflexivity|].
  pose proof (Start_root_after_query binary httpHost tlsPort unixSocket
                unmarshal (worldInfo up (DoErr "EOF")) fresh log []
                "/usr/bin/docker" [] (500 * Millisecond)
                (exchange Millisecond (DoResp ok200)) ok200 []
                eq_refl eq_refl eq_refl eq_refl Hping) as Hfail.
  cbv zeta in Hfail. destruct Hfail as [Hfail _].
  destruct (Hfail "EOF" Hfails) as (_ & Hend1 & Hroot1).
  split; [exact Hend1|]. split; [exact Hroot1|]. split; [exact Hinfo|].
  pose proof (Start_root_after_query binary httpHost tlsPort unixSocket
                unmarshal (worldInfo up (DoResp err500)) fresh log []
                "/usr/bin/docker" [] (500 * Millisecond)
                (exchange Millisecond (DoResp ok200)) ok200 []
                eq_refl eq_refl eq_refl eq_refl Hping) as H.
  cbv zeta in H. destruct H as (_ & _ & H).
  destruct (H err500 "" Hinfo ltac:(discriminate) eq_refl) as (_ & Hend & Hroot).
  split; [exact Hend | exact Hroot].
Defined.

(** The other half of C10 at a sample: the query fails and [Start] returns
    its error with [root] emptied. *)
Example Start_root_query_fails :
  ended (StartWith (worldInfo up (DoErr "EOF")) fresh log []) =
    Returned (Some (errorString
      "[d1] error querying daemon for root directory: EOF")) /\
  root (after (StartWith (worldInfo up (DoErr "EOF")) fresh log [])) = "".
Proof. vm_compute. split; reflexivity. Qed.

End Instances.


(** ** Further properties of Kill and Stop *)

Section ShutdownMore.

Implicit Types (w : StopWorld) (d : Daemon) (p : os_Process) (tr : list Action).

#[local] Arguments String.append : simpl never.

(** Whatever way the escalation loop is left, it has sent at most [4 - i]
    interrupts and has neither killed, removed nor closed anything. *)
Lemma escalate_quiet fuel : forall w p n i tr ex tr',
  1 <= i <= 4 ->
  escalate fuel w p n i tr = (ex, tr') ->
  exists added,
    tr' = tr ++ added /\
    (count isSignal added <= Z.to_nat (4 - i))%nat /\
    existsb isHardKill added = false /\
    existsb isRemove added = false /\
    existsb isClose added = false.
Proof.
  induction fuel as [|fuel IH]; intros w p n i tr ex tr' Hi E; simpl in E.
  - inversion E; subst. exists []. rewrite app_nil_r.
    repeat split; try reflexivity. unfold count. simpl. lia.
  - destruct (k_escal w n).
    { inversion E; subst. eexists; split; [reflexivity|].
      repeat split; try reflexivity. unfold count. cbn. lia. }
    assert (Hw : wrap64 (i + 1) = i + 1).
    { apply wrap64_small. change (2 ^ 63) with 9223372036854775808. lia. }
    rewrite Hw in E.
    destruct (i + 1 >? 4) eqn:Ei.
    { inversion E; subst. rewrite <- app_assoc.
      eexists; split; [reflexivity|].
      repeat split; try reflexivity. unfold count. cbn. lia. }
    assert (Hle : i + 1 <= 4).
    { destruct (Z.gtb_spec (i + 1) 4); [discriminate | lia]. }
    destruct (k_signal w (S n)).
    { inversion E; subst. rewrite <- !app_assoc.
      eexists; split; [reflexivity|].
      repeat split; try reflexivity.
      rewrite count_app.
      change (count isSignal [RecvTick Second]) with 0%nat.
      match goal with
      | |- context [count isSignal [Logf ?m; Signal ?q]] =>
          change (count isSignal [Logf m; Signal q]) with 1%nat
      end. lia. }
    apply IH in E; [|lia].
    destruct E as (added & -> & Hs & Hk & Hr & Hc).
    rewrite <- !app_assoc.
    eexists; split; [reflexivity|].
    rewrite !count_app, !existsb_app, Hk, Hr, Hc.
    change (count isSignal [RecvTick Second]) with 0%nat.
    match goal with
    | |- context [count isSignal [Logf ?m; Signal ?q]] =>
        change (count isSignal [Logf m; Signal q]) with 1%nat
    end.
    repeat split; try reflexivity. lia.
Qed.


Lemma existsb_none_in (kind : Action -> bool) (l : list Action) (a : Action) :
  existsb kind l = false -> In a l -> kind a = false.
Proof.
  intros H Hin. destruct (kind a) eqn:E; [|reflexivity].
  assert (existsb kind l = true) by (apply existsb_exists; eauto).
  congruence.
Qed.

Lemma closing_count (kind : Action -> bool) d :
  (count kind (closing d) <= 1)%nat.
Proof.
  unfold closing, count. destruct (logFile d); simpl; [|lia].
  destruct (kind _); simpl; lia.
Qed.

(** Counting in a trace built by appending. *)
Ltac tally :=
  rewrite ?count_app;
  rewrite ?(count_closing isSignal), ?(count_closing isHardKill),
    ?(count_closing isRemove) by reflexivity;
  repeat match goal with
         | H : existsb ?k ?l = false |- context [count ?k ?l] =>
             rewrite (count_none k l H)
         end;
  unfold count in *; cbn [filter isSignal isHardKill isRemove List.length].

(** X1.  On a started instance [Stop] begins with the interrupt, sends it at
    most four times, kills at most once, removes nothing but the pid file and
    that only after a kill, and closes the log file last and once. *)
Theorem Stop_action_bounds w d :
  started d ->
  let tr := trace (Stop w d) in
  (exists rest, tr = Signal (pidOf d) :: rest) /\
  (1 <= count isSignal tr <= 4)%nat /\
  (count isHardKill tr <= 1)%nat /\
  (count isRemove tr <= count isHardKill tr)%nat /\
  (forall path, In (Remove path) tr -> path = pidFile d) /\
  (exists body, tr = body ++ closing d /\ existsb isClose body = false).
Proof.
  intros (c & p & ch & Hc & Hp & Hw) tr.
  assert (Hpid : pidOf d = Pid p) by (unfold pidOf; now rewrite Hc, Hp).
  assert (Hnoremove : forall path, ~ In (Remove path) (closing d)).
  { intros path. unfold closing. destruct (logFile d); simpl; [|tauto].
    intros [H|[]]. discriminate. }
  unfold tr, Stop. rewrite Hc, Hw, Hp, Hpid.
  destruct (k_signal w 0) as [e|].
  { rewrite cleanup_eq. cbn [trace].
    split; [eexists; reflexivity|]. split; [tally; lia|].
    split; [tally; lia|]. split; [tally; lia|]. split.
    - intros path [H|H]; [discriminate | now apply Hnoremove in H].
    - eexists; split; reflexivity. }
  destruct (k_window w) as [err|].
  { rewrite cleanup_eq. cbn [trace].
    split; [eexists; reflexivity|]. split; [tally; lia|].
    split; [tally; lia|]. split; [tally; lia|]. split.
    - intros path [H|[H|H]]; try discriminate. now apply Hnoremove in H.
    - eexists; split; reflexivity. }
  destruct (escalate 4 w p 0 1 _) as [ex tr'] eqn:E.
  apply escalate_quiet in E; [|lia].
  destruct E as (added & -> & Hs & Hk & Hr & Hcl).
  change (Z.to_nat (4 - 1)) with 3%nat in Hs.
  assert (Hadded : forall path, ~ In (Remove path) added).
  { intros path Hin. apply (existsb_none_in isRemove) in Hin; [|exact Hr].
    discriminate. }
  assert (Hquiet : forall out,
    let tr := trace (cleanup d out
                (([Signal (Pid p)] ++ [RecvAfter (15 * Second); Logf "timeout"])
                   ++ added)) in
    (exists rest, tr = Signal (Pid p) :: rest) /\
    (1 <= count isSignal tr <= 4)%nat /\
    (count isHardKill tr <= 1)%nat /\
    (count isRemove tr <= count isHardKill tr)%nat /\
    (forall path, In (Remove path) tr -> path = pidFile d) /\
    (exists body, tr = body ++ closing d /\ existsb isClose body = false)).
  { intros out. rewrite cleanup_eq. cbn [trace].
    split; [eexists; reflexivity|]. split; [tally; lia|].
    split; [tally; lia|]. split; [tally; lia|]. split.
    - intros path H. apply in_app_or in H. destruct H as [H|H];
        [|now apply Hnoremove in H].
      apply in_app_or in H. destruct H as [H|H]; [|now apply Hadded in H].
      destruct H as [H|[H|[H|[]]]]; discriminate.
    - eexists; split; [reflexivity|]. now rewrite existsb_app, Hcl. }
  destruct ex as [err| |]; try apply Hquiet.
  rewrite killAndRemove_eq.
  destruct (k_kill w) as [e|]; rewrite cleanup_eq; cbn [trace].
  - split; [eexists; reflexivity|]. split; [tally; lia|].
    split; [tally; lia|]. split; [tally; lia|]. split.
    + intros path H. apply in_app_or in H. destruct H as [H|H];
        [|now apply Hnoremove in H].
      apply in_app_or in H. destruct H as [H|H].
      * apply in_app_or in H. destruct H as [H|H]; [|now apply Hadded in H].
        destruct H as [H|[H|[H|[]]]]; discriminate.
      * destruct H as [H|[H|[]]]; discriminate.
    + eexists; split; [reflexivity|]. now rewrite !existsb_app, Hcl.
  - split; [eexists; reflexivity|]. split; [tally; lia|].
    split; [tally; lia|]. split; [tally; lia|]. split.
    + intros path H. apply in_app_or in H. destruct H as [H|H];
        [|now apply Hnoremove in H].
      apply in_app_or in H. destruct H as [H|H].
      * apply in_app_or in H. destruct H as [H|H]; [|now apply Hadded in H].
        destruct H as [H|[H|[H|[]]]]; discriminate.
      * destruct H as [H|[H|[]]]; [discriminate|]. now injection H.
    + eexists; split; [reflexivity|]. now rewrite !existsb_app, Hcl.
Qed.


Lemma Kill_not_started w d :
  hasHandle d = false -> Kill w d = notStarted d.
Proof.
  unfold hasHandle, Kill, notStarted.
  destruct (cmd d), (wait d); try reflexivity. discriminate.
Qed.

Lemma Stop_no_handle w d :
  hasHandle d = false -> Stop w d = notStarted d.
Proof.
  unfold hasHandle, Stop, notStarted.
  destruct (cmd d), (wait d); try reflexivity. discriminate.
Qed.

Lemma Stop_after w d :
  after (Stop w d) = if hasHandle d then set_cmd None d else d.
Proof.
  unfold hasHandle, Stop.
  destruct (cmd d) as [c|]; [|reflexivity].
  destruct (wait d); [|reflexivity].
  destruct (Process c) as [p|]; [|reflexivity].
  destruct (k_signal w 0); [reflexivity|].
  destruct (k_window w); [reflexivity|].
  destruct (escalate 4 w p 0 1 _) as [[err| |] tr']; try reflexivity.
  now destruct (killAndRemove w d p tr').
Qed.

Lemma Kill_after w d :
  after (Kill w d) = if hasHandle d then set_cmd None d else d.
Proof.
  unfold hasHandle, Kill.
  destruct (cmd d) as [c|]; [|reflexivity].
  destruct (wait d); [|reflexivity].
  destruct (Process c) as [p|]; [|reflexivity].
  now destruct (killAndRemove w d p []).
Qed.

Lemma hasHandle_cleared d :
  hasHandle (if hasHandle d then set_cmd None d else d) = false.
Proof. destruct (hasHandle d) eqn:E; [reflexivity | exact E]. Qed.

(** X2.  [Kill] and [Stop] change nothing of the daemon but the handle, which
    they clear when they get past their guard: the wait channel, the log file,
    the root and the folder stay as they were.  So whichever of the two ran
    first, whatever it met, either of them run next finds no handle, returns
    [daemon not started] and does nothing. *)
Theorem shutdown_clears_only_handle w1 w2 d :
  after (Stop w1 d) = (if hasHandle d then set_cmd None d else d) /\
  after (Kill w1 d) = (if hasHandle d then set_cmd None d else d) /\
  wait (after (Stop w1 d)) = wait d /\
  logFile (after (Stop w1 d)) = logFile d /\
  root (after (Stop w1 d)) = root d /\
  Kill w2 (after (Stop w1 d)) = notStarted (after (Stop w1 d)) /\
  Stop w2 (after (Kill w1 d)) = notStarted (after (Kill w1 d)) /\
  Kill w2 (after (Kill w1 d)) = notStarted (after (Kill w1 d)).
Proof.
  rewrite Stop_after, Kill_after.
  split; [reflexivity|]. split; [reflexivity|].
  split; [now destruct (hasHandle d)|].
  split; [now destruct (hasHandle d)|].
  split; [now destruct (hasHandle d)|].
  split; [apply Kill_not_started, hasHandle_cleared|].
  split; [apply Stop_no_handle, hasHandle_cleared|].
  apply Kill_not_started, hasHandle_cleared.
Qed.

(** X3.  On a started instance [Kill] issues one hard kill and nothing before
    it: no interrupt, no wait for the exit.  A kill that fails is returned as it
    is, the pid file is then left alone, and the handle is cleared all the same,
    so the kill cannot be tried again. *)
Theorem Kill_single_shot w w' d :
  started d ->
  let r := Kill w d in
  (exists rest, trace r = HardKill (pidOf d) :: rest) /\
  count isHardKill (trace r) = 1%nat /\
  existsb isSignal (trace r) = false /\
  existsb isRecvWait (trace r) = false /\
  (forall e, k_kill w = Some e ->
     ended r = Returned (Some (sysError e)) /\
     existsb isRemove (trace r) = false /\
     Kill w' (after r) = notStarted (after r)).
Proof.
  intros Hst r. destruct (Kill_paths w d Hst) as [Hafter H].
  fold r in Hafter, H.
  assert (Hclose : forall f, (forall x, f (Close x) = false) ->
                             existsb f (closing d) = false).
  { intros f Hf. unfold closing. destruct (logFile d); simpl; [|reflexivity].
    now rewrite Hf. }
  destruct (k_kill w) as [e|]; destruct H as [Hend Htr]; rewrite Htr.
  - split; [eexists; reflexivity|].
    split; [rewrite count_app, (count_closing isHardKill) by reflexivity;
            reflexivity|].
    split; [rewrite existsb_app, (Hclose isSignal) by reflexivity;
            reflexivity|].
    split; [rewrite existsb_app, (Hclose isRecvWait) by reflexivity;
            reflexivity|].
    intros e' [= <-]. split; [exact Hend|].
    split; [rewrite existsb_app, (Hclose isRemove) by reflexivity;
            reflexivity|].
    apply Kill_not_started. now rewrite Hafter.
  - split; [eexists; reflexivity|].
    split; [rewrite count_app, (count_closing isHardKill) by reflexivity;
            reflexivity|].
    split; [rewrite existsb_app, (Hclose isSignal) by reflexivity;
            reflexivity|].
    split; [rewrite existsb_app, (Hclose isRecvWait) by reflexivity;
            reflexivity|].
    intros e' [=].
Qed.

End ShutdownMore.

(** ** Further properties of StartWithLogFile *)

Section StartupMore.

Variable dockerBinary : string.
Variable DefaultHTTPHost : string.
Variable DefaultTLSHTTPPort : Z.
Variable DefaultUnixSocket : string.
Variable json_Unmarshal : string -> Info * option string.

#[local] Abbreviation getCfg :=
  (getClientConfig DefaultHTTPHost DefaultTLSHTTPPort DefaultUnixSocket).
#[local] Abbreviation query :=
  (queryRootDir DefaultHTTPHost DefaultTLSHTTPPort DefaultUnixSocket
                json_Unmarshal).
#[local] Abbreviation pinged :=
  (afterPing DefaultHTTPHost DefaultTLSHTTPPort DefaultUnixSocket
             json_Unmarshal).
#[local] Abbreviation poll :=
  (pollLoop DefaultHTTPHost DefaultTLSHTTPPort DefaultUnixSocket
            json_Unmarshal).
#[local] Abbreviation StartWith :=
  (StartWithLogFile dockerBinary DefaultHTTPHost DefaultTLSHTTPPort
                    DefaultUnixSocket json_Unmarshal).

Implicit Types (d : Daemon) (tr : list Action) (sched pre rest : list Turn).

#[local] Arguments String.append : simpl never.

(** *** What the loop leaves alone *)

Lemma query_quiet (info : Exchange) d :
  existsb isShutdown (snd (query info d)) = false /\
  existsb isSpawn (snd (query info d)) = false.
Proof.
  unfold queryRootDir.
  destruct (getCfg (x_cfg info) d) as [[cc|err]| | | |]; try (split; reflexivity).
  destruct (x_newRequest info); try (split; reflexivity).
  destruct (x_do info) as [e'|resp|]; try (split; reflexivity).
  destruct (Body resp) as [b [e'|]]; try (split; reflexivity).
  destruct (StatusCode resp =? 200); try (split; reflexivity).
  destruct (json_Unmarshal b) as [i [e'|]]; split; reflexivity.
Qed.

(** The readiness loop changes nothing of the daemon but the root, and the
    root only after the log line [daemon started]; it adds no action on the
    child to the trace. *)
Lemma poll_frame (info : Exchange) d (st : Z) sched : forall now tr,
  let r := poll info d st now sched tr in
  (after r = d \/
   exists root', after r = set_root root' d /\
                 In (Logf (tagged d "daemon started")) (trace r)) /\
  exists added,
    trace r = tr ++ added /\
    existsb isShutdown added = false /\
    existsb isSpawn added = false.
Proof.
  induction sched as [|t sched IH]; intros now tr r.
  - unfold r. cbn [pollLoop]. destruct (sub64 (Unix now) st >? 5);
      (split; [now left|]); eexists; (split; [reflexivity|]); split; reflexivity.
  - unfold r. destruct (deadlineOpen st now) eqn:Hd.
    2:{ rewrite poll_deadline by exact Hd.
        split; [now left|]. eexists; (split; [reflexivity|]); split; reflexivity. }
    destruct t as [w [|x|err]].
    + rewrite poll_after by exact Hd.
      split; [now left|]. eexists; (split; [reflexivity|]); split; reflexivity.
    + unfold deadlineOpen in Hd. apply negb_true_iff in Hd.
      cbn [pollLoop]. rewrite Hd. cbn [fired waited].
      destruct (getCfg (x_cfg x) d) as [[cc|e]| | | |];
        try (split; [now left|]; rewrite <- ?app_assoc;
             eexists; (split; [reflexivity|]); split; reflexivity).
      destruct (x_newRequest x);
        try (split; [now left|]; rewrite <- ?app_assoc;
             eexists; (split; [reflexivity|]); split; reflexivity).
      destruct (x_do x) as [e|resp|];
        try (split; [now left|]; rewrite <- ?app_assoc;
             eexists; (split; [reflexivity|]); split; reflexivity).
      * specialize (IH (now + w + x_took x)
                     (((tr ++ [Logf (tagged d "waiting for daemon to start")])
                         ++ [RecvTick (500 * Millisecond)])
                        ++ [Do "GET" "/_ping" cc])).
        cbv zeta in IH. destruct IH as [Hafter (added & Htr & Hq & Hs)].
        split.
        -- exact Hafter.
        -- rewrite Htr, <- !app_assoc.
           eexists; split; [reflexivity|].
           rewrite !existsb_app, Hq, Hs. split; reflexivity.
      * pose proof (pinged_result DefaultHTTPHost DefaultTLSHTTPPort
                      DefaultUnixSocket json_Unmarshal info d resp
                      (((tr ++ [Logf (tagged d "waiting for daemon to start")])
                          ++ [RecvTick (500 * Millisecond)])
                         ++ [Do "GET" "/_ping" cc])) as Hres.
        cbv zeta in Hres.
        pose proof (pinged_trace DefaultHTTPHost DefaultTLSHTTPPort
                      DefaultUnixSocket json_Unmarshal info d resp
                      (((tr ++ [Logf (tagged d "waiting for daemon to start")])
                          ++ [RecvTick (500 * Millisecond)])
                         ++ [Do "GET" "/_ping" cc])) as Htr.
        destruct (query_quiet info d) as [Hq Hs].
        split.
        -- destruct (fst (query info d)) as [[root' [e|]]| | | |];
             destruct Hres as [_ Hafter]; try (now left);
             right; exists root'; (split; [exact Hafter|]);
             rewrite Htr; apply in_or_app; right;
             apply in_or_app; right; apply in_or_app; left; now left.
        -- rewrite Htr, <- !app_assoc.
           eexists; split; [reflexivity|].
           rewrite !existsb_app, Hq, Hs.
           destruct (StatusCode resp =? 200); split; reflexivity.
    + rewrite poll_wait by exact Hd.
      split; [now left|]. eexists; (split; [reflexivity|]); split; reflexivity.
Qed.

(** X4.  Once the child has been spawned, [Start] never lets go of it, however
    it ends (success, deadline, timeout, exit during startup, failed root query,
    failed assertion): the handle with the new process, the wait channel and the
    log file are set, so [Kill] and [Stop] get past their guard; the child was
    spawned once and was neither signalled nor killed, and no file was removed
    or closed.  The root is the only other field that may differ, and it differs
    only after [daemon started] was logged. *)
Theorem Start_keeps_child (w : StartWorld) d (out : File)
        (providedArgs : list string) (bin : string) :
  s_lookPath w dockerBinary = (bin, None) ->
  s_start w = None ->
  let r := StartWith w d out providedArgs in
  started (after r) /\
  hasHandle (after r) = true /\
  pidOf (after r) = s_pid w /\
  wait (after r) = Some (exitOf (s_pid w)) /\
  logFile (after r) = Some out /\
  existsb isShutdown (trace r) = false /\
  count isSpawn (trace r) = 1%nat /\
  sameInstance d (after r) /\
  (root (after r) = root d \/
   In (Logf ("[" +++ id d +++ "] daemon started")) (trace r)).
Proof.
  intros Hlook Hstart r.
  pose proof (Start_launch dockerBinary DefaultHTTPHost DefaultTLSHTTPPort
                DefaultUnixSocket json_Unmarshal w d out providedArgs bin
                Hlook Hstart) as Hr.
  cbv zeta in Hr. fold r in Hr.
  set (args := startArgs (s_getenv w) d providedArgs) in *.
  set (d' := launched (s_pid w) d out bin args) in *.
  pose proof (poll_frame (s_info w) d' (Unix (s_now w)) (s_sched w) (s_now w)
                [Spawn (spawned bin out args)]) as H.
  cbv zeta in H. rewrite <- Hr in H.
  destruct H as [Hafter (added & Htr & Hq & Hs)].
  assert (Hd' : after r = d' \/ exists root', after r = set_root root' d').
  { destruct Hafter as [H|(root' & H & _)]; [now left | right; eauto]. }
  assert (Hfields : cmd (after r) = cmd d' /\ wait (after r) = wait d' /\
                    logFile (after r) = logFile d' /\ sameInstance d (after r)).
  { destruct Hd' as [->|(root' & ->)]; repeat split; reflexivity. }
  destruct Hfields as (Hcmd & Hwait & Hlog & Hsame).
  split.
  { eexists _, _, _. rewrite Hcmd, Hwait. repeat split; reflexivity. }
  split; [unfold hasHandle; now rewrite Hcmd, Hwait|].
  split; [unfold pidOf; now rewrite Hcmd|].
  split; [now rewrite Hwait|]. split; [now rewrite Hlog|].
  split; [rewrite Htr, existsb_app, Hq; reflexivity|].
  split.
  { rewrite Htr, count_app. unfold count at 1. cbn [filter isSpawn List.length].
    rewrite (count_none isSpawn added Hs). reflexivity. }
  split; [exact Hsame|].
  destruct Hafter as [->|(root' & _ & Hin)]; [now left | now right].
Qed.

(** X5.  When the child cannot be spawned, [Start] returns [could not start
    daemon container] without polling.  It has already recorded the log file and
    a command that has no process, and it leaves the wait channel as it found
    it: on a daemon that never ran, [Stop] then reports [daemon not started] and
    the recorded command stays. *)
Theorem Start_spawn_failure (w : StartWorld) (kw : StopWorld) d (out : File)
        (providedArgs : list string) (bin e : string) :
  s_lookPath w dockerBinary = (bin, None) ->
  s_start w = Some e ->
  let r := StartWith w d out providedArgs in
  let c := mkCmd bin (bin :: startArgs (s_getenv w) d providedArgs)
                 (Some out) (Some out) None in
  ended r =
    Returned (Some (errorString
      ("[" +++ id d +++ "] could not start daemon container: " +++ e))) /\
  trace r = [Spawn c] /\
  cmd (after r) = Some c /\
  wait (after r) = wait d /\
  logFile (after r) = Some out /\
  root (after r) = root d /\
  (wait d = None ->
     Stop kw (after r) = notStarted (after r) /\ cmd (after r) <> None).
Proof.
  intros Hlook Hstart r c. unfold r, StartWithLogFile.
  rewrite Hlook, Hstart. cbn [ended trace after].
  repeat (split; [reflexivity|]).
  intros Hw. split; [|discriminate].
  apply Stop_no_handle. unfold hasHandle. cbn. now rewrite Hw.
Qed.

(** X6.  A daemon that ran and was stopped keeps its wait channel.  If the next
    [Start] on it cannot spawn the child, the daemon holds a command with no
    process behind a channel that is set: [Stop] passes its guard and
    dereferences the nil process. *)
Theorem Stop_after_failed_respawn (kw1 kw2 : StopWorld) (w : StartWorld) d
        (out : File) (providedArgs : list string) (bin e : string) :
  started d ->
  s_lookPath w dockerBinary = (bin, None) ->
  s_start w = Some e ->
  let stopped := after (Stop kw1 d) in
  let failed := after (StartWith w stopped out providedArgs) in
  hasHandle stopped = false /\
  hasHandle failed = true /\
  ended (Stop kw2 failed) = Panicked /\
  ended (Kill kw2 failed) = Panicked.
Proof.
  intros (c & p & ch & Hc & Hp & Hw) Hlook Hstart stopped failed.
  assert (Hh : hasHandle d = true) by (unfold hasHandle; now rewrite Hc, Hw).
  assert (Hst : stopped = set_cmd None d).
  { unfold stopped. now rewrite Stop_after, Hh. }
  assert (Hf : cmd failed =
               Some (mkCmd bin (bin :: startArgs (s_getenv w) stopped providedArgs)
                           (Some out) (Some out) None) /\
               wait failed = Some ch).
  { unfold failed, StartWithLogFile. rewrite Hlook, Hstart. cbn [after].
    split; [reflexivity|]. rewrite Hst. exact Hw. }
  destruct Hf as [Hfc Hfw].
  split; [now rewrite Hst|].
  split; [unfold hasHandle; now rewrite Hfc, Hfw|].
  split.
  - unfold Stop. now rewrite Hfc, Hfw.
  - unfold Kill. now rewrite Hfc, Hfw.
Qed.


(** *** The five-second deadline *)

Lemma deadline_closed (t0 e : Z) :
  0 <= t0 -> 6 * Second <= e -> t0 + e < 2 ^ 62 ->
  deadlineOpen (Unix t0) (t0 + e) = false.
Proof.
  intros Ht He Hr. unfold deadlineOpen, sub64, Unix in *.
  change Second with 1000000000 in *.
  change (2 ^ 62) with 4611686018427387904 in Hr.
  assert (H1 : (t0 + 6 * 1000000000) / 1000000000 <= (t0 + e) / 1000000000)
    by (apply Z.div_le_mono; lia).
  rewrite Z.div_add in H1 by lia.
  assert (H2 : (t0 + e) / 1000000000 <= 4611686018427387904 / 1000000000)
    by (apply Z.div_le_mono; lia).
  assert (H3 : 0 <= t0 / 1000000000) by (apply Z.div_pos; lia).
  change (4611686018427387904 / 1000000000) with 4611686018 in H2.
  rewrite wrap64_small.
  - apply negb_false_iff. rewrite Z.gtb_ltb. apply Z.ltb_lt. lia.
  - change (2 ^ 63) with 9223372036854775808. lia.
Qed.

Lemma total_nonneg pre :
  forallb (fun t => isRetry t && forward t) pre = true -> 0 <= total pre.
Proof.
  induction pre as [|u pre IH]; cbn [total fold_right forallb]; intros Hall.
  - lia.
  - fold (total pre). apply andb_true_iff in Hall. destruct Hall as [Hu Hall].
    apply andb_true_iff in Hu. destruct Hu as [_ Hu].
    unfold forward in Hu. apply andb_true_iff in Hu.
    destruct Hu as [Hu1 Hu2]. apply Z.leb_le in Hu1, Hu2.
    specialize (IH Hall). lia.
Qed.

Lemma poll_expires (info : Exchange) d (t0 : Z) pre : forall e0 rest tr,
  0 <= t0 ->
  0 <= e0 ->
  forallb (fun t => isRetry t && forward t) pre = true ->
  6 * Second <= e0 + total pre ->
  t0 + e0 + total pre < 2 ^ 62 ->
  let r := poll info d (Unix t0) (t0 + e0) (pre ++ rest) tr in
  ended r =
    Returned (Some (errorString (tagged d "Daemon exited and never started")))
  /\ after r = d.
Proof.
  induction pre as [|t pre IH]; intros e0 rest tr Ht0 He0 Hall Hlate Hrange r.
  - cbn [total fold_right] in Hlate, Hrange. unfold r.
    rewrite poll_deadline by (apply deadline_closed; lia). split; reflexivity.
  - unfold r. destruct (deadlineOpen (Unix t0) (t0 + e0)) eqn:Hd.
    2:{ rewrite poll_deadline by exact Hd. split; reflexivity. }
    cbn [forallb] in Hall. apply andb_true_iff in Hall.
    destruct Hall as [Htn Hall].
    pose proof (total_nonneg pre Hall) as Hpre.
    apply andb_true_iff in Htn. destruct Htn as [Hretry Hfw].
    unfold forward in Hfw. apply andb_true_iff in Hfw.
    destruct Hfw as [Hw Hx]. apply Z.leb_le in Hw, Hx.
    cbn [total fold_right] in Hlate, Hrange. fold (total pre) in Hlate, Hrange.
    cbn [app].
    destruct (poll_retry DefaultHTTPHost DefaultTLSHTTPPort DefaultUnixSocket
                json_Unmarshal info d (Unix t0) (t0 + e0) t (pre ++ rest) tr
                Hd Hretry) as [cc ->].
    replace (t0 + e0 + elapsed t) with (t0 + (e0 + elapsed t)) by lia.
    apply IH; try exact Hall; lia.
Qed.

(** X7.  Scenario C.  When every attempt fails and the failed attempts fill six
    seconds of the clock, [Start] gives up with [Daemon exited and never
    started], whatever the schedule holds after them; the root is as it was. *)
Theorem Start_never_started (w : StartWorld) d (out : File)
        (providedArgs : list string) (bin : string) pre rest :
  s_lookPath w dockerBinary = (bin, None) ->
  s_start w = None ->
  s_sched w = pre ++ rest ->
  forallb (fun t => isRetry t && forward t) pre = true ->
  0 <= s_now w ->
  6 * Second <= total pre ->
  s_now w + total pre < 2 ^ 62 ->
  let r := StartWith w d out providedArgs in
  ended r =
    Returned (Some (errorString
      ("[" +++ id d +++ "] Daemon exited and never started"))) /\
  root (after r) = root d /\
  hasHandle (after r) = true.
Proof.
  intros Hlook Hstart Hsched Hall Hnow Hlate Hrange r.
  pose proof (Start_launch dockerBinary DefaultHTTPHost DefaultTLSHTTPPort
                DefaultUnixSocket json_Unmarshal w d out providedArgs bin
                Hlook Hstart) as Hr.
  cbv zeta in Hr. fold r in Hr. rewrite Hsched in Hr.
  pose proof (poll_expires (s_info w)
                (launched (s_pid w) d out bin
                          (startArgs (s_getenv w) d providedArgs))
                (s_now w) pre 0 rest
                [Spawn (spawned bin out (startArgs (s_getenv w) d providedArgs))]
                Hnow ltac:(lia) Hall ltac:(lia) ltac:(lia)) as H.
  cbv zeta in H. rewrite Z.add_0_r in H. rewrite <- Hr in H.
  destruct H as [Hend Hafter].
  split; [exact Hend|]. rewrite Hafter. split; reflexivity.
Qed.

(** *** The storage driver *)

(** X8.  The storage driver of the instance reaches the argument vector only
    when it is set and no extra argument mentions [--storage-driver]: then the
    pair stands right before the extra arguments; otherwise the vector is the
    one of an instance without storage driver. *)
Theorem startArgs_storage_driver (getenv : string -> string) d
        (providedArgs : list string) :
  let plain := startArgs getenv (set_storageDriver "" d) providedArgs in
  if negb (storageDriver d =? "")%string && negb (existsb sdFlag providedArgs)
  then exists before,
         plain = before ++ providedArgs /\
         startArgs getenv d providedArgs =
         before ++ ["--storage-driver"; storageDriver d] ++ providedArgs
  else startArgs getenv d providedArgs = plain.
Proof.
  intros plain. unfold plain. rewrite !startArgs_eq.
  cbn [Command GlobalFlags root folder userlandProxy useDefaultHost
       useDefaultTLSHost storageDriver set_storageDriver].
  change (negb ("" =? "")%string) with false. cbn [andb].
  destruct (negb (storageDriver d =? "")%string
            && negb (existsb sdFlag providedArgs)).
  - eexists. split.
    + rewrite !app_assoc. reflexivity.
    + cbn [app]. rewrite !app_assoc. rewrite app_nil_r.
      rewrite <- !app_assoc. reflexivity.
  - reflexivity.
Qed.

(** *** queryRootDir *)

(** X9.  [queryRootDir] gives back no error only when [/info] was answered and
    the body was read to its end; the root it then gives back is the decoded
    [DockerRootDir] when the status is 200 and the body decodes, and the empty
    string for every other status.  With an error the root is always empty. *)
Theorem queryRootDir_results (info : Exchange) d (r : string)
        (err : option error) :
  fst (query info d) = Returned (r, err) ->
  match err with
  | None =>
      exists resp b,
        x_do info = DoResp resp /\ Body resp = (b, None) /\
        ((StatusCode resp = 200 /\
          exists i, json_Unmarshal b = (i, None) /\ r = DockerRootDir i) \/
         (StatusCode resp <> 200 /\ r = ""))
  | Some _ => r = ""
  end.
Proof.
  destruct err as [e|].
  { apply query_error_root. }
  unfold queryRootDir.
  destruct (getCfg (x_cfg info) d) as [[cc|e]| | | |]; cbn [fst];
    try discriminate.
  destruct (x_newRequest info); cbn [fst]; try discriminate.
  destruct (x_do info) as [e'|resp|]; cbn [fst]; try discriminate.
  destruct (Body resp) as [b [e'|]] eqn:Hb; cbn [fst]; try discriminate.
  destruct (StatusCode resp =? 200) eqn:Hs.
  - destruct (json_Unmarshal b) as [i [e'|]] eqn:Hj; cbn [fst];
      try discriminate.
    intros [= <-]. exists resp, b.
    split; [reflexivity|]. split; [exact Hb|].
    left. split; [now apply Z.eqb_eq|]. now exists i.
  - cbn [fst]. intros [= <-]. exists resp, b.
    split; [reflexivity|]. split; [exact Hb|].
    right. split; [now apply Z.eqb_neq | reflexivity].
Qed.

(** *** getClientConfig *)

(** X10.  Outside TLS mode [getClientConfig] returns no error and never looks at
    the TLS material: it answers [http] over the unix socket of the mode, the
    well-known one in default-host mode and [<folder>/docker.sock] otherwise.
    TLS mode goes before default-host mode; there a failure of the TLS material
    is returned as an error, before the transport is configured. *)
Theorem getClientConfig_modes (cw : CfgWorld) d :
  (useDefaultTLSHost d = false ->
     forall tls,
       getCfg (mkCfgWorld tls (configureTransport cw)) d = getCfg cw d /\
       (configureTransport cw = None ->
          let a := if useDefaultHost d then DefaultUnixSocket
                   else Join [folder d; "docker.sock"] in
          getCfg cw d =
            Returned (inl (mkClientConfig (mkTransport None "unix" a) "http" a)))) /\
  (useDefaultTLSHost d = true ->
     (forall e, tlsClient cw = Some e ->
        getCfg cw d = Returned (inr (sysError e))) /\
     (tlsClient cw = None -> configureTransport cw = None ->
        exists tls,
          getCfg cw d =
            Returned (inl (mkClientConfig
              (mkTransport (Some tls) "tcp"
                 (DefaultHTTPHost +++ ":" +++ fmt_d DefaultTLSHTTPPort))
              "https"
              (DefaultHTTPHost +++ ":" +++ fmt_d DefaultTLSHTTPPort))))).
Proof.
  unfold getClientConfig. split.
  - intros Htls tls. rewrite Htls. cbn [configureTransport tlsClient].
    split; [reflexivity|]. intros ->. now destruct (useDefaultHost d).
  - intros Htls. rewrite Htls. split.
    + intros e ->. reflexivity.
    + intros -> ->. eexists. reflexivity.
Qed.

End StartupMore.

(** ** Properties of the client commands *)

Section TrimFacts.

Variable cutset : string.

Lemma TrimRight_spec (s : string) :
  exists post,
    s = TrimRight s cutset +++ post /\
    allIn cutset post = true /\
    lastIn cutset (TrimRight s cutset) = false.
Proof.
  induction s as [|a s (post & Hs & Hall & Hlast)].
  - exists "". repeat split; reflexivity.
  - cbn [TrimRight].
    destruct ((TrimRight s cutset =? "")%string && inCutset cutset a) eqn:E.
    + apply andb_true_iff in E. destruct E as [Ht Ha].
      apply String.eqb_eq in Ht. rewrite Ht in Hs. cbn in Hs.
      exists (String a post). subst s. repeat split.
      unfold allIn in *. cbn. now rewrite Ha, Hall.
    + exists post. split; [cbn; now rewrite <- Hs|]. split; [exact Hall|].
      cbn [lastIn]. destruct (TrimRight s cutset) eqn:Et.
      * cbn in E. exact E.
      * exact Hlast.
Qed.

Lemma TrimLeft_spec (s : string) :
  exists pre,
    s = pre +++ TrimLeft s cutset /\
    allIn cutset pre = true /\
    headIn cutset (TrimLeft s cutset) = false.
Proof.
  induction s as [|a s (pre & Hs & Hall & Hhead)].
  - exists "". repeat split; reflexivity.
  - cbn [TrimLeft]. destruct (inCutset cutset a) eqn:Ha.
    + exists (String a pre). split; [cbn; now rewrite <- Hs|].
      split; [|exact Hhead]. unfold allIn in *. cbn. now rewrite Ha, Hall.
    + exists "". repeat split. cbn. exact Ha.
Qed.

Lemma TrimLeft_last (s : string) :
  lastIn cutset s = false -> lastIn cutset (TrimLeft s cutset) = false.
Proof.
  induction s as [|a s IH]; intros H; [reflexivity|].
  cbn [TrimLeft]. destruct (inCutset cutset a) eqn:Ha; [|exact H].
  apply IH. cbn [lastIn] in H. destruct s; [reflexivity | exact H].
Qed.

Lemma append_assoc (a b c : string) : (a +++ b) +++ c = a +++ b +++ c.
Proof. induction a as [|x a IH]; cbn; [reflexivity | now rewrite IH]. Qed.

(** Trimming on both sides takes a run of cutset bytes off each end and
    stops at bytes that are not in the cutset. *)
Lemma Trim_spec (s : string) :
  exists pre post,
    s = pre +++ Trim s cutset +++ post /\
    allIn cutset pre = true /\ allIn cutset post = true /\
    headIn cutset (Trim s cutset) = false /\
    lastIn cutset (Trim s cutset) = false.
Proof.
  assert (H : exists pre post,
             s = pre +++ TrimLeft (TrimRight s cutset) cutset +++ post /\
             allIn cutset pre = true /\ allIn cutset post = true /\
             headIn cutset (TrimLeft (TrimRight s cutset) cutset) = false /\
             lastIn cutset (TrimLeft (TrimRight s cutset) cutset) = false).
  { destruct (TrimRight_spec s) as (post & Hs & Hpost & Hlast).
    destruct (TrimLeft_spec (TrimRight s cutset)) as (pre & Ht & Hpre & Hhead).
    exists pre, post. split.
    - rewrite <- append_assoc, <- Ht. exact Hs.
    - repeat split; auto. now apply TrimLeft_last. }
  unfold Trim.
  destruct ((s =? "")%string || (cutset =? "")%string) eqn:E; [|exact H].
  apply orb_true_iff in E. destruct E as [E|E]; apply String.eqb_eq in E.
  - subst s. exists "", "". repeat split; reflexivity.
  - assert (Hno : forall c, inCutset cutset c = false) by (now subst cutset).
    exists "", "". split; [cbn; clear; induction s; cbn; congruence|].
    repeat split; try reflexivity.
    + destruct s; [reflexivity | apply Hno].
    + clear -Hno. induction s as [|a s IH]; [reflexivity|].
      cbn [lastIn]. destruct s; [apply Hno | exact IH].
Qed.

End TrimFacts.

Section CommandsMore.

Variable dockerBinary : string.
Variable DefaultHTTPHost : string.
Variable DefaultTLSHTTPPort : Z.
Variable DefaultUnixSocket : string.
Variable json_Unmarshal : string -> Info * option string.
Variable strings_TrimSpace : string -> string.

#[local] Abbreviation getCfg :=
  (getClientConfig DefaultHTTPHost DefaultTLSHTTPPort DefaultUnixSocket).
#[local] Abbreviation Start' :=
  (Start dockerBinary DefaultHTTPHost DefaultTLSHTTPPort DefaultUnixSocket
         json_Unmarshal).
#[local] Abbreviation StartWith :=
  (StartWithLogFile dockerBinary DefaultHTTPHost DefaultTLSHTTPPort
                    DefaultUnixSocket json_Unmarshal).
#[local] Abbreviation Run_ := (Cmd_ dockerBinary).
#[local] Abbreviation LoadBB := (LoadBusybox dockerBinary).

Implicit Types (w : CliWorld) (d : Daemon).

#[local] Arguments String.append : simpl never.

(** *** Cmd *)

(** X11.  [Cmd] always points the client at [unix://<folder>/docker.sock], and
    gives back output and error as the client left them; it is [CmdWithArgs]
    with that [--host] pair for daemon arguments.  In the two default modes that
    is not where the daemon is: there [Start] passes the daemon no [--host] pair
    (its vector is the one of unix-ephemeral mode with the pair taken out), and
    in default-host mode the readiness check goes to the well-known socket. *)
Theorem Cmd_targets_folder_socket w d (name : string) (arg : list string)
        (getenv : string -> string) (providedArgs : list string)
        (cw : CfgWorld) :
  let argv := dockerBinary :: "--host"
                :: ("unix://" +++ folder d +++ "/docker.sock") :: name :: arg in
  Run_ w d name arg =
    ((fst (c_exec w argv), fromSys (snd (c_exec w argv))), [Exec argv]) /\
  Run_ w d name arg =
    CmdWithArgs dockerBinary w ["--host"; sock d] name arg /\
  (useDefaultHost d || useDefaultTLSHost d = true ->
     exists before behind,
       startArgs getenv (ephemeral d) providedArgs =
         before ++ ["--host"; "unix://" +++ folder d +++ "/docker.sock"]
                ++ behind /\
       startArgs getenv d providedArgs = before ++ behind) /\
  (useDefaultHost d = true -> useDefaultTLSHost d = false ->
   configureTransport cw = None ->
     exists cc, getCfg cw d = Returned (inl cc) /\ addr cc = DefaultUnixSocket).
Proof.
  intros argv. split; [|split; [|split]].
  - unfold Cmd_, sock. cbn [app]. fold argv. now destruct (c_exec w argv).
  - reflexivity.
  - intros Hmode. rewrite !startArgs_eq.
    cbn [Command GlobalFlags root folder userlandProxy useDefaultHost
         useDefaultTLSHost storageDriver ephemeral].
    rewrite Hmode. cbn [orb negb].
    exists (GlobalFlags d
            ++ [ Command d;
                 "--containerd";
                 "/var/run/docker/libcontainerd/docker-containerd.sock";
                 "--graph"; root d;
                 "--exec-root"; Join [folder d; "exec-root"];
                 "--pidfile"; folder d +++ "/docker.pid";
                 "--userland-proxy=" +++ fmt_t (userlandProxy d) ]),
           ((if negb (getenv "DOCKER_REMAP_ROOT" =? "")%string
             then ["--userns-remap"; getenv "DOCKER_REMAP_ROOT"] else [])
            ++ (if negb (existsb logFlag providedArgs) then ["--debug"] else [])
            ++ (if negb (storageDriver d =? "")%string
                   && negb (existsb sdFlag providedArgs)
                then ["--storage-driver"; storageDriver d] else [])
            ++ providedArgs).
    split.
    + now rewrite <- !app_assoc.
    + cbn [app]. now rewrite <- !app_assoc.
  - intros Hhost Htls Hct. unfold getClientConfig. rewrite Htls, Hhost, Hct.
    eexists. split; reflexivity.
Qed.

(** *** The inspection helpers *)

(** X12.  [inspectFilter] runs [inspect -f {{<filter>}} <name>] against the
    folder socket.  When the client fails, the text is empty and the error
    carries the output of the client, not its error; otherwise the text is the
    output with the surrounding white space taken off.  [getIDByName] is the
    filter [.Id]. *)
Theorem inspect_results w d (name filter : string) :
  let argv f := [dockerBinary; "--host";
                 "unix://" +++ folder d +++ "/docker.sock";
                 "inspect"; "-f"; "{{" +++ f +++ "}}"; name] in
  let result f :=
    match c_exec w (argv f) with
    | (out, None) => (strings_TrimSpace out, None)
    | (out, Some _) =>
        ("", Some (errorString ("failed to inspect " +++ name +++ ": " +++ out)))
    end in
  inspectFilter dockerBinary strings_TrimSpace w d name filter =
    (result filter, [Exec (argv filter)]) /\
  inspectFieldWithError dockerBinary strings_TrimSpace w d name filter =
    (result ("." +++ filter), [Exec (argv ("." +++ filter))]) /\
  getIDByName dockerBinary strings_TrimSpace w d name =
    (result ".Id", [Exec (argv ".Id")]).
Proof.
  intros argv result.
  assert (H : forall f,
             inspectFilter dockerBinary strings_TrimSpace w d name f =
             (result f, [Exec (argv f)])).
  { intros f. unfold inspectFilter, Cmd_, result, sock. cbn [app].
    fold (argv f). now destruct (c_exec w (argv f)) as [out [e|]]. }
  split; [apply H|]. split; [apply H|]. apply H.
Qed.

(** *** findContainerIP *)

(** X13.  [findContainerIP] gives back the output of the client with spaces,
    carriage returns, line feeds and single quotes taken off both ends: what it
    returns neither begins nor ends with one of them, and the output is that
    text between two runs of them.  An error of the client is logged and changes
    nothing of the text returned. *)
Theorem findContainerIP_trimmed w d (id : string) :
  let argv := [dockerBinary; "--host";
               "unix://" +++ folder d +++ "/docker.sock"; "inspect";
               "--format='{{ .NetworkSettings.Networks.bridge.IPAddress }}'";
               id] in
  let out := fst (c_exec w argv) in
  let ip := fst (findContainerIP dockerBinary w d id) in
  ip = Trim out ipCutset /\
  (exists pre post,
      out = pre +++ ip +++ post /\
      allIn ipCutset pre = true /\ allIn ipCutset post = true) /\
  headIn ipCutset ip = false /\
  lastIn ipCutset ip = false /\
  snd (findContainerIP dockerBinary w d id) =
    Exec argv :: noteErr (snd (c_exec w argv)).
Proof.
  intros argv out ip.
  assert (Hip : ip = Trim out ipCutset /\
                snd (findContainerIP dockerBinary w d id) =
                Exec argv :: noteErr (snd (c_exec w argv))).
  { unfold ip, out, findContainerIP, Cmd_, sock. cbn [app]. fold argv.
    destruct (c_exec w argv) as [o [e|]]; split; reflexivity. }
  destruct Hip as [Hip Hcalls]. split; [exact Hip|].
  destruct (Trim_spec ipCutset out) as (pre & post & Hs & Hpre & Hpost & Hh & Hl).
  rewrite <- Hip in Hs, Hh, Hl.
  split; [now exists pre, post|]. repeat split; assumption.
Qed.

(** *** LoadBusybox *)

Lemma Load_eq w d :
  LoadBB w d =
  let bb := busyboxTar d in
  let loaded (calls : list CliCall) :=
    match c_exec w (loadCommand dockerBinary d) with
    | (out, Some _) =>
        (Some (errorString ("could not load busybox image: " +++ out)),
         calls ++ [Exec (loadCommand dockerBinary d)])
    | (_, None) =>
        (None,
         calls ++ [Exec (loadCommand dockerBinary d); Rm bb]
               ++ match c_remove w bb with
                  | Some e => [Note ("could not remove " +++ bb +++ ": " +++ e)]
                  | None => []
                  end)
    end in
  match c_stat w bb with
  | StatOk => loaded [Stat bb]
  | StatError e =>
      (Some (errorString ("unexpected error on busybox.tar stat: " +++ e)),
       [Stat bb])
  | StatNotExist =>
      match snd (c_exec w (saveCommand dockerBinary d)) with
      | Some e =>
          (Some (errorString ("could not save busybox image: " +++ e)),
           [Stat bb; Exec (saveCommand dockerBinary d)])
      | None => loaded [Stat bb; Exec (saveCommand dockerBinary d)]
      end
  end.
Proof.
  unfold LoadBusybox, Cmd_, sock. cbn [app]. cbv zeta.
  change (Join [folder d; "busybox.tar"]) with (busyboxTar d).
  unfold saveCommand, loadCommand.
  destruct (c_stat w (busyboxTar d)); try reflexivity.
  - destruct (c_exec w _) as [out [e|]]; cbn [fromSys option_map app];
      [reflexivity|].
    destruct (c_remove w _); reflexivity.
  - destruct (snd (c_exec w _)); [reflexivity|].
    destruct (c_exec w _) as [out [e|]]; cbn [fromSys option_map app];
      [reflexivity|].
    destruct (c_remove w _); reflexivity.
Qed.

(** X14.  [LoadBusybox] returns no error exactly when the archive is there, or
    is missing and could be saved, and the load succeeds; whether the archive
    can be removed afterwards plays no part. *)
Theorem LoadBusybox_succeeds_iff w d :
  fst (LoadBB w d) = None <->
  (c_stat w (busyboxTar d) = StatOk \/
   (c_stat w (busyboxTar d) = StatNotExist /\
    snd (c_exec w (saveCommand dockerBinary d)) = None)) /\
  snd (c_exec w (loadCommand dockerBinary d)) = None.
Proof.
  rewrite Load_eq. cbv zeta.
  destruct (c_stat w (busyboxTar d)) eqn:Hstat.
  - destruct (c_exec w (loadCommand dockerBinary d)) as [out [e|]];
      cbn [fst snd]; split; try discriminate; auto.
    intros [_ H]. discriminate.
  - destruct (snd (c_exec w (saveCommand dockerBinary d))) eqn:Hsave.
    + cbn [fst]. split; [discriminate|].
      intros [[H|[_ H]] _]; discriminate.
    + destruct (c_exec w (loadCommand dockerBinary d)) as [out [e|]];
        cbn [fst snd]; split; try discriminate; auto.
      intros [_ H]. discriminate.
  - cbn [fst]. split; [discriminate|].
    intros [[H|[H _]] _]; discriminate.
Qed.

(** Case analysis on a membership in an explicit list of calls. *)
Ltac in_cases H :=
  repeat (cbn [In app] in H;
          match type of H with
          | _ \/ _ => destruct H as [H|H]
          | False => destruct H
          | In _ (match ?x with _ => _ end) => destruct x
          end);
  try discriminate.

(** X15.  The calls of [LoadBusybox] come in one order: the stat, the save only
    when the archive is missing, the load only with an archive, and the removal
    of the archive only after a load that succeeded.  So the archive is removed
    exactly when [LoadBusybox] returns no error, and a load that fails leaves it
    in place; the error of a failed load carries the output of the client. *)
Theorem LoadBusybox_calls w d :
  let calls := snd (LoadBB w d) in
  let bb := busyboxTar d in
  (exists more, calls = Stat bb :: more) /\
  (In (Exec (saveCommand dockerBinary d)) calls <->
     c_stat w bb = StatNotExist) /\
  (In (Rm bb) calls <-> fst (LoadBB w d) = None) /\
  (forall p, In (Rm p) calls -> p = bb) /\
  (forall out e,
     In (Exec (loadCommand dockerBinary d)) calls ->
     c_exec w (loadCommand dockerBinary d) = (out, Some e) ->
     fst (LoadBB w d) =
       Some (errorString ("could not load busybox image: " +++ out))).
Proof.
  intros calls bb. unfold calls. rewrite Load_eq. cbv zeta. fold bb.
  unfold saveCommand, loadCommand. fold bb.
  destruct (c_stat w bb) eqn:Hstat;
    [ | destruct (snd (c_exec w [dockerBinary; "save"; "--output"; bb;
                                 "busybox:latest"])) eqn:Hsave | ];
    try (destruct (c_exec w [dockerBinary; "--host";
                             "unix://" +++ folder d +++ "/docker.sock";
                             "load"; "--input"; bb])
           as [out [e|]] eqn:Hload);
    cbn [fst snd app].
  all: split; [eexists; reflexivity|].
  all: split; [split; [intros H; in_cases H; try reflexivity
                      | intros H; try discriminate; cbn [In]; auto]|].
  all: split; [split; [intros H; in_cases H; try reflexivity
                      | intros H; try discriminate; cbn [In]; auto 6]|].
  all: split; [intros p H; in_cases H; now injection H|].
  all: intros out' e' H Hrun; in_cases H;
    try (injection Hrun as <- _); try discriminate; reflexivity.
Qed.

End CommandsMore.

(** ** Properties of the path functions *)

Section PathFacts.

Lemma splitOn_cons (s : string) : exists h t, splitOn "/" s = h :: t.
Proof.
  destruct s as [|a s]; cbn [splitOn]; [eauto|].
  destruct (Ascii.eqb a "/"); [eauto|]. destruct (splitOn "/" s); eauto.
Qed.

Lemma splitOn_app (a b : string) :
  splitOn "/" (a +++ String "/" b) = splitOn "/" a ++ splitOn "/" b.
Proof.
  induction a as [|x a IH].
  - reflexivity.
  - cbn [String.append splitOn]. rewrite IH.
    destruct (Ascii.eqb x "/"); [reflexivity|].
    destruct (splitOn_cons a) as (h & t & ->). reflexivity.
Qed.

Lemma splitOn_slashFree (s : string) :
  slashFree s = true -> splitOn "/" s = [s].
Proof.
  unfold slashFree. induction s as [|a s IH]; [reflexivity|].
  cbn [list_ascii_of_string forallb splitOn]. intros H.
  apply andb_true_iff in H. destruct H as [Ha Hs].
  apply negb_true_iff in Ha. rewrite Ha, (IH Hs). reflexivity.
Qed.

Lemma splitOn_elements (s : string) :
  forallb slashFree (splitOn "/" s) = true.
Proof.
  induction s as [|a s IH]; [reflexivity|].
  cbn [splitOn]. destruct (Ascii.eqb a "/") eqn:Ea.
  - cbn [forallb]. now rewrite IH.
  - destruct (splitOn "/" s) as [|h t]; cbn [forallb] in *.
    + unfold slashFree. cbn. now rewrite Ea.
    + apply andb_true_iff in IH. destruct IH as [Hh Ht].
      rewrite Ht, andb_true_r. unfold slashFree in *. cbn. now rewrite Ea, Hh.
Qed.

Lemma splitOn_concat (l : list string) :
  l <> [] -> forallb slashFree l = true ->
  splitOn "/" (String.concat "/" l) = l.
Proof.
  induction l as [|x l IH]; [congruence|]. intros _ H.
  cbn [forallb] in H. apply andb_true_iff in H. destruct H as [Hx Hl].
  destruct l as [|y l].
  - cbn [String.concat]. now apply splitOn_slashFree.
  - change (String.concat "/" (x :: y :: l))
      with (x +++ String "/" (String.concat "/" (y :: l))).
    rewrite splitOn_app, splitOn_slashFree by exact Hx.
    rewrite IH by (congruence || exact Hl). reflexivity.
Qed.

Lemma plainName_step (stack : list string) (e : string) :
  plainName e = true -> cleanStep true stack e = e :: stack.
Proof.
  unfold plainName, cleanStep. intros H.
  apply andb_true_iff in H. destruct H as [_ H].
  apply negb_true_iff in H. apply orb_false_iff in H. destruct H as [H H2].
  now rewrite H, H2.
Qed.

Lemma plain_fold (l stack : list string) :
  forallb plainName l = true ->
  fold_left (cleanStep true) l stack = rev l ++ stack.
Proof.
  revert stack. induction l as [|e l IH]; intros stack H; [reflexivity|].
  cbn [forallb] in H. apply andb_true_iff in H. destruct H as [He Hl].
  cbn [fold_left rev]. rewrite plainName_step by exact He.
  rewrite IH by exact Hl. now rewrite <- app_assoc.
Qed.

(** In a rooted path [Clean] keeps names only. *)
Lemma rooted_step (stack : list string) (e : string) :
  forallb plainName stack = true -> slashFree e = true ->
  forallb plainName (cleanStep true stack e) = true.
Proof.
  intros Hs He. unfold cleanStep.
  destruct ((e =? "") || (e =? "."))%string eqn:E1; [exact Hs|].
  destruct (e =? "..")%string eqn:E2.
  - destruct stack as [|top below]; [reflexivity|].
    cbn [forallb] in Hs. apply andb_true_iff in Hs. destruct Hs as [Ht Hb].
    destruct (top =? "..")%string eqn:E3; [|exact Hb].
    apply String.eqb_eq in E3. subst top. discriminate.
  - cbn [forallb]. rewrite Hs, andb_true_r.
    unfold plainName. now rewrite He, E1, E2.
Qed.

Lemma rooted_fold (l stack : list string) :
  forallb slashFree l = true -> forallb plainName stack = true ->
  forallb plainName (fold_left (cleanStep true) l stack) = true.
Proof.
  revert stack. induction l as [|e l IH]; intros stack Hl Hs; [exact Hs|].
  cbn [forallb] in Hl. apply andb_true_iff in Hl. destruct Hl as [He Hl].
  cbn [fold_left]. apply IH; [exact Hl|]. now apply rooted_step.
Qed.

Lemma forallb_rev {A} (f : A -> bool) (l : list A) :
  forallb f (rev l) = forallb f l.
Proof.
  induction l as [|a l IH]; [reflexivity|].
  cbn [rev forallb]. rewrite forallb_app, IH. cbn [forallb].
  rewrite andb_true_r. apply andb_comm.
Qed.

Lemma plain_slashFree (l : list string) :
  forallb plainName l = true -> forallb slashFree l = true.
Proof.
  induction l as [|e l IH]; [reflexivity|]. cbn [forallb]. intros H.
  apply andb_true_iff in H. destruct H as [He Hl].
  unfold plainName in He. apply andb_true_iff in He.
  destruct He as [He _]. now rewrite He, IH.
Qed.

Lemma append_nil_r (s : string) : s +++ "" = s.
Proof. induction s; cbn; congruence. Qed.

Lemma IsAbs_slash (s : string) : IsAbs ("/" +++ s) = true.
Proof. unfold IsAbs. cbn. now destruct s. Qed.

Lemma IsAbs_append (a b : string) : IsAbs a = true -> IsAbs (a +++ b) = true.
Proof.
  unfold IsAbs. destruct a as [|c a]; intros H; [discriminate|].
  cbn [String.append prefix] in *.
  destruct (ascii_dec "/" c); [|discriminate].
  now destruct (a +++ b).
Qed.

(** The shape of a cleaned rooted path. *)
Lemma Clean_rooted (p : string) :
  IsAbs p = true ->
  exists names,
    forallb plainName names = true /\
    Clean p = "/" +++ String.concat "/" names.
Proof.
  intros Hp. unfold Clean. rewrite Hp.
  eexists. split; [|reflexivity].
  rewrite forallb_rev. apply rooted_fold; [apply splitOn_elements|reflexivity].
Qed.

(** [Clean] on a rooted path of names, with or without a trailing
    separator. *)
Lemma Clean_names (names : list string) (tail : string) :
  forallb plainName names = true ->
  tail = "" \/ (tail = "/" /\ names <> []) ->
  Clean ("/" +++ String.concat "/" names +++ tail) =
  "/" +++ String.concat "/" names.
Proof.
  intros Hn Ht. unfold Clean.
  rewrite IsAbs_slash.
  assert (Hfold : fold_left (cleanStep true)
                    (splitOn "/" ("/" +++ String.concat "/" names +++ tail)) []
                  = rev names).
  { change ("/" +++ String.concat "/" names +++ tail)
      with ("" +++ String "/" (String.concat "/" names +++ tail)).
    rewrite splitOn_app. cbn [splitOn app fold_left].
    change (cleanStep true [] "") with (@nil string).
    destruct Ht as [->|[-> Hne]].
    - rewrite append_nil_r. destruct names as [|x names].
      + reflexivity.
      + rewrite splitOn_concat by (congruence || now apply plain_slashFree).
        rewrite plain_fold by exact Hn. apply app_nil_r.
    - change (String.concat "/" names +++ "/")
        with (String.concat "/" names +++ String "/" "").
      rewrite splitOn_app.
      rewrite splitOn_concat by (exact Hne || now apply plain_slashFree).
      rewrite fold_left_app, (plain_fold names) by exact Hn.
      cbn [splitOn fold_left]. rewrite app_nil_r.
      destruct (rev names); reflexivity. }
  rewrite Hfold, rev_involutive. reflexivity.
Qed.

Lemma concat_snoc (names : list string) (x : string) :
  names <> [] ->
  String.concat "/" (names ++ [x]) = String.concat "/" names +++ "/" +++ x.
Proof.
  induction names as [|a names IH]; [congruence|]. intros _.
  destruct names as [|b names].
  - reflexivity.
  - change (String.concat "/" ((a :: b :: names) ++ [x]))
      with (a +++ "/" +++ String.concat "/" ((b :: names) ++ [x])).
    rewrite IH by congruence.
    change (String.concat "/" (a :: b :: names))
      with (a +++ "/" +++ String.concat "/" (b :: names)).
    now rewrite !append_assoc.
Qed.

(** What a clean absolute path other than the root looks like. *)
Lemma isCleanAbs_names (p : string) :
  isCleanAbs p = true ->
  exists names,
    names <> [] /\ forallb plainName names = true /\
    p = "/" +++ String.concat "/" names.
Proof.
  unfold isCleanAbs. intros H.
  apply andb_true_iff in H. destruct H as [H Hroot].
  apply andb_true_iff in H. destruct H as [Habs Hclean].
  apply String.eqb_eq in Hclean. apply negb_true_iff in Hroot.
  destruct (Clean_rooted p Habs) as (names & Hn & Hp).
  rewrite Hclean in Hp. exists names. split; [|split; assumption].
  intros ->. subst p. discriminate.
Qed.

(** Joining a name to a clean absolute path appends it. *)
Lemma Join_name (p x : string) :
  isCleanAbs p = true -> plainName x = true ->
  Join [p; x] = p +++ "/" +++ x /\ isCleanAbs (p +++ "/" +++ x) = true.
Proof.
  intros Hp Hx.
  destruct (isCleanAbs_names p Hp) as (names & Hne & Hn & ->).
  assert (Hall : forallb plainName (names ++ [x]) = true).
  { rewrite forallb_app, Hn. cbn [forallb]. now rewrite Hx. }
  assert (E : ("/" +++ String.concat "/" names) +++ "/" +++ x =
              "/" +++ String.concat "/" (names ++ [x])).
  { rewrite concat_snoc by exact Hne. now rewrite !append_assoc. }
  assert (Hc : Clean (("/" +++ String.concat "/" names) +++ "/" +++ x) =
               ("/" +++ String.concat "/" names) +++ "/" +++ x).
  { rewrite E. rewrite <- (append_nil_r (String.concat "/" (names ++ [x]))) at 1.
    apply Clean_names; [exact Hall | now left]. }
  split.
  - cbn [Join]. change ("/" +++ String.concat "/" names =? "")%string with false.
    cbv iota.
    change (String.concat "/" ["/" +++ String.concat "/" names; x])
      with (("/" +++ String.concat "/" names) +++ "/" +++ x).
    exact Hc.
  - unfold isCleanAbs. rewrite Hc, String.eqb_refl.
    rewrite E, IsAbs_slash.
    cbn [andb]. apply negb_true_iff. apply String.eqb_neq.
    intros Hbad. cbn [String.append] in Hbad.
    inversion Hbad as [Hb]. rewrite concat_snoc in Hb by exact Hne.
    destruct (String.concat "/" names); discriminate.
Qed.

Lemma uptoLastSlash_app (a x : string) :
  slashFree x = true ->
  uptoLastSlash (a +++ String "/" x) = a +++ "/".
Proof.
  intros Hx.
  assert (Hx0 : uptoLastSlash x = "").
  { unfold slashFree in Hx. induction x as [|c x IH]; [reflexivity|].
    cbn [list_ascii_of_string forallb] in Hx.
    apply andb_true_iff in Hx. destruct Hx as [Hc Hx].
    apply negb_true_iff in Hc. cbn [uptoLastSlash].
    rewrite (IH Hx). cbn. now rewrite Hc. }
  induction a as [|c a IH].
  - cbn [String.append uptoLastSlash]. rewrite Hx0. reflexivity.
  - cbn [String.append uptoLastSlash]. rewrite IH.
    destruct a; reflexivity.
Qed.

(** [Dir] takes a joined name off again. *)
Lemma Dir_Join (p x : string) :
  isCleanAbs p = true -> plainName x = true ->
  Dir (Join [p; x]) = p.
Proof.
  intros Hp Hx. destruct (Join_name p x Hp Hx) as [-> _].
  destruct (isCleanAbs_names p Hp) as (names & Hne & Hn & ->).
  unfold Dir.
  assert (Hs : slashFree x = true).
  { unfold plainName in Hx. apply andb_true_iff in Hx. tauto. }
  change (("/" +++ String.concat "/" names) +++ "/" +++ x)
    with (("/" +++ String.concat "/" names) +++ String "/" x).
  rewrite uptoLastSlash_app by exact Hs.
  change (("/" +++ String.concat "/" names) +++ "/")
    with ("/" +++ String.concat "/" names +++ "/").
  apply Clean_names; [exact Hn|]. right. now split.
Qed.

End PathFacts.

(** ** Properties that span the life of a daemon *)

Section LifecycleMore.

Variable dockerBinary : string.
Variable DefaultHTTPHost : string.
Variable DefaultTLSHTTPPort : Z.
Variable DefaultUnixSocket : string.
Variable json_Unmarshal : string -> Info * option string.

#[local] Abbreviation getCfg :=
  (getClientConfig DefaultHTTPHost DefaultTLSHTTPPort DefaultUnixSocket).
#[local] Abbreviation poll :=
  (pollLoop DefaultHTTPHost DefaultTLSHTTPPort DefaultUnixSocket
            json_Unmarshal).
#[local] Abbreviation Start' :=
  (Start dockerBinary DefaultHTTPHost DefaultTLSHTTPPort DefaultUnixSocket
         json_Unmarshal).
#[local] Abbreviation StartWith :=
  (StartWithLogFile dockerBinary DefaultHTTPHost DefaultTLSHTTPPort
                    DefaultUnixSocket json_Unmarshal).
#[local] Abbreviation Run_ := (Cmd_ dockerBinary).
#[local] Abbreviation LoadBB := (LoadBusybox dockerBinary).
#[local] Abbreviation StartBusybox :=
  (StartWithBusybox dockerBinary DefaultHTTPHost DefaultTLSHTTPPort
                    DefaultUnixSocket json_Unmarshal).
#[local] Abbreviation Restart' :=
  (Restart dockerBinary DefaultHTTPHost DefaultTLSHTTPPort DefaultUnixSocket
           json_Unmarshal).

Implicit Types (d : Daemon) (sw : StartWorld) (kw : StopWorld) (w : CliWorld).

#[local] Arguments String.append : simpl never.

(** *** One socket *)

(** X16.  For a daemon in unix-ephemeral mode whose folder is a clean absolute
    path, the daemon, the readiness check and the client agree on the socket:
    [Start] tells the daemon to listen on [unix://<folder>/docker.sock],
    [getClientConfig] dials [<folder>/docker.sock], and [Cmd] points the client
    at the same place. *)
Theorem folder_socket_shared (cw : CfgWorld) w d (name : string)
        (arg : list string) (getenv : string -> string)
        (providedArgs : list string) :
  isCleanAbs (folder d) = true ->
  useDefaultHost d = false ->
  useDefaultTLSHost d = false ->
  configureTransport cw = None ->
  let s := folder d +++ "/docker.sock" in
  getCfg cw d =
    Returned (inl (mkClientConfig (mkTransport None "unix" s) "http" s)) /\
  sock d = "unix://" +++ s /\
  (exists before behind,
     startArgs getenv d providedArgs =
     before ++ ["--host"; "unix://" +++ s] ++ behind) /\
  snd (Run_ w d name arg) =
    [Exec (dockerBinary :: "--host" :: ("unix://" +++ s) :: name :: arg)].
Proof.
  intros Hclean Hhost Htls Hct s.
  destruct (Join_name (folder d) "docker.sock" Hclean eq_refl) as [Hj _].
  split.
  { unfold getClientConfig. rewrite Htls, Hhost, Hct, Hj. reflexivity. }
  split; [reflexivity|]. split.
  - rewrite startArgs_eq, Hhost, Htls. cbn [orb negb].
    eexists _, _. rewrite app_assoc. reflexivity.
  - unfold Cmd_, sock. cbn [app].
    now destruct (c_exec w _).
Qed.

(** *** StartWithBusybox *)

Lemma Start_nil_launched sw d (arg : list string) :
  ended (Start' sw d arg) = Returned None ->
  exists f bin,
    s_openFile sw (Join [folder d; "docker.log"]) = (f, None) /\
    s_lookPath sw dockerBinary = (bin, None) /\
    s_start sw = None.
Proof.
  unfold Start, StartWithLogFile.
  destruct (s_openFile sw _) as [f [e|]]; [discriminate|].
  destruct (s_lookPath sw dockerBinary) as [bin [e|]]; [discriminate|].
  destruct (s_start sw) as [e|]; [discriminate|].
  intros _. now exists f, bin.
Qed.

(** What holds of the daemon once the child was spawned. *)
Lemma launch_fields sw d (out : File) (providedArgs : list string)
      (bin : string) :
  s_lookPath sw dockerBinary = (bin, None) ->
  s_start sw = None ->
  let r := StartWith sw d out providedArgs in
  hasHandle (after r) = true /\
  logFile (after r) = Some out /\
  folder (after r) = folder d /\
  existsb isShutdown (trace r) = false /\
  started (after r) /\
  pidOf (after r) = s_pid sw /\
  exists added,
    trace r =
    Spawn (spawned bin out (startArgs (s_getenv sw) d providedArgs)) :: added.
Proof.
  intros Hlook Hstart r.
  pose proof (Start_launch dockerBinary DefaultHTTPHost DefaultTLSHTTPPort
                DefaultUnixSocket json_Unmarshal sw d out providedArgs bin
                Hlook Hstart) as Hr.
  cbv zeta in Hr. fold r in Hr.
  pose proof (poll_frame DefaultHTTPHost DefaultTLSHTTPPort DefaultUnixSocket
                json_Unmarshal (s_info sw)
                (launched (s_pid sw) d out bin
                          (startArgs (s_getenv sw) d providedArgs))
                (Unix (s_now sw)) (s_sched sw) (s_now sw)
                [Spawn (spawned bin out
                          (startArgs (s_getenv sw) d providedArgs))]) as H.
  cbv zeta in H. rewrite <- Hr in H.
  destruct H as [Hafter (added & Htr & Hq & _)].
  rewrite Htr, existsb_app, Hq.
  destruct Hafter as [->|(root' & -> & _)];
    (do 4 (split; [reflexivity|]));
    (split; [eexists _, _, _; repeat split; reflexivity|]);
    (split; [reflexivity|]); exists added; reflexivity.
Qed.

(** X17.  [StartWithBusybox] is [Start] and, only when [Start] returned no
    error, [LoadBusybox] on the daemon just started: no client command runs
    after a failed start.  When the image step fails, its error is returned and
    the daemon is left as [Start] left it: running, with its handle, not
    signalled and not killed. *)
Theorem StartWithBusybox_steps sw w d (arg : list string) :
  let s := Start' sw d arg in
  let r := StartBusybox sw w d arg in
  after (fst r) = after s /\
  trace (fst r) = trace s /\
  match ended s with
  | Returned None =>
      ended (fst r) = Returned (fst (LoadBB w (after s))) /\
      snd r = snd (LoadBB w (after s)) /\
      busyboxTar (after s) = busyboxTar d /\
      hasHandle (after (fst r)) = true /\
      existsb isShutdown (trace (fst r)) = false
  | _ => fst r = s /\ snd r = []
  end.
Proof.
  intros s r. unfold r, StartWithBusybox. fold s.
  destruct (ended s) as [[e|]| | | |] eqn:Hs;
    try (repeat split; reflexivity).
  destruct (LoadBB w (after s)) as [err calls] eqn:Hl.
  cbn [fst snd after trace ended].
  split; [reflexivity|]. split; [reflexivity|].
  split; [reflexivity|]. split; [reflexivity|].
  destruct (Start_nil_launched sw d arg Hs) as (f & bin & Hopen & Hlook & Hst).
  unfold s. rewrite (Start_opens dockerBinary DefaultHTTPHost
                       DefaultTLSHTTPPort DefaultUnixSocket json_Unmarshal
                       sw d arg f Hopen).
  destruct (launch_fields sw d f arg bin Hlook Hst) as (Hh & _ & Hf & Hq & _).
  split; [unfold busyboxTar; now rewrite Hf|]. split; assumption.
Qed.

(** *** Restart *)

Lemma Stop_returns kw d :
  started d \/ hasHandle d = false ->
  exists e, ended (Stop kw d) = Returned e.
Proof.
  intros [Hst|Hno].
  - destruct (Stop_paths kw d Hst) as [_ [body m e _ _ H|body err _ H|body e _ _ H
                                          |body _ _ H]]; eauto.
  - rewrite Stop_no_handle by exact Hno. eexists. reflexivity.
Qed.

Lemma Run_eta (r : Run) : mkRun (after r) (ended r) (trace r) = r.
Proof. now destruct r. Qed.

(** X18.  [Restart] is [Stop] followed by [Start], whatever [Stop] returned: its
    error, also [could not send signal] and [daemon not started], is thrown
    away.  On a daemon without handle and without remapped root, [Restart] is
    [Start].  With [DOCKER_REMAP_ROOT] set the daemon is started with the parent
    of its recorded root: a root [<base>/<name>] becomes [<base>], which is what
    [--graph] then carries. *)
Theorem Restart_stops_then_starts kw sw d (arg : list string) :
  started d \/ hasHandle d = false ->
  let remap := s_getenv sw "DOCKER_REMAP_ROOT" in
  let d0 := if hasHandle d then set_cmd None d else d in
  let d1 := if (remap =? "")%string then d0
            else set_root (Dir (root d)) d0 in
  let r := Restart' kw sw d arg in
  let s := Start' sw d1 arg in
  ended r = ended s /\
  after r = after s /\
  trace r = trace (Stop kw d) ++ trace s /\
  (hasHandle d = false -> remap = "" -> r = Start' sw d arg) /\
  (forall base name : string,
     remap <> "" ->
     isCleanAbs base = true -> plainName name = true ->
     root d = Join [base; name] ->
     root d1 = base /\
     exists before behind,
       startArgs (s_getenv sw) d1 arg =
       before ++ ["--graph"; base] ++ behind).
Proof.
  intros Hd remap d0 d1 r s.
  destruct (Stop_returns kw d Hd) as [e He].
  assert (Hr : r = mkRun (after s) (ended s) (trace (Stop kw d) ++ trace s)).
  { unfold r, Restart. rewrite He. cbv zeta.
    rewrite Stop_after. fold d0. fold remap.
    assert (Hroot : root d0 = root d) by (unfold d0; now destruct (hasHandle d)).
    rewrite Hroot.
    replace (if negb (remap =? "")%string then set_root (Dir (root d)) d0
             else d0) with d1
      by (unfold d1; now destruct (remap =? "")%string).
    reflexivity. }
  rewrite Hr. cbn [ended after trace].
  split; [reflexivity|]. split; [reflexivity|]. split; [reflexivity|].
  split.
  - intros Hno Hre. rewrite (Stop_no_handle kw d Hno). cbn [trace notStarted app].
    assert (Hd1 : d1 = d).
    { unfold d1, d0. rewrite Hre, Hno. reflexivity. }
    unfold s. rewrite Hd1. apply Run_eta.
  - intros base name Hre Hbase Hname Hroot.
    assert (Hd1 : d1 = set_root (Dir (root d)) d0).
    { unfold d1. apply String.eqb_neq in Hre. now rewrite Hre. }
    assert (Hb : root d1 = base).
    { rewrite Hd1, Hroot. cbn [root set_root]. now apply Dir_Join. }
    split; [exact Hb|].
    rewrite startArgs_eq, Hb.
    exists (GlobalFlags d1
            ++ [Command d1; "--containerd";
                "/var/run/docker/libcontainerd/docker-containerd.sock"]).
    eexists. rewrite <- !app_assoc. cbn [app]. reflexivity.
Qed.

(** *** LogFileName *)

(** X19.  [LogFileName] needs a log file: on a daemon that has none it
    dereferences nil, and stopping such a daemon does not change that.  Once
    [Start] has opened the log file and found the binary, the name of that file
    is returned, whether or not the child could be spawned and however [Start]
    ended, and also after [Stop] or [Kill] have closed the file. *)
Theorem LogFileName_lifecycle sw kw d (arg : list string) (f : File)
        (bin : string) :
  s_openFile sw (Join [folder d; "docker.log"]) = (f, None) ->
  s_lookPath sw dockerBinary = (bin, None) ->
  let r := Start' sw d arg in
  LogFileName (after r) = Returned (Name f) /\
  LogFileName (after (Stop kw (after r))) = Returned (Name f) /\
  LogFileName (after (Kill kw (after r))) = Returned (Name f) /\
  (logFile d = None ->
     LogFileName d = Panicked /\
     LogFileName (after (Stop kw d)) = Panicked /\
     LogFileName (after (Kill kw d)) = Panicked).
Proof.
  intros Hopen Hlook r.
  assert (Hlog : logFile (after r) = Some f).
  { unfold r. rewrite (Start_opens dockerBinary DefaultHTTPHost
                         DefaultTLSHTTPPort DefaultUnixSocket json_Unmarshal
                         sw d arg f Hopen).
    destruct (s_start sw) as [e|] eqn:Hst.
    - unfold StartWithLogFile. now rewrite Hlook, Hst.
    - now destruct (launch_fields sw d f arg bin Hlook Hst) as (_ & H & _). }
  assert (Hkeep : forall d', logFile (if hasHandle d' then set_cmd None d' else d')
                             = logFile d')
    by (intros d'; now destruct (hasHandle d')).
  unfold LogFileName. rewrite Stop_after, Kill_after, !Hkeep, Hlog.
  repeat (split; [reflexivity|]).
  intros Hd. rewrite Stop_after, Kill_after, !Hkeep, Hd.
  repeat split; reflexivity.
Qed.

(** *** NewDaemon *)

Lemma Clean_abs (p : string) :
  IsAbs p = true -> IsAbs (Clean p) = true /\ Clean (Clean p) = Clean p.
Proof.
  intros Hp. destruct (Clean_rooted p Hp) as (names & Hn & ->).
  split; [apply IsAbs_slash|].
  rewrite <- (append_nil_r (String.concat "/" names)) at 1.
  apply Clean_names; [exact Hn | now left].
Qed.

(** X20.  [NewDaemon] returns a daemon only when [DEST] is set and the root
    directory could be created.  The daemon it returns is in unix-ephemeral
    mode, has its root in [<folder>/root] and was never started: [Stop] and
    [Kill] on it report [daemon not started] and do nothing, and [LogFileName]
    dereferences nil.  When the working directory is an absolute path, the
    folder is an absolute path in clean form. *)
Theorem NewDaemon_fresh (w : NewWorld) (kw : StopWorld) d :
  NewDaemon w = Returned d ->
  n_getenv w "DEST" <> "" /\
  n_mkdirAll w (root d) = None /\
  root d = Join [folder d; "root"] /\
  useDefaultHost d = false /\ useDefaultTLSHost d = false /\
  storageDriver d = n_getenv w "DOCKER_GRAPHDRIVER" /\
  hasHandle d = false /\
  Stop kw d = notStarted d /\
  Kill kw d = notStarted d /\
  LogFileName d = Panicked /\
  (IsAbs (fst (n_getwd w)) = true ->
     IsAbs (folder d) = true /\ Clean (folder d) = folder d).
Proof.
  unfold NewDaemon.
  destruct (n_getenv w "DEST" =? "")%string eqn:Hdest; [discriminate|].
  apply String.eqb_neq in Hdest.
  destruct (Abs (n_getwd w) _) as [daemonFolder [e|]] eqn:Habs; [discriminate|].
  destruct (n_mkdirAll w _) eqn:Hmk; [discriminate|].
  intros [= <-]. cbn [root folder useDefaultHost useDefaultTLSHost storageDriver].
  split; [exact Hdest|]. split; [exact Hmk|].
  do 5 (split; [reflexivity|]).
  split; [now apply Stop_no_handle|]. split; [now apply Kill_not_started|].
  split; [reflexivity|].
  intros Hwd. unfold Abs in Habs.
  destruct (IsAbs (Join _)) eqn:Hp.
  - injection Habs as <-. now apply Clean_abs.
  - destruct (n_getwd w) as [wd [e|]]; [discriminate|].
    injection Habs as <-. cbn [fst] in Hwd.
    assert (Hne : (wd =? "")%string = false).
    { destruct wd; [discriminate | reflexivity]. }
    cbn [Join]. rewrite Hne. apply Clean_abs.
    cbn [String.concat]. now apply IsAbs_append.
Qed.

End LifecycleMore.

(** ** Start and shutdown together *)

Section ComposeMore.

Variable dockerBinary : string.
Variable DefaultHTTPHost : string.
Variable DefaultTLSHTTPPort : Z.
Variable DefaultUnixSocket : string.
Variable json_Unmarshal : string -> Info * option string.

#[local] Abbreviation getCfg :=
  (getClientConfig DefaultHTTPHost DefaultTLSHTTPPort DefaultUnixSocket).
#[local] Abbreviation query :=
  (queryRootDir DefaultHTTPHost DefaultTLSHTTPPort DefaultUnixSocket
                json_Unmarshal).
#[local] Abbreviation pinged :=
  (afterPing DefaultHTTPHost DefaultTLSHTTPPort DefaultUnixSocket
             json_Unmarshal).
#[local] Abbreviation poll :=
  (pollLoop DefaultHTTPHost DefaultTLSHTTPPort DefaultUnixSocket
            json_Unmarshal).
#[local] Abbreviation StartWith :=
  (StartWithLogFile dockerBinary DefaultHTTPHost DefaultTLSHTTPPort
                    DefaultUnixSocket json_Unmarshal).

Implicit Types (d : Daemon) (sw : StartWorld) (kw : StopWorld)
         (tr : list Action) (sched : list Turn).

#[local] Arguments String.append : simpl never.

(** [Stop] on a started instance begins with the interrupt and ends with
    the deferred function; the only file it removes is the pid file. *)
Lemma Stop_first_last kw d :
  started d ->
  (exists body, trace (Stop kw d) = Signal (pidOf d) :: body ++ closing d) /\
  (forall path, In (Remove path) (trace (Stop kw d)) -> path = pidFile d).
Proof.
  intros (c & p & ch & Hc & Hp & Hw).
  assert (Hpid : pidOf d = Pid p) by (unfold pidOf; now rewrite Hc, Hp).
  assert (Hnoremove : forall path, ~ In (Remove path) (closing d)).
  { intros path. unfold closing. destruct (logFile d); simpl; [|tauto].
    intros [H|[]]. discriminate. }
  unfold Stop. rewrite Hc, Hw, Hp, Hpid.
  destruct (k_signal kw 0) as [e|].
  { rewrite cleanup_eq. cbn [trace]. split; [now exists []|].
    intros path [H|H]; [discriminate | now apply Hnoremove in H]. }
  destruct (k_window kw) as [err|].
  { rewrite cleanup_eq. cbn [trace]. split; [eexists; reflexivity|].
    intros path [H|[H|H]]; try discriminate. now apply Hnoremove in H. }
  destruct (escalate 4 kw p 0 1 _) as [ex tr'] eqn:E.
  apply escalate_inv in E. destruct E as (added & -> & _ & Hr & _).
  assert (Hadded : forall path, ~ In (Remove path) added).
  { intros path Hin. apply (existsb_none_in isRemove) in Hin; [|exact Hr].
    discriminate. }
  assert (Hquiet : forall out,
    let t := trace (cleanup d out
               (([Signal (Pid p)] ++ [RecvAfter (15 * Second); Logf "timeout"])
                  ++ added)) in
    (exists body, t = Signal (Pid p) :: body ++ closing d) /\
    (forall path, In (Remove path) t -> path = pidFile d)).
  { intros out. rewrite cleanup_eq. cbn [trace]. split.
    - exists ([RecvAfter (15 * Second); Logf "timeout"] ++ added).
      rewrite <- !app_assoc. reflexivity.
    - intros path H. apply in_app_or in H. destruct H as [H|H];
        [|now apply Hnoremove in H].
      apply in_app_or in H. destruct H as [H|H]; [|now apply Hadded in H].
      destruct H as [H|[H|[H|[]]]]; discriminate. }
  destruct ex as [err| |]; try apply Hquiet.
  rewrite killAndRemove_eq.
  destruct (k_kill kw) as [e|]; rewrite cleanup_eq; cbn [trace]; split.
  - exists ([RecvAfter (15 * Second); Logf "timeout"] ++ added
            ++ [HardKill (Pid p); Logf ("Could not kill daemon: " +++ e)]).
    rewrite <- !app_assoc. reflexivity.
  - intros path H. apply in_app_or in H. destruct H as [H|H];
      [|now apply Hnoremove in H].
    apply in_app_or in H. destruct H as [H|H].
    + apply in_app_or in H. destruct H as [H|H]; [|now apply Hadded in H].
      destruct H as [H|[H|[H|[]]]]; discriminate.
    + destruct H as [H|[H|[]]]; discriminate.
  - exists ([RecvAfter (15 * Second); Logf "timeout"] ++ added
            ++ [HardKill (Pid p); Remove (pidFile d)]).
    rewrite <- !app_assoc. reflexivity.
  - intros path H. apply in_app_or in H. destruct H as [H|H];
      [|now apply Hnoremove in H].
    apply in_app_or in H. destruct H as [H|H].
    + apply in_app_or in H. destruct H as [H|H]; [|now apply Hadded in H].
      destruct H as [H|[H|[H|[]]]]; discriminate.
    + destruct H as [H|[H|[]]]; [discriminate|]. now injection H.
Qed.

(** X21.  What [Start] sets up is what [Stop] and [Kill] take down.  Once the
    child was spawned, however [Start] ended, [Stop] interrupts the process
    [Start] spawned and [Kill] kills it; both close the log file [Start] wrote
    to, as their last action; and the only file they ever remove is the one
    [Start] named to the daemon with [--pidfile]. *)
Theorem Start_then_shutdown sw kw d (out : File) (providedArgs : list string)
        (bin : string) :
  s_lookPath sw dockerBinary = (bin, None) ->
  s_start sw = None ->
  let r := StartWith sw d out providedArgs in
  let p := folder d +++ "/docker.pid" in
  (exists before behind added,
     trace r = Spawn (spawned bin out (before ++ ["--pidfile"; p] ++ behind))
               :: added) /\
  (exists body,
     trace (Stop kw (after r)) = Signal (s_pid sw) :: body ++ [Close out]) /\
  (exists body,
     trace (Kill kw (after r)) = HardKill (s_pid sw) :: body ++ [Close out]) /\
  (forall path,
     In (Remove path) (trace (Stop kw (after r))) \/
     In (Remove path) (trace (Kill kw (after r))) -> path = p) /\
  cmd (after (Stop kw (after r))) = None /\
  cmd (after (Kill kw (after r))) = None.
Proof.
  intros Hlook Hstart r p.
  destruct (launch_fields dockerBinary DefaultHTTPHost DefaultTLSHTTPPort
              DefaultUnixSocket json_Unmarshal sw d out providedArgs bin
              Hlook Hstart)
    as (Hh & Hlog & Hf & _ & Hst & Hpid & added & Htr).
  fold r in Hh, Hlog, Hf, Hst, Hpid, Htr.
  assert (Hclosing : closing (after r) = [Close out])
    by (unfold closing; now rewrite Hlog).
  assert (Hp : pidFile (after r) = p) by (unfold pidFile, p; now rewrite Hf).
  destruct (Stop_first_last kw (after r) Hst) as [(body & Hbody) Hrm].
  destruct (Kill_paths kw (after r) Hst) as [Hkafter Hk].
  rewrite Hpid, Hclosing in Hbody. rewrite Hp in Hrm.
  rewrite Hpid, Hclosing, Hp in Hk.
  split.
  { rewrite Htr, startArgs_eq.
    exists (GlobalFlags d
            ++ [Command d; "--containerd";
                "/var/run/docker/libcontainerd/docker-containerd.sock";
                "--graph"; root d; "--exec-root"; Join [folder d; "exec-root"]]).
    eexists. exists added. rewrite <- !app_assoc. cbn [app]. reflexivity. }
  split; [now exists body|].
  split.
  { destruct (k_kill kw) as [e|]; destruct Hk as [_ ->].
    - now exists [Logf ("Could not kill daemon: " +++ e)].
    - now exists [Remove p]. }
  split.
  { intros path [H|H]; [now apply Hrm|].
    destruct (k_kill kw) as [e|]; destruct Hk as [_ Hk]; rewrite Hk in H;
      cbn [app In] in H; destruct H as [H|[H|[H|[]]]]; try discriminate.
    now injection H. }
  split.
  - rewrite Stop_after, Hh. reflexivity.
  - rewrite Hkafter. reflexivity.
Qed.

(** *** What a nil from Start means *)

Lemma query_nil_trace (info : Exchange) d (root' : string) :
  fst (query info d) = Returned (root', None) ->
  exists cc, snd (query info d) = [Do "GET" "/info" cc].
Proof.
  unfold queryRootDir.
  destruct (getCfg (x_cfg info) d) as [[cc|err]| | | |]; cbn [fst];
    try discriminate.
  destruct (x_newRequest info); cbn [fst]; try discriminate.
  destruct (x_do info) as [e'|resp|]; cbn [fst]; try discriminate.
  destruct (Body resp) as [b [e'|]]; cbn [fst]; try discriminate.
  destruct (StatusCode resp =? 200).
  - destruct (json_Unmarshal b) as [i [e'|]]; cbn [fst]; try discriminate.
    intros _. now exists cc.
  - intros _. now exists cc.
Qed.

Lemma poll_nil (info : Exchange) d (st : Z) sched : forall now tr,
  let r := poll info d st now sched tr in
  ended r = Returned None ->
  (exists t x resp,
      In t sched /\ fired t = FiredTick x /\ x_newRequest x = None /\
      x_do x = DoResp resp) /\
  fst (query info d) = Returned (root (after r), None) /\
  after r = set_root (root (after r)) d /\
  exists added,
    trace r = tr ++ added /\
    existsb isPing added = true /\
    count isInfo added = 1%nat /\
    In (Logf (tagged d "daemon started")) added.
Proof.
  induction sched as [|t sched IH]; intros now tr r; unfold r.
  - cbn [pollLoop]. destruct (sub64 (Unix now) st >? 5); discriminate.
  - destruct (deadlineOpen st now) eqn:Hd.
    2:{ rewrite poll_deadline by exact Hd. discriminate. }
    destruct t as [w [|x|err]].
    + rewrite poll_after by exact Hd. discriminate.
    + unfold deadlineOpen in Hd. apply negb_true_iff in Hd.
      cbn [pollLoop]. rewrite Hd. cbn [fired waited].
      destruct (getCfg (x_cfg x) d) as [[cc|e]| | | |]; try discriminate.
      destruct (x_newRequest x) eqn:Hreq; try discriminate.
      destruct (x_do x) as [e|resp|] eqn:Hdo; try discriminate.
      * intros Hend.
        specialize (IH (now + w + x_took x)
                     (((tr ++ [Logf (tagged d "waiting for daemon to start")])
                         ++ [RecvTick (500 * Millisecond)])
                        ++ [Do "GET" "/_ping" cc]) Hend).
        destruct IH as ((t' & x' & resp' & Hin & Hf & Hn & Hx) & Hq & Hafter
                        & added & Htr & Hping & Hinfo & Hlog).
        split; [exists t', x', resp'; repeat split; auto; now right|].
        split; [exact Hq|]. split; [exact Hafter|].
        rewrite Htr, <- !app_assoc. eexists. split; [reflexivity|].
        split; [cbn [app existsb isPing]; reflexivity|].
        split.
        -- rewrite !count_app, Hinfo. reflexivity.
        -- apply in_or_app. right. apply in_or_app. right.
           apply in_or_app. right. exact Hlog.
      * pose proof (pinged_result DefaultHTTPHost DefaultTLSHTTPPort
                      DefaultUnixSocket json_Unmarshal info d resp
                      (((tr ++ [Logf (tagged d "waiting for daemon to start")])
                          ++ [RecvTick (500 * Millisecond)])
                         ++ [Do "GET" "/_ping" cc])) as Hres.
        cbv zeta in Hres.
        pose proof (pinged_trace DefaultHTTPHost DefaultTLSHTTPPort
                      DefaultUnixSocket json_Unmarshal info d resp
                      (((tr ++ [Logf (tagged d "waiting for daemon to start")])
                          ++ [RecvTick (500 * Millisecond)])
                         ++ [Do "GET" "/_ping" cc])) as Htr.
        intros Hend.
        destruct (fst (query info d)) as [[root' [e|]]| | | |] eqn:Hq;
          destruct Hres as [Hres Hafter]; rewrite Hres in Hend;
          try discriminate.
        destruct (query_nil_trace info d root' Hq) as [cc' Hqtr].
        split.
        { exists (mkTurn w (FiredTick x)), x, resp.
          repeat split; auto. now left. }
        rewrite Hafter. cbn [root set_root].
        split; [reflexivity|]. split; [reflexivity|].
        rewrite Htr, Hqtr, <- !app_assoc. eexists. split; [reflexivity|].
        split; [cbn [app existsb isPing]; reflexivity|].
        split.
        -- rewrite !count_app. unfold count.
           destruct (StatusCode resp =? 200); reflexivity.
        -- apply in_or_app. right. apply in_or_app. right.
           apply in_or_app. right. apply in_or_app. right.
           apply in_or_app. left. now left.
    + rewrite poll_wait by exact Hd. discriminate.
Qed.

(** X22.  [Start] returns no error only when the child was spawned, an attempt
    of the readiness loop was answered (with whatever status), and [/info] was
    then queried, once, and returned no error; the root of the daemon is the one
    that query gave, and the daemon holds its handle. *)
Theorem Start_nil_sound sw d (out : File) (providedArgs : list string) :
  let r := StartWith sw d out providedArgs in
  ended r = Returned None ->
  s_start sw = None /\
  (exists t x resp,
      In t (s_sched sw) /\ fired t = FiredTick x /\ x_do x = DoResp resp) /\
  fst (query (s_info sw) d) = Returned (root (after r), None) /\
  existsb isPing (trace r) = true /\
  count isInfo (trace r) = 1%nat /\
  In (Logf ("[" +++ id d +++ "] daemon started")) (trace r) /\
  hasHandle (after r) = true.
Proof.
  intros r Hend.
  assert (H : exists bin, s_lookPath sw dockerBinary = (bin, None) /\
                          s_start sw = None).
  { unfold r, StartWithLogFile in Hend.
    destruct (s_lookPath sw dockerBinary) as [bin [e|]]; [discriminate|].
    destruct (s_start sw); [discriminate|]. now exists bin. }
  destruct H as (bin & Hlook & Hstart).
  pose proof (Start_launch dockerBinary DefaultHTTPHost DefaultTLSHTTPPort
                DefaultUnixSocket json_Unmarshal sw d out providedArgs bin
                Hlook Hstart) as Hr.
  cbv zeta in Hr. fold r in Hr.
  destruct (launch_fields dockerBinary DefaultHTTPHost DefaultTLSHTTPPort
              DefaultUnixSocket json_Unmarshal sw d out providedArgs bin
              Hlook Hstart) as (Hh & _).
  fold r in Hh.
  rewrite Hr in Hend. apply poll_nil in Hend. rewrite <- Hr in Hend.
  destruct Hend as ((t & x & resp & Hin & Hf & _ & Hx) & Hq & _
                    & added & Htr & Hping & Hinfo & Hlog).
  split; [exact Hstart|].
  split; [now exists t, x, resp|].
  split; [exact Hq|].
  rewrite Htr.
  split; [rewrite existsb_app, Hping; apply orb_true_r|].
  split; [rewrite count_app, Hinfo; reflexivity|].
  split; [apply in_or_app; right; exact Hlog | exact Hh].
Qed.

End ComposeMore.

(** ** The further properties at sample inputs *)

Section MoreInstances.

Import Sample SampleMore.

#[local] Abbreviation StartWith :=
  (StartWithLogFile binary httpHost tlsPort unixSocket unmarshal).
#[local] Abbreviation Start' :=
  (Start binary httpHost tlsPort unixSocket unmarshal).

(** Scenario E at the sample daemon: four interrupts, one kill, the pid file
    removed once. *)
Lemma Stop_action_bounds_witness :
  started running /\
  (1 <= count isSignal (trace (Stop deaf running)) <= 4)%nat /\
  (count isHardKill (trace (Stop deaf running)) <= 1)%nat /\
  (forall path, In (Remove path) (trace (Stop deaf running)) ->
                path = "/tmp/d1/docker.pid").
Proof.
  split; [exact running_started|].
  pose proof (Stop_action_bounds deaf running running_started) as H.
  cbv zeta in H. destruct H as (_ & Hs & Hk & _ & Hr & _).
  split; [exact Hs|]. split; [exact Hk | exact Hr].
Defined.

Lemma Kill_single_shot_witness :
  started running /\
  k_kill killFails = Some "os: process already finished" /\
  ended (Kill killFails running) =
    Returned (Some (sysError "os: process already finished")) /\
  existsb isRemove (trace (Kill killFails running)) = false /\
  Kill deaf (after (Kill killFails running)) =
    notStarted (after (Kill killFails running)).
Proof.
  split; [exact running_started|]. split; [reflexivity|].
  pose proof (Kill_single_shot killFails deaf running running_started) as H.
  cbv zeta in H. destruct H as (_ & _ & _ & _ & H).
  exact (H _ eq_refl).
Defined.

Lemma Start_keeps_child_witness :
  s_lookPath (world crash) binary = ("/usr/bin/docker", None) /\
  s_start (world crash) = None /\
  hasHandle (after (StartWith (world crash) fresh log [])) = true /\
  pidOf (after (StartWith (world crash) fresh log [])) = 4242 /\
  existsb isShutdown (trace (StartWith (world crash) fresh log [])) = false.
Proof.
  do 2 (split; [reflexivity|]).
  pose proof (Start_keeps_child binary httpHost tlsPort unixSocket unmarshal
                (world crash) fresh log [] "/usr/bin/docker" eq_refl eq_refl)
    as H.
  cbv zeta in H. destruct H as (_ & Hh & Hp & _ & _ & Hq & _).
  split; [exact Hh|]. split; [exact Hp | exact Hq].
Defined.

Lemma Start_spawn_failure_witness :
  s_lookPath unspawnable binary = ("/usr/bin/docker", None) /\
  s_start unspawnable = Some "fork/exec /usr/bin/docker: permission denied" /\
  wait fresh = None /\
  ended (StartWith unspawnable fresh log []) =
    Returned (Some (errorString
      "[d1] could not start daemon container: fork/exec /usr/bin/docker: permission denied")) /\
  Stop deaf (after (StartWith unspawnable fresh log [])) =
    notStarted (after (StartWith unspawnable fresh log [])).
Proof.
  do 3 (split; [reflexivity|]).
  pose proof (Start_spawn_failure binary httpHost tlsPort unixSocket unmarshal
                unspawnable deaf fresh log [] "/usr/bin/docker" _
                eq_refl eq_refl) as H.
  cbv zeta in H. destruct H as (Hend & _ & _ & _ & _ & _ & Hstop).
  split; [exact Hend | exact (proj1 (Hstop eq_refl))].
Defined.

Lemma Stop_after_failed_respawn_witness :
  started running /\
  s_lookPath unspawnable binary = ("/usr/bin/docker", None) /\
  s_start unspawnable = Some "fork/exec /usr/bin/docker: permission denied" /\
  ended (Stop deaf (after (StartWith unspawnable
                             (after (Stop exitsInWindow running)) log []))) =
    Panicked.
Proof.
  split; [exact running_started|]. do 2 (split; [reflexivity|]).
  pose proof (Stop_after_failed_respawn binary httpHost tlsPort unixSocket
                unmarshal exitsInWindow deaf unspawnable running log []
                "/usr/bin/docker" _ running_started eq_refl eq_refl) as H.
  cbv zeta in H. destruct H as (_ & _ & H & _). exact H.
Defined.

Lemma Start_never_started_witness :
  s_lookPath (world (refused ++ crash)) binary = ("/usr/bin/docker", None) /\
  s_start (world (refused ++ crash)) = None /\
  forallb (fun t => isRetry t && forward t) refused = true /\
  0 <= s_now (world (refused ++ crash)) /\
  6 * Second <= total refused /\
  s_now (world (refused ++ crash)) + total refused < 2 ^ 62 /\
  ended (StartWith (world (refused ++ crash)) fresh log []) =
    Returned (Some (errorString "[d1] Daemon exited and never started")).
Proof.
  assert (H0 : 0 <= s_now (world (refused ++ crash))) by (vm_compute; discriminate).
  assert (H1 : 6 * Second <= total refused) by (vm_compute; discriminate).
  assert (H2 : s_now (world (refused ++ crash)) + total refused < 2 ^ 62)
    by reflexivity.
  split; [reflexivity|]. split; [reflexivity|]. split; [reflexivity|].
  split; [exact H0|]. split; [exact H1|]. split; [exact H2|].
  exact (proj1 (Start_never_started binary httpHost tlsPort unixSocket
                  unmarshal (world (refused ++ crash)) fresh log []
                  "/usr/bin/docker" refused crash
                  eq_refl eq_refl eq_refl eq_refl H0 H1 H2)).
Defined.

Lemma queryRootDir_results_witness :
  fst (queryRootDir httpHost tlsPort unixSocket unmarshal
         (exchange Millisecond (DoResp info200)) fresh) =
    Returned ("/tmp/d1/root", None) /\
  exists resp b,
    x_do (exchange Millisecond (DoResp info200)) = DoResp resp /\
    Body resp = (b, None) /\
    ((StatusCode resp = 200 /\
      exists i, unmarshal b = (i, None) /\ "/tmp/d1/root" = DockerRootDir i) \/
     (StatusCode resp <> 200 /\ "/tmp/d1/root" = "")).
Proof.
  split; [reflexivity|].
  exact (queryRootDir_results httpHost tlsPort unixSocket unmarshal
           (exchange Millisecond (DoResp info200)) fresh "/tmp/d1/root" None
           eq_refl).
Defined.

Lemma folder_socket_shared_witness :
  isCleanAbs (folder fresh) = true /\
  useDefaultHost fresh = false /\ useDefaultTLSHost fresh = false /\
  configureTransport cfgOk = None /\
  getClientConfig httpHost tlsPort unixSocket cfgOk fresh =
    Returned (inl (mkClientConfig
      (mkTransport None "unix" "/tmp/d1/docker.sock") "http"
      "/tmp/d1/docker.sock")) /\
  snd (Cmd_ binary cli fresh "version" []) =
    [Exec ["docker"; "--host"; "unix:///tmp/d1/docker.sock"; "version"]].
Proof.
  do 4 (split; [reflexivity|]).
  pose proof (folder_socket_shared binary httpHost tlsPort unixSocket cfgOk cli
                fresh "version" [] noenv [] eq_refl eq_refl eq_refl eq_refl)
    as H.
  cbv zeta in H. destruct H as (Hcfg & _ & _ & Hcmd).
  split; [exact Hcfg | exact Hcmd].
Defined.

Lemma Restart_stops_then_starts_witness :
  (started runningRemapped \/ hasHandle runningRemapped = false) /\
  s_getenv remapped "DOCKER_REMAP_ROOT" <> "" /\
  isCleanAbs "/tmp/d1/root" = true /\ plainName "1000.1000" = true /\
  root runningRemapped = Join ["/tmp/d1/root"; "1000.1000"] /\
  trace (Restart binary httpHost tlsPort unixSocket unmarshal
                 exitsInWindow remapped runningRemapped []) =
    trace (Stop exitsInWindow runningRemapped)
      ++ trace (Start' remapped
                  (set_root "/tmp/d1/root" (set_cmd None runningRemapped)) []).
Proof.
  assert (Hst : started runningRemapped \/ hasHandle runningRemapped = false).
  { left. destruct running_started as (c & p & ch & Hc & Hp & Hw).
    exists c, p, ch. repeat split; assumption. }
  assert (Hre : s_getenv remapped "DOCKER_REMAP_ROOT" <> "") by discriminate.
  split; [exact Hst|]. split; [exact Hre|]. do 3 (split; [reflexivity|]).
  pose proof (Restart_stops_then_starts binary httpHost tlsPort unixSocket
                unmarshal exitsInWindow remapped runningRemapped [] Hst) as H.
  cbv zeta in H. destruct H as (_ & _ & Htr & _ & _).
  exact Htr.
Defined.

Lemma LogFileName_lifecycle_witness :
  s_openFile (world crash) (Join [folder fresh; "docker.log"]) = (log, None) /\
  s_lookPath (world crash) binary = ("/usr/bin/docker", None) /\
  logFile fresh = None /\
  LogFileName fresh = Panicked /\
  LogFileName (after (Start' (world crash) fresh [])) =
    Returned "/tmp/d1/docker.log" /\
  LogFileName (after (Stop deaf (after (Start' (world crash) fresh [])))) =
    Returned "/tmp/d1/docker.log".
Proof.
  do 3 (split; [reflexivity|]).
  pose proof (LogFileName_lifecycle binary httpHost tlsPort unixSocket
                unmarshal (world crash) deaf fresh [] log "/usr/bin/docker"
                eq_refl eq_refl) as H.
  cbv zeta in H. destruct H as (H1 & H2 & _ & H4).
  split; [exact (proj1 (H4 eq_refl))|]. split; [exact H1 | exact H2].
Defined.

Lemma NewDaemon_fresh_witness :
  IsAbs (fst (n_getwd creation)) = true /\
  exists d,
    NewDaemon creation = Returned d /\
    folder d = "/tmp/d23456789" /\
    root d = Join [folder d; "root"] /\
    Stop deaf d = notStarted d /\
    IsAbs (folder d) = true /\ Clean (folder d) = folder d.
Proof.
  split; [reflexivity|].
  eexists. split; [reflexivity|]. split; [reflexivity|].
  pose proof (NewDaemon_fresh creation deaf _ eq_refl) as H.
  destruct H as (_ & _ & Hroot & _ & _ & _ & _ & Hstop & _ & _ & Habs).
  split; [exact Hroot|]. split; [exact Hstop|]. exact (Habs eq_refl).
Defined.

Lemma Start_then_shutdown_witness :
  s_lookPath (world up) binary = ("/usr/bin/docker", None) /\
  s_start (world up) = None /\
  (exists body,
     trace (Stop deaf (after (StartWith (world up) fresh log []))) =
     Signal 4242 :: body ++ [Close log]) /\
  (forall path,
     In (Remove path) (trace (Stop deaf (after (StartWith (world up) fresh log []))))
     \/ In (Remove path)
          (trace (Kill deaf (after (StartWith (world up) fresh log [])))) ->
     path = "/tmp/d1/docker.pid").
Proof.
  do 2 (split; [reflexivity|]).
  pose proof (Start_then_shutdown binary httpHost tlsPort unixSocket unmarshal
                (world up) deaf fresh log [] "/usr/bin/docker"
                eq_refl eq_refl) as H.
  cbv zeta in H. destruct H as (_ & Hs & _ & Hr & _).
  split; [exact Hs | exact Hr].
Defined.

Lemma Start_nil_sound_witness :
  ended (StartWith (world up) fresh log []) = Returned None /\
  fst (queryRootDir httpHost tlsPort unixSocket unmarshal
         (s_info (world up)) fresh) =
    Returned (root (after (StartWith (world up) fresh log [])), None) /\
  count isInfo (trace (StartWith (world up) fresh log [])) = 1%nat /\
  hasHandle (after (StartWith (world up) fresh log [])) = true.
Proof.
  split; [reflexivity|].
  pose proof (Start_nil_sound binary httpHost tlsPort unixSocket unmarshal
                (world up) fresh log [] eq_refl) as H.
  destruct H as (_ & _ & Hq & _ & Hi & _ & Hh).
  split; [exact Hq|]. split; [exact Hi | exact Hh].
Defined.

End MoreInstances.
